(** * A shallow embedding of the embedding-based blog search engine

    The development follows [search_engine.py] (class
    [MinimalBlogSearchEngine]): Python strings are [string]s over ASCII,
    Python dictionaries are insertion-ordered association lists, the
    methods of the class are computations in a small state monad over the
    fields of [self], and the numeric dtype of the word vectors is an
    interface with an IEEE binary32 instance and an exact rational one.
    The character classes and the lower-casing of [PyStr] are those of
    ASCII text; the tokenizer is also given for every Python [str], as a
    sequence of code points, over the tables of the Unicode character
    database ([Unicode]).
    The pure parts of [blog_scraper.py] (file names, the text of a saved
    post, the retry loop, the removal of duplicate links) and the routes of
    [app.py] that sit on the engine follow the engine. *)

From Stdlib Require Import List String Ascii Bool Arith NArith ZArith Lia Permutation Sorted.
From Stdlib Require Import QArith.
From Stdlib Require Import Floats.SpecFloat.
From Stdlib Require Import DecimalString DecimalNat.
Import ListNotations.

Local Close Scope Q_scope.
Local Open Scope string_scope.
Local Open Scope list_scope.
Local Open Scope nat_scope.

(** ** Python [str] operations (ASCII model)

    The classes of characters and [lower] are those of ASCII text: on a
    string whose characters are all below 128 they are what Python
    computes. *)

Module PyStr.

(** [c.isupper()], [c.islower()], [c.isalpha()] on ASCII code points. *)
Definition is_upper (c : ascii) : bool :=
  let n := nat_of_ascii c in (65 <=? n) && (n <=? 90).

Definition is_lower (c : ascii) : bool :=
  let n := nat_of_ascii c in (97 <=? n) && (n <=? 122).

Definition is_alpha (c : ascii) : bool := is_upper c || is_lower c.

Definition is_digit (c : ascii) : bool :=
  let n := nat_of_ascii c in (48 <=? n) && (n <=? 57).

(** [c.isspace()]: tab, line feed, vertical tab, form feed, carriage
    return, the four separators 28..31 and the space. *)
Definition is_space (c : ascii) : bool :=
  let n := nat_of_ascii c in
  ((9 <=? n) && (n <=? 13)) || ((28 <=? n) && (n <=? 32)).

Definition lower_char (c : ascii) : ascii :=
  if is_upper c then ascii_of_nat (nat_of_ascii c + 32) else c.

(** [s.lower()] *)
Fixpoint lower (s : string) : string :=
  match s with
  | EmptyString => EmptyString
  | String c r => String (lower_char c) (lower r)
  end.

(** [s.startswith(p)] *)
Fixpoint startswith (p s : string) : bool :=
  match p with
  | EmptyString => true
  | String a p' =>
      match s with
      | EmptyString => false
      | String b s' => Ascii.eqb a b && startswith p' s'
      end
  end.

Fixpoint rev_string_onto (s acc : string) : string :=
  match s with
  | EmptyString => acc
  | String c r => rev_string_onto r (String c acc)
  end.

Definition rev_string (s : string) : string := rev_string_onto s EmptyString.

(** [s.endswith(p)] *)
Definition endswith (p s : string) : bool :=
  startswith (rev_string p) (rev_string s).

(** [s.lstrip()], [s.rstrip()], [s.strip()] *)
Fixpoint lstrip (s : string) : string :=
  match s with
  | EmptyString => EmptyString
  | String c r => if is_space c then lstrip r else s
  end.

Definition rstrip (s : string) : string := rev_string (lstrip (rev_string s)).

Definition strip (s : string) : string := rstrip (lstrip s).

(** [s[:n]] and [s[n:]] for [n >= 0] *)
Fixpoint take (n : nat) (s : string) : string :=
  match n, s with
  | S n', String c r => String c (take n' r)
  | _, _ => EmptyString
  end.

Fixpoint drop (n : nat) (s : string) : string :=
  match n, s with
  | S n', String _ r => drop n' r
  | _, _ => s
  end.

(** [s.replace(old, new)] for a non-empty [old]: occurrences are replaced
    from left to right and do not overlap.  [skip] counts the characters
    of the current occurrence that remain to be dropped. *)
Fixpoint replace_from (old new : string) (skip : nat) (s : string) : string :=
  match s with
  | EmptyString => EmptyString
  | String c r =>
      match skip with
      | S k => replace_from old new k r
      | O =>
          if startswith old s
          then (new ++ replace_from old new (String.length old - 1) r)%string
          else String c (replace_from old new 0 r)
      end
  end.

Definition replace (old new s : string) : string := replace_from old new 0 s.

(** [s.split(sep)] for a one-character separator: the result is never
    empty, and [cur] is the piece being read. *)
Fixpoint split_from (sep : ascii) (cur : string) (s : string) : list string :=
  match s with
  | EmptyString => [rev_string cur]
  | String c r =>
      if Ascii.eqb c sep then rev_string cur :: split_from sep EmptyString r
      else split_from sep (String c cur) r
  end.

Definition split (sep : ascii) (s : string) : list string :=
  split_from sep EmptyString s.

(** [sep.join(l)] *)
Fixpoint join (sep : string) (l : list string) : string :=
  match l with
  | [] => EmptyString
  | [x] => x
  | x :: r => (x ++ sep ++ join sep r)%string
  end.

(** [sub in s] *)
Fixpoint contains (sub s : string) : bool :=
  startswith sub s ||
  match s with
  | EmptyString => false
  | String _ r => contains sub r
  end.

(** Every character of [s] satisfies [p]. *)
Fixpoint all_chars (p : ascii -> bool) (s : string) : bool :=
  match s with
  | EmptyString => true
  | String c r => p c && all_chars p r
  end.

End PyStr.

(** ** The tokenizer: [gensim.utils.simple_preprocess]

    The library function called by [_clean_text].  It lower-cases the
    text, takes the maximal matches of the pattern [((?![\d])\w)+] (runs
    of word characters that are not digits) and keeps the tokens whose
    length is between [min_len] and [max_len] and that do not start with
    an underscore.  This is the tokenizer on ASCII text, where the word
    characters that are not digits are the 52 letters and the underscore;
    [Unicode] below has it for every text, and [clean_text_code_points]
    relates the two. *)

Definition is_word_char (c : ascii) : bool :=
  PyStr.is_alpha c || Ascii.eqb c "_"%char.

Definition flush (cur : string) : list string :=
  match cur with
  | EmptyString => []
  | _ => [PyStr.rev_string cur]
  end.

(** [simple_tokenize]: the successive matches of the pattern; [cur] is
    the current run, most recent character first. *)
Fixpoint simple_tokenize_from (cur : string) (s : string) : list string :=
  match s with
  | EmptyString => flush cur
  | String c r =>
      if is_word_char c then simple_tokenize_from (String c cur) r
      else flush cur ++ simple_tokenize_from EmptyString r
  end.

Definition tokenize_lower (text : string) : list string :=
  simple_tokenize_from EmptyString (PyStr.lower text).

Definition simple_preprocess (doc : string) (min_len max_len : nat) : list string :=
  filter (fun token =>
            (min_len <=? String.length token)
            && (String.length token <=? max_len)
            && negb (PyStr.startswith "_" token))
         (tokenize_lower doc).

(** [MinimalBlogSearchEngine._clean_text] *)
Definition _clean_text (text : string) : list string :=
  simple_preprocess text 3 50.

(** ** The tokenizer on Unicode text

    A Python [str] is a sequence of Unicode code points.  The classes
    [\w] and [\d] of the pattern, which is compiled with [re.UNICODE],
    and [str.lower] are read from the Unicode character database, which
    is not part of the program: they are the parameters of the section. *)

Module Unicode.

Definition str : Type := list N.

(** The code point of the underscore. *)
Definition underscore : N := 95%N.

(** [token.startswith('_')] *)
Definition startswith_underscore (token : str) : bool :=
  match token with
  | c :: _ => N.eqb c underscore
  | [] => false
  end.

Section Tables.
Variable word : N -> bool.        (* the class \w *)
Variable digit : N -> bool.       (* the class \d *)
Variable lower : str -> str.      (* str.lower *)

(** One character of a match of [((?![\d])\w)+]. *)
Definition is_word_char (c : N) : bool := negb (digit c) && word c.

Definition flush (cur : str) : list str :=
  match cur with
  | [] => []
  | _ => [rev cur]
  end.

(** [simple_tokenize]: the successive matches of the pattern; [cur] is
    the current run, most recent character first. *)
Fixpoint simple_tokenize_from (cur : str) (s : str) : list str :=
  match s with
  | [] => flush cur
  | c :: r =>
      if is_word_char c then simple_tokenize_from (c :: cur) r
      else flush cur ++ simple_tokenize_from [] r
  end.

Definition tokenize_lower (text : str) : list str :=
  simple_tokenize_from [] (lower text).

Definition simple_preprocess (doc : str) (min_len max_len : nat) : list str :=
  filter (fun token =>
            (min_len <=? List.length token)
            && (List.length token <=? max_len)
            && negb (startswith_underscore token))
         (tokenize_lower doc).

(** [MinimalBlogSearchEngine._clean_text] *)
Definition _clean_text (text : str) : list str :=
  simple_preprocess text 3 50.

(** [t] is a maximal run of characters of the pattern in [text]: it is
    not empty, the pattern accepts each of its characters, and in [text]
    it is neither preceded nor followed by a character that the pattern
    accepts. *)
Definition maximal_run (t text : str) : Prop :=
  t <> []
  /\ forallb is_word_char t = true
  /\ exists pre post,
       text = pre ++ t ++ post
       /\ (pre = [] \/ exists pre' c, pre = pre' ++ [c] /\ is_word_char c = false)
       /\ (post = [] \/ exists c post', post = c :: post' /\ is_word_char c = false).

End Tables.

End Unicode.

(** The code points of a [string], and the tables restricted to ASCII:
    the letters, the digits and the underscore are the word characters,
    and only the letters A to Z have another lower case. *)
Definition code_points (s : string) : Unicode.str :=
  map N_of_ascii (list_ascii_of_string s).

Definition ascii_word (c : N) : bool :=
  (c <? 256)%N
  && (PyStr.is_alpha (ascii_of_N c) || PyStr.is_digit (ascii_of_N c)
      || Ascii.eqb (ascii_of_N c) "_"%char).

Definition ascii_digit (c : N) : bool :=
  (c <? 256)%N && PyStr.is_digit (ascii_of_N c).

Definition ascii_space (c : N) : bool :=
  (c <? 256)%N && PyStr.is_space (ascii_of_N c).

Definition ascii_lower (s : Unicode.str) : Unicode.str :=
  map (fun c => if (c <? 256)%N
                then N_of_ascii (PyStr.lower_char (ascii_of_N c))
                else c) s.

(** ** Python [dict]: an insertion-ordered association list with string keys *)

Definition dict (V : Type) : Type := list (string * V).

Fixpoint dict_get {V : Type} (k : string) (d : dict V) : option V :=
  match d with
  | [] => None
  | (k', v) :: r => if String.eqb k k' then Some v else dict_get k r
  end.

(** [d[k] = v]: an existing key keeps its position, a new key goes last. *)
Fixpoint dict_set {V : Type} (k : string) (v : V) (d : dict V) : dict V :=
  match d with
  | [] => [(k, v)]
  | (k', v') :: r =>
      if String.eqb k k' then (k', v) :: r else (k', v') :: dict_set k v r
  end.

Definition dict_keys {V : Type} (d : dict V) : list string := map fst d.

(** [d.get(k, default)] *)
Definition dict_get_default {V : Type} (k : string) (default : V) (d : dict V) : V :=
  match dict_get k d with
  | Some v => v
  | None => default
  end.

(** Python slice [l[:k]] for an integer [k]: a negative [k] counts from
    the end of the list. *)
Definition py_slice_to {A : Type} (k : Z) (l : list A) : list A :=
  if (0 <=? k)%Z then firstn (Z.to_nat k) l
  else firstn (Z.to_nat (Z.of_nat (List.length l) + k)) l.

(** ** The numeric dtype of the vectors

    [Arith] is what mean pooling needs, [Metric] adds what the cosine
    ranking needs.  The comparison law is the one fact about the order
    the ranking relies on; it holds of IEEE comparisons, NaN included. *)

Class Arith : Type := {
  num : Type;
  nzero : num;
  nadd : num -> num -> num;
  ndiv : num -> num -> num;
  nof_nat : nat -> num
}.

Class Metric (A : Arith) : Type := {
  nmul : num -> num -> num;
  nsqrt : num -> num;
  nhalf : num;                      (* the literal 0.5 *)
  neqb : num -> num -> bool;        (* x == y *)
  nltb : num -> num -> bool;        (* x < y *)
  nltb_zero_neqb : forall x, nltb nzero x = true -> neqb x nzero = false
}.

(** IEEE 754 binary32, the dtype of the word vectors. *)
Module B32.

Definition prec : Z := 24.
Definition emax : Z := 128.

Definition of_Z (z : Z) : spec_float := binary_normalize prec emax z 0 false.

Definition zero : spec_float := S754_zero false.

Definition add : spec_float -> spec_float -> spec_float := SFadd prec emax.
Definition mul : spec_float -> spec_float -> spec_float := SFmul prec emax.
Definition div : spec_float -> spec_float -> spec_float := SFdiv prec emax.
Definition sqrt : spec_float -> spec_float := SFsqrt prec emax.

(** [n / 10^k] rounded once, for decimal literals. *)
Definition dec (n : Z) (k : nat) : spec_float :=
  div (of_Z n) (of_Z (10 ^ Z.of_nat k)).

Definition half : spec_float := div (of_Z 1) (of_Z 2).

End B32.

#[export] Instance b32_arith : Arith := {|
  num := spec_float;
  nzero := B32.zero;
  nadd := B32.add;
  ndiv := B32.div;
  nof_nat := fun n => B32.of_Z (Z.of_nat n)
|}.

#[export] Instance b32_metric : Metric b32_arith.
Proof.
  refine {| nmul := B32.mul; nsqrt := B32.sqrt; nhalf := B32.half;
            neqb := SFeqb; nltb := SFltb |}.
  intros x. destruct x as [s | s | | s m e]; try destruct s; cbn; congruence.
Defined.

(** Exact rational arithmetic, the idealisation of the dtype. *)
Definition exact_arith : Arith := {|
  num := Q;
  nzero := 0%Q;
  nadd := Qplus;
  ndiv := Qdiv;
  nof_nat := fun n => inject_Z (Z.of_nat n)
|}.

(** ** numpy on one-dimensional arrays *)

Section Numpy.
Context {A : Arith}.

Definition vec : Type := list num.

(** [np.zeros(n)] *)
Definition np_zeros (n : nat) : vec := repeat nzero n.

(** Element-wise binary operation on two arrays of the same shape. *)
Fixpoint zip_with (f : num -> num -> num) (u v : vec) : vec :=
  match u, v with
  | x :: u', y :: v' => f x y :: zip_with f u' v'
  | _, _ => []
  end.

Definition vadd (u v : vec) : vec := zip_with nadd u v.

(** [np.add.reduce(rows, axis=0)]: the rows are added one after the
    other, starting from the first. *)
Definition np_sum_axis0 (v : vec) (rest : list vec) : vec :=
  fold_left vadd rest v.

(** [np.mean(rows, axis=0)] for a non-empty list of rows: the sum of the
    rows divided by their number. *)
Definition np_mean_axis0 (rows : list vec) : vec :=
  match rows with
  | [] => []
  | v :: rest =>
      map (fun x => ndiv x (nof_nat (List.length rows))) (np_sum_axis0 v rest)
  end.

(** [v / s] for a scalar [s] *)
Definition vdiv (v : vec) (s : num) : vec := map (fun x => ndiv x s) v.

Context {MA : Metric A}.

(** [np.dot(u, v)]: the products are added from left to right in the
    dtype.  The kernel that numpy calls may group the additions in another
    way or keep the running sum in a wider format; a score can then differ
    in its last bit from the one computed here. *)
Definition np_dot (u v : vec) : num :=
  fold_left nadd (zip_with nmul u v) nzero.

(** [np.linalg.norm(v)] *)
Definition np_linalg_norm (v : vec) : num := nsqrt (np_dot v v).

End Numpy.

(** ** The engine *)

(** The document header and preview: the Python dict [metadata]. *)
Definition Metadata : Type := dict string.

(** [os.path.join(a, b)] and [os.path.basename(p)] on POSIX paths. *)
Definition path_join (a b : string) : string :=
  if PyStr.startswith "/" b then b
  else if (String.eqb a "" || PyStr.endswith "/" a)%bool then (a ++ b)%string
  else (a ++ "/" ++ b)%string.

Fixpoint basename_from (cur : string) (p : string) : string :=
  match p with
  | EmptyString => PyStr.rev_string cur
  | String c r =>
      if Ascii.eqb c "/"%char then basename_from EmptyString r
      else basename_from (String c cur) r
  end.

Definition basename (p : string) : string := basename_from EmptyString p.

(** What [f.read()] returns for a file opened with [open(path, 'r')],
    from the text that the file holds: with the default [newline=None] a
    carriage return, alone or followed by a line feed, is read as a line
    feed. *)
Fixpoint universal_newlines (s : string) : string :=
  match s with
  | EmptyString => EmptyString
  | String c r =>
      if Ascii.eqb c "013"%char then
        String "010"%char
          match r with
          | EmptyString => EmptyString
          | String d r' =>
              if Ascii.eqb d "010"%char then universal_newlines r'
              else universal_newlines r
          end
      else String c (universal_newlines r)
  end.

(** What ingestion sees of the file system: [read_text] is [None] when
    opening or decoding the file raises. *)
Record FileSystem : Type := {
  path_exists : string -> bool;
  listdir : string -> list string;
  read_text : string -> option string
}.

Section Engine.
Context {A : Arith} {MA : Metric A}.

(** [model.wv]: the vocabulary in index order with its vectors, and the
    dimension of the vectors. *)
Record KeyedVectors : Type := {
  key_to_index : dict vec;
  vector_size : nat
}.

(** The fields of [self]. *)
Record Engine : Type := {
  model_wv : KeyedVectors;
  blog_directory : string;
  word_to_blogs : dict (list string);
  blog_metadata : dict Metadata;
  doc_embeddings : dict vec
}.

Definition set_blog_metadata (f : dict Metadata -> dict Metadata) (self : Engine) : Engine :=
  {| model_wv := model_wv self;
     blog_directory := blog_directory self;
     word_to_blogs := word_to_blogs self;
     blog_metadata := f (blog_metadata self);
     doc_embeddings := doc_embeddings self |}.

Definition set_doc_embeddings (f : dict vec -> dict vec) (self : Engine) : Engine :=
  {| model_wv := model_wv self;
     blog_directory := blog_directory self;
     word_to_blogs := word_to_blogs self;
     blog_metadata := blog_metadata self;
     doc_embeddings := f (doc_embeddings self) |}.

(** Methods are computations that read and write [self]. *)
Definition M (R : Type) : Type := Engine -> R * Engine.

Definition ret {R : Type} (r : R) : M R := fun self => (r, self).

Definition bind {R S : Type} (m : M R) (k : R -> M S) : M S :=
  fun self => let (r, self') := m self in k r self'.

Definition gets {R : Type} (f : Engine -> R) : M R := fun self => (f self, self).

Definition modify (f : Engine -> Engine) : M unit := fun self => (tt, f self).

Definition eval {R : Type} (m : M R) (self : Engine) : R := fst (m self).

Definition exec {R : Type} (m : M R) (self : Engine) : Engine := snd (m self).

Notation "x <- m ;; k" := (bind m (fun x => k))
  (at level 61, m at next level, right associativity).
Notation "m ;;; k" := (bind m (fun _ => k))
  (at level 61, right associativity).

(** The loop of [_create_document_emedding]: [word in self.model.wv]
    and [self.model.wv[word]] are one lookup. *)
Definition collect_vectors (wv : KeyedVectors) (words : list string) : list vec :=
  fold_left
    (fun vectors word =>
       match dict_get word (key_to_index wv) with
       | Some v => vectors ++ [v]
       | None => vectors
       end)
    words [].

(** [_create_document_emedding] *)
Definition create_document_embedding (wv : KeyedVectors) (words : list string) : vec :=
  let vectors := collect_vectors wv words in
  match vectors with
  | [] => np_zeros (vector_size wv)
  | _ :: _ => np_mean_axis0 vectors
  end.

Definition _create_document_emedding (words : list string) : M vec :=
  wv <- gets model_wv ;;
  ret (create_document_embedding wv words).

(** The header loop of [_index_single_blog]: [i] is the index of the
    first line of [lines]; the result is the metadata and
    [content_start], which stays 0 when the loop ends without [break]. *)
Fixpoint header_loop (lines : list string) (i : nat) (metadata : Metadata)
  : Metadata * nat :=
  match lines with
  | [] => (metadata, 0)
  | line :: rest =>
      if PyStr.startswith "Title: " line then
        header_loop rest (S i)
          (dict_set "title" (PyStr.strip (PyStr.replace "Title: " "" line)) metadata)
      else if PyStr.startswith "Author: " line then
        header_loop rest (S i)
          (dict_set "author" (PyStr.strip (PyStr.replace "Author: " "" line)) metadata)
      else if PyStr.startswith "Category: " line then
        header_loop rest (S i)
          (dict_set "category" (PyStr.strip (PyStr.replace "Category: " "" line)) metadata)
      else if PyStr.startswith "URL: " line then
        header_loop rest (S i)
          (dict_set "url" (PyStr.strip (PyStr.replace "URL: " "" line)) metadata)
      else if PyStr.startswith "===" line then (metadata, S i)
      else header_loop rest (S i) metadata
  end.

(** The preview of a body (line 76). *)
Definition preview_of (blog_conent : string) : string :=
  if 300 <? String.length blog_conent
  then (PyStr.take 300 blog_conent ++ "...")%string
  else blog_conent.

(** Lines 59-76: the metadata (with the preview) and the body
    [blog_conent] of a file. *)
Definition parse_blog (content : string) : Metadata * string :=
  let lines := PyStr.split "010"%char content in
  let (metadata, content_start) := header_loop lines 0 [] in
  let blog_conent := PyStr.join (String "010"%char EmptyString) (skipn content_start lines) in
  (dict_set "content_preview" (preview_of blog_conent) metadata, blog_conent).

(** Line 82: the text that is tokenized and embedded. *)
Definition all_text (metadata : Metadata) (blog_conent : string) : string :=
  (dict_get_default "title" "" metadata ++ " " ++ blog_conent)%string.

(** Lines 58-79 of [_index_single_blog]: the file is parsed and its
    metadata is stored under the file name. *)
Definition store_metadata (filepath content : string) : M (Metadata * string) :=
  let (metadata, blog_conent) := parse_blog content in
  let filename := basename filepath in
  modify (set_blog_metadata (dict_set filename metadata)) ;;;
  ret (metadata, blog_conent).

(** Lines 81-87 of [_index_single_blog]: the title and the body are
    tokenized and embedded and the embedding is stored under the file
    name. *)
Definition store_embedding
  (filepath : string) (metadata : Metadata) (blog_conent : string) : M unit :=
  let filename := basename filepath in
  let words := _clean_text (all_text metadata blog_conent) in
  doc_embedding <- _create_document_emedding words ;;
  modify (set_doc_embeddings (dict_set filename doc_embedding)).

(** [_index_single_blog]: the [try] block ends at the first exception,
    which only opening and reading the file can raise; what was written
    to [self] before stays written. *)
Definition _index_single_blog (fs : FileSystem) (filepath : string) : M unit :=
  match read_text fs filepath with
  | None => ret tt
  | Some content =>
      parsed <- store_metadata filepath content ;;
      store_embedding filepath (fst parsed) (snd parsed)
  end.

(** The engine at the program points of one call of
    [_index_single_blog]: at entry and, for a file that is read, after
    line 79 and after line 87. *)
Definition index_single_blog_points
  (fs : FileSystem) (filepath : string) (self : Engine) : list Engine :=
  match read_text fs filepath with
  | None => [self]
  | Some content =>
      let (parsed, self1) := store_metadata filepath content self in
      [self; self1; exec (store_embedding filepath (fst parsed) (snd parsed)) self1]
  end.

(** The loop of [_index_blogs] over the directory listing. *)
Fixpoint index_files (fs : FileSystem) (dir : string) (filenames : list string) : M unit :=
  match filenames with
  | [] => ret tt
  | filename :: rest =>
      (if PyStr.endswith ".txt" filename
       then _index_single_blog fs (path_join dir filename)
       else ret tt) ;;;
      index_files fs dir rest
  end.

(** [_index_blogs] *)
Definition _index_blogs (fs : FileSystem) : M unit :=
  dir <- gets blog_directory ;;
  if negb (path_exists fs dir) then ret tt
  else index_files fs dir (listdir fs dir).

(** [__init__], given the loaded model. *)
Definition __init__ (wv : KeyedVectors) (dir : string) (fs : FileSystem) : Engine :=
  exec (_index_blogs fs)
       {| model_wv := wv; blog_directory := dir; word_to_blogs := [];
          blog_metadata := []; doc_embeddings := [] |}.

(** A search result: [(blog_filename, score, metadata)]. *)
Definition Result : Type := (string * num * Metadata)%type.

(** [_get_query_embeddings] *)
Definition _get_query_embeddings (query : string) : M vec :=
  let query_words := _clean_text query in
  _create_document_emedding query_words.

(** The loop of [_compute_similarities] over [self.doc_embeddings.items()]. *)
Definition similarity_loop (normalized_query : vec) (items : dict vec) : dict num :=
  fold_left
    (fun similarities item =>
       let '(filename, doc_embedding) := item in
       let doc_norm := np_linalg_norm doc_embedding in
       if nltb nzero doc_norm then
         let normalized_doc := vdiv doc_embedding doc_norm in
         let similarity := np_dot normalized_query normalized_doc in
         dict_set filename similarity similarities
       else similarities)
    items [].

(** [_compute_similarities] *)
Definition _compute_similarities (query_embedding : vec) : M (dict num) :=
  let query_norm := np_linalg_norm query_embedding in
  if neqb query_norm nzero then ret []
  else
    let normalized_query := vdiv query_embedding query_norm in
    items <- gets doc_embeddings ;;
    ret (similarity_loop normalized_query items).

(** [sorted(items, key=lambda x: x[1], reverse=True)]: a stable sort by
    decreasing score; an item goes before the first item that is not
    greater than it.  This is the list that Python's sort returns when the
    comparison orders the scores, that is when none of them is a NaN. *)
Fixpoint insert_desc (x : string * num) (l : list (string * num)) : list (string * num) :=
  match l with
  | [] => [x]
  | y :: l' =>
      if nltb (snd x) (snd y) then y :: insert_desc x l' else x :: y :: l'
  end.

Definition sorted_desc (l : list (string * num)) : list (string * num) :=
  fold_right insert_desc [] l.

(** [set(words)]: the distinct words (the iteration order of a Python
    set is unspecified; the first occurrences are kept here). *)
Fixpoint py_set (words : list string) : list string :=
  match words with
  | [] => []
  | w :: r =>
      if existsb (String.eqb w) r then py_set r else w :: py_set r
  end.

(** The loop of [_fallback_search] over [self.blog_metadata.items()]. *)
Definition fallback_loop (query_words : list string) (items : dict Metadata) : list Result :=
  fold_left
    (fun matching_blogs item =>
       let '(blog_file, metadata) := item in
       let title := PyStr.lower (dict_get_default "title" "" metadata) in
       let content := PyStr.lower (dict_get_default "content_preview" "" metadata) in
       if existsb
            (fun word =>
               PyStr.contains word (PyStr.lower title)
               || PyStr.contains word (PyStr.lower content))
            query_words
       then matching_blogs ++ [(blog_file, nhalf, metadata)]
       else matching_blogs)
    items [].

(** [_fallback_search] *)
Definition _fallback_search (query : string) (top_k : Z) : M (list Result) :=
  let query_words := py_set (_clean_text query) in
  items <- gets blog_metadata ;;
  let matching_blogs := fallback_loop query_words items in
  ret (py_slice_to top_k matching_blogs).

(** The result loop of [search] over [sorted_results[:top_k]]. *)
Fixpoint results_loop (l : list (string * num)) : M (list Result) :=
  match l with
  | [] => ret []
  | (filename, score) :: rest =>
      metadata <- gets (fun self => dict_get_default filename [] (blog_metadata self)) ;;
      results <- results_loop rest ;;
      ret ((filename, score, metadata) :: results)
  end.

(** Lines 134-146 of [search]: the ranking of the documents against a
    query embedding. *)
Definition rank (query_embedding : vec) (top_k : Z) : M (list Result) :=
  similarities <- _compute_similarities query_embedding ;;
  match similarities with
  | [] => ret []
  | _ :: _ =>
      let sorted_results := sorted_desc similarities in
      results_loop (py_slice_to top_k sorted_results)
  end.

(** [search] *)
Definition search (query : string) (top_k : Z) : M (list Result) :=
  let query := PyStr.strip (PyStr.lower query) in
  if String.eqb query "" then _fallback_search query top_k
  else
    query_embedding <- _get_query_embeddings query ;;
    rank query_embedding top_k.

(** [get_stats]: total_blogs, vocabulary_size, embedding_dimension. *)
Definition get_stats : M (nat * nat * nat) :=
  total_blogs <- gets (fun self => List.length (doc_embeddings self)) ;;
  vocabulary_size <- gets (fun self => List.length (key_to_index (model_wv self))) ;;
  embedding_dimension <- gets (fun self => vector_size (model_wv self)) ;;
  ret (total_blogs, vocabulary_size, embedding_dimension).

(** [get_vocabulary_sample] *)
Definition get_vocabulary_sample (n : Z) : M (list string) :=
  vocab <- gets (fun self => dict_keys (key_to_index (model_wv self))) ;;
  ret (py_slice_to n vocab).

End Engine.

(** ** The vocabulary of the properties *)

(** No character of the name is a slash. *)
Definition no_slash (name : string) : bool :=
  PyStr.all_chars (fun c => negb (Ascii.eqb c "/"%char)) name.

Section Vocabulary.
Context {A : Arith}.

(** The vectors of the tokens that are in the table, in token order. *)
Definition resolved (wv : KeyedVectors) (words : list string) : list vec :=
  flat_map
    (fun word =>
       match dict_get word (key_to_index wv) with
       | Some v => [v]
       | None => []
       end)
    words.

(** Every vector of the table has the dimension of the table. *)
Definition table_ok (wv : KeyedVectors) : Prop :=
  Forall (fun kv => List.length (snd kv) = vector_size wv) (key_to_index wv).

(** The sum of a non-empty list of rows, [None] for the empty list. *)
Definition total (rows : list vec) : option vec :=
  match rows with
  | [] => None
  | v :: rest => Some (np_sum_axis0 v rest)
  end.

(** The engine after line 79 and after line 87 of [_index_single_blog]
    for a file that was read. *)
Definition after_metadata_insert (filepath content : string) (self : Engine) : Engine :=
  set_blog_metadata (dict_set (basename filepath) (fst (parse_blog content))) self.

Definition embedding_of (wv : KeyedVectors) (content : string) : vec :=
  create_document_embedding wv
    (_clean_text (all_text (fst (parse_blog content)) (snd (parse_blog content)))).

Definition after_embedding_insert (filepath content : string) (self : Engine) : Engine :=
  set_doc_embeddings
    (dict_set (basename filepath) (embedding_of (model_wv self) content))
    (after_metadata_insert filepath content self).

(** The two mappings have the same keys, in the same order. *)
Definition keys_agree (self : Engine) : Prop :=
  dict_keys (blog_metadata self) = dict_keys (doc_embeddings self).

(** A document is in one mapping exactly when it is in the other. *)
Definition same_key_sets (self : Engine) : Prop :=
  forall k, dict_get k (blog_metadata self) = None
            <-> dict_get k (doc_embeddings self) = None.

(** Both mappings of an engine have distinct keys. *)
Definition keys_distinct (self : Engine) : Prop :=
  NoDup (dict_keys (blog_metadata self)) /\ NoDup (dict_keys (doc_embeddings self)).

(** The file [filename] is in both mappings with what was computed from
    its content. *)
Definition indexed (wv : KeyedVectors) (filename content : string) (self : Engine) : Prop :=
  dict_get filename (blog_metadata self) = Some (fst (parse_blog content))
  /\ dict_get filename (doc_embeddings self) = Some (embedding_of wv content).

Definition read_only {R : Type} (m : M R) : Prop :=
  forall self, exec m self = self.

Context {MA : Metric A}.

(** The metadata attached to a ranked item. *)
Definition attach (self : Engine) (item : string * num) : Result :=
  (fst item, snd item, dict_get_default (fst item) [] (blog_metadata self)).

(** At most [top_k] results, each a document whose stored embedding has
    a positive, hence non-zero, norm. *)
Definition bounded_nonzero (self : Engine) (top_k : Z) (results : list Result) : Prop :=
  (Z.of_nat (List.length results) <= top_k)%Z
  /\ forall filename score metadata,
       In (filename, score, metadata) results ->
       exists emb,
         dict_get filename (doc_embeddings self) = Some emb
         /\ nltb nzero (np_linalg_norm emb) = true
         /\ neqb (np_linalg_norm emb) nzero = false.

(** Some tokenized query word is a substring of the lower-cased title or
    of the lower-cased content preview. *)
Definition fallback_match (query : string) (metadata : Metadata) : Prop :=
  exists word,
    In word (_clean_text query)
    /\ (PyStr.contains word (PyStr.lower (dict_get_default "title" "" metadata)) = true
        \/ PyStr.contains word
             (PyStr.lower (dict_get_default "content_preview" "" metadata)) = true).

Definition fallback_matchb (query : string) (metadata : Metadata) : bool :=
  existsb
    (fun word =>
       PyStr.contains word (PyStr.lower (dict_get_default "title" "" metadata))
       || PyStr.contains word
            (PyStr.lower (dict_get_default "content_preview" "" metadata)))
    (_clean_text query).

(** The entry reported for a matching document. *)
Definition placeholder (item : string * Metadata) : Result :=
  (fst item, nhalf, snd item).

End Vocabulary.

(** ** Concrete engines *)

(** ** An engine over binary32 *)

Module Example32.

Definition nl : string := String "010"%char EmptyString.

Definition file_a : string :=
  ("Title: Zzz Post" ++ nl ++ "Author: Me" ++ nl ++ "=====" ++ nl ++ nl
   ++ "hello world")%string.

Definition file_c : string :=
  ("Title: Cooking zzz" ++ nl ++ "===" ++ nl ++ "recipes and food")%string.

(** [b.txt] cannot be read, [notes.md] is not a [.txt] file. *)
Definition fs : FileSystem := {|
  path_exists := fun p => String.eqb p "blogs";
  listdir := fun _ => ["a.txt"; "b.txt"; "notes.md"; "c.txt"];
  read_text := fun p =>
    if String.eqb p "blogs/a.txt" then Some file_a
    else if String.eqb p "blogs/c.txt" then Some file_c
    else None
|}.

Definition wv : KeyedVectors := {|
  key_to_index :=
    [("hello", [B32.of_Z 1; B32.of_Z 0]); ("food", [B32.of_Z 0; B32.of_Z 1])];
  vector_size := 2
|}.

Definition empty_engine : Engine := {|
  model_wv := wv; blog_directory := "blogs"; word_to_blogs := [];
  blog_metadata := []; doc_embeddings := []
|}.

Definition engine : Engine := __init__ wv "blogs" fs.

(** A table with three vectors of dimension 2: (0.75, 0.5), (-0.75, 0.25)
    and (1e-8, 0.125). *)
Definition wv3 : KeyedVectors := {|
  key_to_index :=
    [("aaa", [B32.dec 75 2; B32.dec 5 1]);
     ("bbb", [B32.dec (-75) 2; B32.dec 25 2]);
     ("ccc", [B32.dec 1 8; B32.dec 125 3])];
  vector_size := 2
|}.

Definition engine3 : Engine := {|
  model_wv := wv3; blog_directory := "blogs"; word_to_blogs := [];
  blog_metadata := []; doc_embeddings := []
|}.

End Example32.

(** ** An engine over the rationals *)

Module ExampleQ.

Definition wv : KeyedVectors (A := exact_arith) :=
  @Build_KeyedVectors exact_arith
    [("aaa", [(75 # 100)%Q; (5 # 10)%Q]);
     ("bbb", [(-75 # 100)%Q; (25 # 100)%Q]);
     ("ccc", [(1 # 100000000)%Q; (125 # 1000)%Q])]
    2.

Definition engine : Engine (A := exact_arith) :=
  @Build_Engine exact_arith wv "blogs" [] [] [].

End ExampleQ.

(** ** The scraper ([blog_scraper.py]) *)

Module Scraper.

(** The dict that [extract_blog_links_from_page] builds for a post. *)
Record BlogData : Type := {
  url : string;
  title : string;
  category : string;
  author : string;
  date : string
}.

(** The index of the first [c] in [s]. *)
Fixpoint find_char (c : ascii) (s : string) : option nat :=
  match s with
  | EmptyString => None
  | String d r => if Ascii.eqb d c then Some 0 else option_map S (find_char c r)
  end.

(** [re.sub(r'<[^>]+>', '', s)]: a ['<'] starts a match when a ['>']
    follows it with at least one character in between; the match ends at
    the first such ['>'].  [skip] counts the characters of the current
    match that remain to be dropped. *)
Fixpoint strip_tags_from (skip : nat) (s : string) : string :=
  match s with
  | EmptyString => EmptyString
  | String c r =>
      match skip with
      | S k => strip_tags_from k r
      | O =>
          if Ascii.eqb c "<"%char then
            match find_char ">"%char r with
            | Some (S n) => strip_tags_from (S (S n)) r
            | _ => String c (strip_tags_from 0 r)
            end
          else String c (strip_tags_from 0 r)
      end
  end.

Definition strip_tags (s : string) : string := strip_tags_from 0 s.

(** The characters of the class of line 33: the angle brackets, the
    colon, the double quote, the slash, the backslash, the bar, the question
    mark and the star. *)
Definition is_invalid_char (c : ascii) : bool :=
  existsb (Ascii.eqb c)
    ["<"; ">"; ":"; "034"; "/"; "092"; "|"; "?"; "*"]%char.

(** Line 33: every character of the class becomes an underscore. *)
Fixpoint replace_invalid (s : string) : string :=
  match s with
  | EmptyString => EmptyString
  | String c r =>
      String (if is_invalid_char c then "_"%char else c) (replace_invalid r)
  end.

(** [s.split()]: the maximal runs of characters that are not white
    space; [cur] is the current run, most recent character first. *)
Fixpoint split_whitespace_from (cur : string) (s : string) : list string :=
  match s with
  | EmptyString => flush cur
  | String c r =>
      if PyStr.is_space c then flush cur ++ split_whitespace_from EmptyString r
      else split_whitespace_from (String c cur) r
  end.

Definition split_whitespace (s : string) : list string :=
  split_whitespace_from EmptyString s.

(** [clean_filename] *)
Definition clean_filename (title : string) : string :=
  let title := strip_tags title in
  let title := replace_invalid title in
  let title := PyStr.join " " (split_whitespace title) in
  let title := PyStr.take 100 title in
  PyStr.strip title.

(** [get_page_content]: [session_get url attempt] is the outcome of the
    request of the given attempt, [None] when it raises a
    [RequestException]; the result is the response, if any, and the
    seconds slept between the attempts. *)
Fixpoint retry_loop {Response : Type}
  (session_get : nat -> option Response) (max_retries : nat)
  (attempts : list nat) (slept : list nat) : option Response * list nat :=
  match attempts with
  | [] => (None, slept)
  | attempt :: rest =>
      match session_get attempt with
      | Some response => (Some response, slept)
      | None =>
          if attempt <? max_retries - 1
          then retry_loop session_get max_retries rest (slept ++ [2 ^ attempt])
          else (None, slept)
      end
  end.

Definition get_page_content {Response : Type}
  (session_get : string -> nat -> option Response) (url : string)
  : option Response * list nat :=
  let max_retries := 3 in
  retry_loop (session_get url) max_retries (seq 0 max_retries) [].

(** Lines 257-262 of [scrape_blogs]: the links whose URL was not seen
    before, in order. *)
Definition unique_step (state : list string * list BlogData) (link : BlogData)
  : list string * list BlogData :=
  let (seen_urls, unique_blog_links) := state in
  if existsb (String.eqb (url link)) seen_urls
  then (seen_urls, unique_blog_links)
  else (url link :: seen_urls, unique_blog_links ++ [link]).

Definition unique_links (all_blog_links : list BlogData) : list BlogData :=
  snd (fold_left unique_step all_blog_links ([], [])).

(** ['=' * n] *)
Fixpoint repeat_char (c : ascii) (n : nat) : string :=
  match n with
  | O => EmptyString
  | S k => String c (repeat_char c k)
  end.

(** Lines 194-200 of [save_blog_content]: the text written to the file. *)
Definition blog_file_text (blog_data : BlogData) (content : string) : string :=
  let nl := String "010"%char EmptyString in
  ("Title: " ++ title blog_data ++ nl
   ++ "Author: " ++ author blog_data ++ nl
   ++ "Date: " ++ date blog_data ++ nl
   ++ "Category: " ++ category blog_data ++ nl
   ++ "URL: " ++ url blog_data ++ nl
   ++ repeat_char "="%char 50 ++ nl ++ nl
   ++ content)%string.

(** The index of the last [c] in [s]. *)
Fixpoint rfind_char (c : ascii) (s : string) : option nat :=
  match s with
  | EmptyString => None
  | String d r =>
      match rfind_char c r with
      | Some i => Some (S i)
      | None => if Ascii.eqb d c then Some 0 else None
      end
  end.

(** [os.path.splitext(p)]: the extension starts at the last dot when
    that dot comes after the last slash and after a character of the file
    name that is not a dot. *)
Definition splitext (p : string) : string * string :=
  match rfind_char "."%char p with
  | None => (p, EmptyString)
  | Some dotIndex =>
      let filenameIndex :=
        match rfind_char "/"%char p with
        | Some sepIndex => S sepIndex
        | None => 0
        end in
      if dotIndex <? filenameIndex then (p, EmptyString)
      else if PyStr.all_chars (Ascii.eqb "."%char)
                (PyStr.take (dotIndex - filenameIndex) (PyStr.drop filenameIndex p))
      then (p, EmptyString)
      else (PyStr.take dotIndex p, PyStr.drop dotIndex p)
  end.

(** [str(n)] *)
Definition str_of_nat (n : nat) : string :=
  NilEmpty.string_of_uint (Nat.to_uint n).

(** The files on disk, by path. *)
Definition Files : Type := dict string.

Definition file_exists (files : Files) (path : string) : bool :=
  match dict_get path files with
  | Some _ => true
  | None => false
  end.

(** The loop of lines 187-190: [fuel] bounds the number of tests of
    [os.path.exists]. *)
Fixpoint free_path (fuel : nat) (files : Files)
  (output_dir filename filepath : string) (counter : nat) : option string :=
  match fuel with
  | O => None
  | S fuel' =>
      if file_exists files filepath then
        let (name, ext) := splitext filename in
        free_path fuel' files output_dir filename
          (path_join output_dir (name ++ "_" ++ str_of_nat counter ++ ext))
          (S counter)
      else Some filepath
  end.

(** [save_blog_content]: [can_open path] tells whether opening the
    path for writing succeeds; the result is the returned flag and the
    files afterwards, [None] when the fuel of the loop runs out. *)
Definition save_blog_content (fuel : nat) (can_open : string -> bool)
  (output_dir : string) (blog_data : BlogData) (content : string)
  (files : Files) : option (bool * Files) :=
  if (String.eqb content "" || (String.length (PyStr.strip content) <? 100))%bool
  then Some (false, files)
  else
    let filename := (clean_filename (title blog_data) ++ ".txt")%string in
    let filepath := path_join output_dir filename in
    match free_path fuel files output_dir filename filepath 1 with
    | None => None
    | Some filepath =>
        if can_open filepath
        then Some (true, dict_set filepath (blog_file_text blog_data content) files)
        else Some (false, files)
    end.

End Scraper.

(** ** The web application ([app.py]) *)

Module App.

(** The JSON object of a search request, when the body is one: the
    query, a string, and [top_k], an integer, each present or not. *)
Record SearchData : Type := {
  data_query : option string;
  data_top_k : option Z
}.

Section Routes.
Context {A : Arith} {MA : Metric A}.

(** The response of [/search] without its time stamp: an error with its
    status code, or the query, the formatted results and their number. *)
Inductive SearchResponse : Type :=
| SearchError (status : nat) (error : string)
| SearchOk (query : string) (results : list Result) (total_found : nat).

(** Lines 84-94: the result with the metadata keys filled in. *)
Definition format_result (result : Result) : Result :=
  let '(blog_file, score, metadata) := result in
  (blog_file, score,
   [("title", dict_get_default "title" "Untitled" metadata);
    ("author", dict_get_default "author" "Unknown" metadata);
    ("category", dict_get_default "category" "General" metadata);
    ("url", dict_get_default "url" "" metadata);
    ("content_preview",
     dict_get_default "content_preview" "No preview available" metadata)]).

(** [search_blogs]: [search_engine] is the global engine, [None] when
    it was not initialized; [data] is [request.get_json()]. *)
Definition search_blogs (search_engine : option Engine) (data : option SearchData)
  : SearchResponse :=
  match search_engine with
  | None => SearchError 500 "Search engine not initialized"
  | Some engine =>
      match data with
      | None => SearchError 400 "Missing query parameter"
      | Some data =>
          match data_query data with
          | None => SearchError 400 "Missing query parameter"
          | Some query =>
              let top_k :=
                match data_top_k data with
                | Some k => k
                | None => 5%Z
                end in
              if String.eqb (PyStr.strip query) ""
              then SearchError 400 "Empty query"
              else
                let results := eval (search query top_k) engine in
                let formatted_results := map format_result results in
                SearchOk query formatted_results (List.length formatted_results)
          end
      end
  end.

(** The fields of the response of [/stats]. *)
Record Stats : Type := {
  blog_count : nat;
  vocabulary_size : nat;
  indexed_words : nat;
  sample_vocabulary : list string;
  sample_blogs : list string
}.

(** [get_stats] of [app.py]; [None] is the error response. *)
Definition get_stats (search_engine : option Engine) : option Stats :=
  match search_engine with
  | None => None
  | Some engine =>
      Some {| blog_count := List.length (blog_metadata engine);
              vocabulary_size := List.length (key_to_index (model_wv engine));
              indexed_words := List.length (doc_embeddings engine);
              sample_vocabulary :=
                py_slice_to 20 (eval (get_vocabulary_sample 20) engine);
              sample_blogs := py_slice_to 10 (dict_keys (blog_metadata engine)) |}
  end.

(** [word.isalpha()] for an ASCII word. *)
Definition isalpha (word : string) : bool :=
  negb (String.eqb word "") && PyStr.all_chars PyStr.is_alpha word.

(** [get_suggestions]: the suggestions and [total_vocabulary]; the
    empty list without an engine.  [str_isalpha] is [str.isalpha], which
    Python reads from the Unicode character database. *)
Definition get_suggestions (str_isalpha : string -> bool)
  (search_engine : option Engine) : list string * nat :=
  match search_engine with
  | None => ([], 0)
  | Some engine =>
      let vocab := dict_keys (key_to_index (model_wv engine)) in
      let meaningful_words :=
        filter (fun word => (4 <? String.length word) && str_isalpha word) vocab in
      (py_slice_to 20 meaningful_words, List.length vocab)
  end.

End Routes.

End App.

(** ** The vocabulary of the further properties *)

(** The path that the loop of [save_blog_content] tries for the counter
    [i]. *)
Definition candidate_path (output_dir filename : string) (i : nat) : string :=
  let (name, ext) := Scraper.splitext filename in
  path_join output_dir (name ++ "_" ++ Scraper.str_of_nat i ++ ext).

(** What holds of the seen URLs and the kept links after the links
    [done] were processed. *)
Definition unique_inv
  (done : list Scraper.BlogData) (state : list string * list Scraper.BlogData)
  : Prop :=
  let (seen_urls, kept) := state in
  (forall u, In u seen_urls <-> In u (map Scraper.url done))
  /\ NoDup (map Scraper.url kept)
  /\ (forall u, In u (map Scraper.url kept) <-> In u (map Scraper.url done))
  /\ (forall link, In link kept ->
        exists before after,
          done = before ++ link :: after
          /\ ~ In (Scraper.url link) (map Scraper.url before)).

(** No character of the string is a line feed. *)
Definition no_newline (s : string) : bool :=
  PyStr.all_chars (fun c => negb (Ascii.eqb c "010"%char)) s.

(** No character of the string is a carriage return. *)
Definition no_return (s : string) : bool :=
  PyStr.all_chars (fun c => negb (Ascii.eqb c "013"%char)) s.

(** [s.isascii()] *)
Definition is_ascii (s : string) : bool :=
  PyStr.all_chars (fun c => nat_of_ascii c <? 128) s.

(** A header value that stays on its line: ASCII characters, none of
    them a line feed or a carriage return. *)
Definition one_line (s : string) : bool :=
  is_ascii s && no_newline s && no_return s.

(** The value read back from the header line of a field: the label is
    removed wherever it occurs and the rest is stripped. *)
Definition field_value (label value : string) : string :=
  PyStr.strip (PyStr.replace label "" value).

(** The key [k] is the base name of a [.txt] entry of [names] in [dir]
    that is read as [content]. *)
Definition entry_source
  (fs : FileSystem) (dir : string) (names : list string) (k content : string) : Prop :=
  exists filename,
    In filename names
    /\ PyStr.endswith ".txt" filename = true
    /\ read_text fs (path_join dir filename) = Some content
    /\ k = basename (path_join dir filename).

Section FurtherVocabulary.
Context {A : Arith}.

(** Every entry of the two mappings was computed from a [.txt] entry of
    [names] that was read. *)
Definition entries_from
  (fs : FileSystem) (dir : string) (names : list string) (wv : KeyedVectors)
  (self : Engine) : Prop :=
  (forall k md, In (k, md) (blog_metadata self) ->
     exists content, entry_source fs dir names k content
                     /\ md = fst (parse_blog content))
  /\ (forall k emb, In (k, emb) (doc_embeddings self) ->
       exists content, entry_source fs dir names k content
                       /\ emb = embedding_of wv content).

End FurtherVocabulary.

(** ** A post as the scraper collects it *)

Module ExamplePost.

Definition post : Scraper.BlogData := {|
  Scraper.url := "https://example.org/t";
  Scraper.title := "T";
  Scraper.category := "News";
  Scraper.author := "Me";
  Scraper.date := "2024-01-01"
|}.

(** A content of two lines of 60 characters, the first one ended by a
    carriage return and a line feed. *)
Definition two_lines : string :=
  (Scraper.repeat_char "a" 60 ++ String "013" (String "010" "")
   ++ Scraper.repeat_char "b" 60)%string.

End ExamplePost.

(** * Properties *)

(** ** Tokenizer *)

Section TokenizerFacts.

Lemma all_chars_rev_onto (p : ascii -> bool) (s acc : string) :
  PyStr.all_chars p s = true -> PyStr.all_chars p acc = true ->
  PyStr.all_chars p (PyStr.rev_string_onto s acc) = true.
Proof.
  revert acc; induction s as [| c r IH]; intros acc Hs Hacc; cbn in *; [assumption |].
  apply andb_true_iff in Hs as [Hc Hr].
  apply IH; [assumption |]. cbn. now rewrite Hc, Hacc.
Qed.

Lemma flush_chars (p : ascii -> bool) (cur : string) :
  PyStr.all_chars p cur = true ->
  Forall (fun t => PyStr.all_chars p t = true) (flush cur).
Proof.
  intros H. destruct cur as [| c r]; cbn; constructor; [| constructor].
  apply (all_chars_rev_onto p (String c r) EmptyString); [assumption | reflexivity].
Qed.

(** C7, as stated, at the input ["foo_bar"]: the underscore is a word
    character of the tokenizer's pattern, so the token [foo_bar] is kept
    although it is not purely alphabetic. *)
Lemma clean_text_alphabetic_counterexample :
  ~ (forall text t, In t (_clean_text text) ->
       PyStr.all_chars PyStr.is_alpha t = true).
Proof.
  intros H. specialize (H "foo_bar" "foo_bar" (or_introl eq_refl)).
  discriminate H.
Qed.

End TokenizerFacts.

(** ** Tokenizer, for every text *)

Section UnicodeTokenizerFacts.
Variables word digit space : N -> bool.
Variable lower : Unicode.str -> Unicode.str.

(** What the tokenizer needs of the character database for a text of
    white space: no white space character is a word character, and the
    lower-casing of white space is white space. *)
Hypothesis space_not_word : forall c, space c = true -> word c = false.
Hypothesis lower_space :
  forall text, forallb space text = true -> forallb space (lower text) = true.

Lemma forallb_rev (p : N -> bool) (l : list N) :
  forallb p l = true -> forallb p (rev l) = true.
Proof.
  rewrite !forallb_forall. intros H x Hx. apply H. now apply in_rev.
Qed.

Lemma flush_runs (cur post : Unicode.str) :
  forallb (Unicode.is_word_char word digit) cur = true ->
  (post = []
   \/ exists c post', post = c :: post' /\ Unicode.is_word_char word digit c = false) ->
  Forall (fun t => Unicode.maximal_run word digit t (rev cur ++ post))
         (Unicode.flush cur).
Proof.
  intros Hcur Hpost. destruct cur as [| x cur']; [constructor |].
  cbn [Unicode.flush]. constructor; [| constructor].
  unfold Unicode.maximal_run. split.
  { cbn [rev]. intros H. symmetry in H. now apply app_cons_not_nil in H. }
  split; [now apply forallb_rev |].
  exists [], post. split; [reflexivity |]. split; [now left | exact Hpost].
Qed.

Lemma simple_tokenize_runs (s cur : Unicode.str) :
  forallb (Unicode.is_word_char word digit) cur = true ->
  Forall (fun t => Unicode.maximal_run word digit t (rev cur ++ s))
         (Unicode.simple_tokenize_from word digit cur s).
Proof.
  revert cur. induction s as [| c r IH]; intros cur Hcur;
    cbn [Unicode.simple_tokenize_from].
  - apply flush_runs; [exact Hcur | now left].
  - destruct (Unicode.is_word_char word digit c) eqn:Hc.
    + replace (rev cur ++ c :: r) with (rev (c :: cur) ++ r)
        by (cbn [rev]; now rewrite <- app_assoc).
      apply IH. cbn [forallb]. now rewrite Hc, Hcur.
    + apply Forall_app. split.
      * apply flush_runs; [exact Hcur |]. right. now exists c, r.
      * specialize (IH [] eq_refl). cbn [rev app] in IH.
        apply (Forall_impl _ (P := fun t => Unicode.maximal_run word digit t r));
          [| exact IH].
        unfold Unicode.maximal_run.
        intros t (Hne & Hall & pre & post & Heq & Hpre & Hpost).
        split; [exact Hne |]. split; [exact Hall |].
        exists (rev cur ++ c :: pre), post.
        split; [rewrite Heq, <- app_assoc; reflexivity |].
        split; [| exact Hpost].
        right. destruct Hpre as [-> | (pre' & d & -> & Hd)].
        -- now exists (rev cur), c.
        -- exists (rev cur ++ c :: pre'), d.
           split; [now rewrite <- app_assoc | exact Hd].
Qed.

Lemma simple_tokenize_no_word (s : Unicode.str) :
  forallb (fun c => negb (Unicode.is_word_char word digit c)) s = true ->
  Unicode.simple_tokenize_from word digit [] s = [].
Proof.
  induction s as [| c r IH]; cbn [Unicode.simple_tokenize_from forallb];
    [reflexivity |].
  intros H. apply andb_true_iff in H as [Hc Hr]. apply negb_true_iff in Hc.
  rewrite Hc. cbn [app]. now apply IH.
Qed.

(** C7 (amended): every token of [_clean_text] has between 3 and 50
    characters, is a maximal run of characters of the pattern in the
    lower-cased text, holds only word characters, none of them a digit or
    white space, and does not start with an underscore; a text of white
    space only has no token.  This holds whatever the character database
    says of the characters. *)
Theorem clean_text_tokens (text : Unicode.str) :
  Forall (fun t =>
            3 <= List.length t <= 50
            /\ Unicode.maximal_run word digit t (lower text)
            /\ Forall (fun c => word c = true /\ digit c = false /\ space c = false) t
            /\ Unicode.startswith_underscore t = false)
         (Unicode._clean_text word digit lower text)
  /\ (forallb space text = true ->
      Unicode._clean_text word digit lower text = []).
Proof.
  split.
  - unfold Unicode._clean_text, Unicode.simple_preprocess, Unicode.tokenize_lower.
    apply Forall_forall. intros t Ht.
    apply filter_In in Ht as [Hin Hf].
    apply andb_true_iff in Hf as [Hf Hu].
    apply andb_true_iff in Hf as [Hmin Hmax].
    apply Nat.leb_le in Hmin, Hmax. apply negb_true_iff in Hu.
    pose proof (simple_tokenize_runs (lower text) [] eq_refl) as Hall.
    cbn [rev app] in Hall. rewrite Forall_forall in Hall.
    specialize (Hall t Hin). cbv beta in Hall.
    split; [lia |]. split; [exact Hall |].
    split; [| exact Hu].
    destruct Hall as (_ & Hchars & _).
    apply Forall_forall. intros c Hc.
    rewrite forallb_forall in Hchars. specialize (Hchars c Hc).
    unfold Unicode.is_word_char in Hchars.
    apply andb_true_iff in Hchars as [Hd Hw]. apply negb_true_iff in Hd.
    split; [exact Hw |]. split; [exact Hd |].
    destruct (space c) eqn:Hs; [| reflexivity].
    rewrite (space_not_word c Hs) in Hw. discriminate Hw.
  - intros Hws.
    unfold Unicode._clean_text, Unicode.simple_preprocess, Unicode.tokenize_lower.
    rewrite simple_tokenize_no_word; [reflexivity |].
    apply lower_space in Hws. rewrite forallb_forall in Hws.
    apply forallb_forall. intros c Hc. apply negb_true_iff.
    unfold Unicode.is_word_char.
    now rewrite (space_not_word c (Hws c Hc)), andb_false_r.
Qed.

End UnicodeTokenizerFacts.

(** ** The tokenizer on ASCII text is the tokenizer with the ASCII tables *)

Section AsciiTables.

Lemma code_points_cons (c : ascii) (r : string) :
  code_points (String c r) = N_of_ascii c :: code_points r.
Proof. reflexivity. Qed.

Lemma ascii_code_point (c : ascii) : (N_of_ascii c <? 256)%N = true.
Proof. destruct c as [[] [] [] [] [] [] [] []]; reflexivity. Qed.

Lemma ascii_is_word_char (c : ascii) :
  Unicode.is_word_char ascii_word ascii_digit (N_of_ascii c) = is_word_char c.
Proof. destruct c as [[] [] [] [] [] [] [] []]; vm_compute; reflexivity. Qed.

Lemma ascii_startswith_underscore (t : string) :
  Unicode.startswith_underscore (code_points t) = PyStr.startswith "_" t.
Proof.
  destruct t as [| c r]; [reflexivity |].
  rewrite code_points_cons. cbn [Unicode.startswith_underscore PyStr.startswith].
  rewrite andb_true_r.
  destruct c as [[] [] [] [] [] [] [] []]; vm_compute; reflexivity.
Qed.

Lemma code_points_length (t : string) :
  List.length (code_points t) = String.length t.
Proof.
  induction t as [| c r IH]; [reflexivity |].
  rewrite code_points_cons. cbn [List.length String.length]. now rewrite IH.
Qed.

Lemma code_points_lower (s : string) :
  ascii_lower (code_points s) = code_points (PyStr.lower s).
Proof.
  induction s as [| c r IH]; [reflexivity |].
  cbn [PyStr.lower]. rewrite !code_points_cons. unfold ascii_lower in *.
  cbn [map]. rewrite IH, ascii_code_point, ascii_N_embedding. reflexivity.
Qed.

Lemma code_points_rev_onto (s acc : string) :
  code_points (PyStr.rev_string_onto s acc) = rev (code_points s) ++ code_points acc.
Proof.
  revert acc. induction s as [| c r IH]; intros acc; [reflexivity |].
  cbn [PyStr.rev_string_onto]. rewrite IH, !code_points_cons. cbn [rev].
  now rewrite <- app_assoc.
Qed.

Lemma code_points_flush (cur : string) :
  map code_points (flush cur) = Unicode.flush (code_points cur).
Proof.
  destruct cur as [| c r]; [reflexivity |].
  rewrite code_points_cons. cbn [flush Unicode.flush map].
  unfold PyStr.rev_string. rewrite code_points_rev_onto, code_points_cons.
  now rewrite app_nil_r.
Qed.

Lemma code_points_tokenize (s cur : string) :
  map code_points (simple_tokenize_from cur s)
  = Unicode.simple_tokenize_from ascii_word ascii_digit
      (code_points cur) (code_points s).
Proof.
  revert cur. induction s as [| c r IH]; intros cur.
  - apply code_points_flush.
  - rewrite code_points_cons.
    cbn [simple_tokenize_from Unicode.simple_tokenize_from].
    rewrite ascii_is_word_char. destruct (is_word_char c).
    + rewrite IH. now rewrite code_points_cons.
    + rewrite map_app, code_points_flush, IH. reflexivity.
Qed.

Lemma map_filter_commute {X Y : Type} (f : X -> Y) (p : X -> bool) (q : Y -> bool)
  (l : list X) :
  (forall x, p x = q (f x)) -> map f (filter p l) = filter q (map f l).
Proof.
  intros H. induction l as [| x l IH]; [reflexivity |].
  cbn [filter map]. rewrite <- H. destruct (p x); cbn [map]; now rewrite IH.
Qed.

(** The tokens of an ASCII text are those of the tokenizer with the
    ASCII tables. *)
Lemma clean_text_code_points (text : string) :
  map code_points (_clean_text text)
  = Unicode._clean_text ascii_word ascii_digit ascii_lower (code_points text).
Proof.
  unfold _clean_text, simple_preprocess, tokenize_lower.
  unfold Unicode._clean_text, Unicode.simple_preprocess, Unicode.tokenize_lower.
  rewrite code_points_lower.
  change (@nil N) with (code_points EmptyString).
  rewrite <- code_points_tokenize.
  apply map_filter_commute. intros t.
  now rewrite code_points_length, ascii_startswith_underscore.
Qed.

Lemma ascii_space_not_word (c : N) :
  ascii_space c = true -> ascii_word c = false.
Proof.
  unfold ascii_space, ascii_word. destruct (c <? 256)%N; [| discriminate].
  cbn [andb]. generalize (ascii_of_N c). intros a.
  destruct a as [[] [] [] [] [] [] [] []]; vm_compute; congruence.
Qed.

Lemma ascii_space_lower_char (a : ascii) :
  PyStr.is_space a = true -> PyStr.is_space (PyStr.lower_char a) = true.
Proof. destruct a as [[] [] [] [] [] [] [] []]; vm_compute; congruence. Qed.

Lemma ascii_lower_space (text : Unicode.str) :
  forallb ascii_space text = true -> forallb ascii_space (ascii_lower text) = true.
Proof.
  induction text as [| c r IH]; [reflexivity |].
  cbn [forallb ascii_lower map]. intros H. apply andb_true_iff in H as [Hc Hr].
  fold (ascii_lower r). rewrite (IH Hr), andb_true_r.
  unfold ascii_space in Hc |- *. apply andb_true_iff in Hc as [Hlt Hs].
  rewrite Hlt, ascii_code_point, ascii_N_embedding. cbn [andb].
  now apply ascii_space_lower_char.
Qed.

End AsciiTables.

(** ** Document embedder *)

Section EmbedderFacts.
Context {A : Arith}.

Lemma collect_vectors_from (wv : KeyedVectors) (words : list string) (acc : list vec) :
  fold_left
    (fun vectors word =>
       match dict_get word (key_to_index wv) with
       | Some v => vectors ++ [v]
       | None => vectors
       end)
    words acc
  = acc ++ resolved wv words.
Proof.
  revert acc; induction words as [| w r IH]; intros acc; cbn.
  - now rewrite app_nil_r.
  - rewrite IH. destruct (dict_get w (key_to_index wv)); cbn; [| reflexivity].
    now rewrite <- app_assoc.
Qed.

Lemma collect_vectors_resolved (wv : KeyedVectors) (words : list string) :
  collect_vectors wv words = resolved wv words.
Proof. unfold collect_vectors. now rewrite collect_vectors_from. Qed.

Lemma dict_get_In {V : Type} (k : string) (d : dict V) (v : V) :
  dict_get k d = Some v -> In (k, v) d.
Proof.
  induction d as [| [k' v'] r IH]; cbn; [discriminate |].
  destruct (String.eqb k k') eqn:E.
  - apply String.eqb_eq in E. intros [= <-]. left. now subst.
  - intros H. right. now apply IH.
Qed.

Lemma resolved_dimension (wv : KeyedVectors) (words : list string) :
  table_ok wv ->
  Forall (fun v => List.length v = vector_size wv) (resolved wv words).
Proof.
  intros Hok. apply Forall_forall. intros v Hv.
  apply in_flat_map in Hv as (w & _ & Hw).
  destruct (dict_get w (key_to_index wv)) as [u |] eqn:E; [| contradiction].
  destruct Hw as [<- | []].
  apply dict_get_In in E.
  unfold table_ok in Hok. rewrite Forall_forall in Hok. exact (Hok _ E).
Qed.

Lemma zip_with_length (f : num -> num -> num) (u v : vec) :
  List.length (zip_with f u v) = Nat.min (List.length u) (List.length v).
Proof.
  revert v; induction u as [| x u IH]; intros [| y v]; cbn; auto.
Qed.

Lemma zip_with_nth (f : num -> num -> num) (u v : vec) (i : nat) (d : num) :
  i < List.length u -> i < List.length v ->
  nth i (zip_with f u v) d = f (nth i u d) (nth i v d).
Proof.
  revert u v; induction i as [| i IH]; intros [| x u] [| y v]; cbn; intros Hu Hv;
    try lia; [reflexivity |].
  apply IH; lia.
Qed.

Lemma sum_axis0_length (n : nat) (rest : list vec) (v : vec) :
  List.length v = n -> Forall (fun r => List.length r = n) rest ->
  List.length (np_sum_axis0 v rest) = n.
Proof.
  unfold np_sum_axis0. revert v; induction rest as [| r rest IH]; intros v Hv Hr; cbn.
  - assumption.
  - inversion Hr; subst. apply IH; [| assumption].
    unfold vadd. rewrite zip_with_length. lia.
Qed.

Lemma sum_axis0_nth (n : nat) (rest : list vec) (v : vec) (i : nat) :
  List.length v = n -> Forall (fun r => List.length r = n) rest -> i < n ->
  nth i (np_sum_axis0 v rest) nzero
  = fold_left nadd (map (fun r => nth i r nzero) rest) (nth i v nzero).
Proof.
  unfold np_sum_axis0. revert v; induction rest as [| r rest IH]; intros v Hv Hr Hi; cbn.
  - reflexivity.
  - inversion Hr; subst. rewrite IH; try assumption.
    + unfold vadd. rewrite zip_with_nth by lia. reflexivity.
    + unfold vadd. rewrite zip_with_length. lia.
Qed.

(** C5: tokens that are not in the table are skipped (the collected
    vectors are exactly those of the tokens in the table), the result has
    dimension D, it is the zero vector when no token resolves, and
    otherwise each of its components is the sum of that component over the
    resolved vectors divided by their number. *)
Theorem create_document_embedding_mean
  (self : Engine) (words : list string) :
  table_ok (model_wv self) ->
  let wv := model_wv self in
  let e := eval (_create_document_emedding words) self in
  collect_vectors wv words = resolved wv words
  /\ List.length e = vector_size wv
  /\ (resolved wv words = [] -> e = repeat nzero (vector_size wv))
  /\ (forall v rest, resolved wv words = v :: rest ->
      forall i, i < vector_size wv ->
      nth i e nzero
      = ndiv (fold_left nadd (map (fun r => nth i r nzero) rest) (nth i v nzero))
             (nof_nat (S (List.length rest)))).
Proof.
  intros Hok wv e.
  assert (He : e = create_document_embedding wv words) by reflexivity.
  clearbody e.
  pose proof (resolved_dimension wv words Hok) as Hdim.
  unfold create_document_embedding in He.
  rewrite collect_vectors_resolved in He.
  split; [apply collect_vectors_resolved |].
  destruct (resolved wv words) as [| v rest] eqn:R.
  - subst e. unfold np_zeros.
    split; [apply repeat_length |]. split; [reflexivity | discriminate].
  - inversion Hdim as [| ? ? Hv Hrest]; subst x l.
    subst e. cbn [np_mean_axis0].
    split.
    { rewrite length_map. now apply sum_axis0_length. }
    split; [discriminate |].
    intros v' rest' [= <- <-] i Hi.
    set (g := fun x : num => ndiv x (nof_nat (List.length (v :: rest)))).
    rewrite (nth_indep _ nzero (g nzero)).
    + rewrite map_nth. unfold g. cbn [List.length].
      now rewrite (sum_axis0_nth (vector_size wv)).
    + rewrite length_map, (sum_axis0_length (vector_size wv)); assumption.
Qed.

End EmbedderFacts.

(** ** Order of the tokens *)

Section PermutationFacts.
Context {A : Arith}.
Hypothesis nadd_comm : forall x y : num, nadd x y = nadd y x.
Hypothesis nadd_assoc : forall x y z : num, nadd (nadd x y) z = nadd x (nadd y z).

Lemma vadd_comm (u v : vec) : vadd u v = vadd v u.
Proof.
  unfold vadd. revert v; induction u as [| x u IH]; intros [| y v]; cbn; try reflexivity.
  now rewrite nadd_comm, IH.
Qed.

Lemma vadd_assoc (u v w : vec) : vadd (vadd u v) w = vadd u (vadd v w).
Proof.
  unfold vadd. revert v w; induction u as [| x u IH]; intros [| y v] [| z w]; cbn;
    try reflexivity.
  now rewrite nadd_assoc, IH.
Qed.

Lemma sum_axis0_permutation (rest rest' : list vec) :
  Permutation rest rest' ->
  forall v, np_sum_axis0 v rest = np_sum_axis0 v rest'.
Proof.
  unfold np_sum_axis0.
  induction 1 as [| x l l' _ IH | x y l | l l' l'' _ IH1 _ IH2]; intros v; cbn.
  - reflexivity.
  - apply IH.
  - f_equal. rewrite !vadd_assoc. f_equal. apply vadd_comm.
  - now rewrite IH1.
Qed.

Lemma sum_axis0_cons (v x : vec) (rest : list vec) :
  np_sum_axis0 v (x :: rest) = np_sum_axis0 x (v :: rest).
Proof. unfold np_sum_axis0. cbn. f_equal. apply vadd_comm. Qed.

Lemma total_permutation (rows rows' : list vec) :
  Permutation rows rows' -> total rows = total rows'.
Proof.
  induction 1 as [| x l l' Hp _ | x y l | l l' l'' _ IH1 _ IH2]; cbn.
  - reflexivity.
  - f_equal. now apply sum_axis0_permutation.
  - f_equal. apply sum_axis0_cons.
  - now rewrite IH1.
Qed.

Lemma mean_axis0_permutation (rows rows' : list vec) :
  Permutation rows rows' -> np_mean_axis0 rows = np_mean_axis0 rows'.
Proof.
  intros Hp. pose proof (total_permutation _ _ Hp) as Ht.
  pose proof (Permutation_length Hp) as Hl.
  destruct rows as [| v rest], rows' as [| v' rest']; cbn in Ht; try discriminate.
  - reflexivity.
  - injection Ht as Ht. unfold np_mean_axis0. now rewrite Ht, Hl.
Qed.

End PermutationFacts.

Section PermutationInvariance.
Context {A : Arith}.

Lemma resolved_permutation (wv : KeyedVectors) (words words' : list string) :
  Permutation words words' -> Permutation (resolved wv words) (resolved wv words').
Proof. intros Hp. unfold resolved. now apply Permutation_flat_map. Qed.

Lemma embedding_of_resolved (wv : KeyedVectors) (words : list string) :
  create_document_embedding wv words
  = match resolved wv words with
    | [] => np_zeros (vector_size wv)
    | _ :: _ => np_mean_axis0 (resolved wv words)
    end.
Proof.
  unfold create_document_embedding. rewrite collect_vectors_resolved.
  now destruct (resolved wv words).
Qed.

Lemma embedding_mean_eq (wv : KeyedVectors) (words words' : list string) :
  Permutation (resolved wv words) (resolved wv words') ->
  np_mean_axis0 (resolved wv words') = np_mean_axis0 (resolved wv words) ->
  create_document_embedding wv words' = create_document_embedding wv words.
Proof.
  intros Hr Hm. rewrite !embedding_of_resolved.
  pose proof (Permutation_length Hr) as Hl.
  destruct (resolved wv words) as [| v rest], (resolved wv words') as [| v' rest'];
    cbn [List.length] in Hl; try discriminate; [reflexivity | exact Hm].
Qed.

(** With a commutative addition the mean of at most two rows does not
    depend on their order. *)
Lemma mean_axis0_two (rows rows' : list vec) :
  (forall x y : num, nadd x y = nadd y x) ->
  List.length rows <= 2 -> Permutation rows rows' ->
  np_mean_axis0 rows' = np_mean_axis0 rows.
Proof.
  intros Hcomm Hlen Hp.
  destruct rows as [| a [| b [| c rows]]]; cbn [List.length] in Hlen; try lia.
  - now rewrite (Permutation_nil Hp).
  - now rewrite (Permutation_length_1_inv Hp).
  - destruct (Permutation_length_2_inv Hp) as [-> | ->]; [reflexivity |].
    unfold np_mean_axis0, np_sum_axis0. cbn [fold_left List.length].
    now rewrite (vadd_comm Hcomm b a).
Qed.

(** C9 (amended): a permuted token sequence resolves to a permutation of
    the same vectors, in every dtype; the embedding depends on the tokens
    only through the sequence of the resolved vectors; when the addition
    of the dtype is commutative, as IEEE addition is, and at most two
    tokens resolve, the embedding of the permuted sequence is that of the
    original one; when the addition is also associative, as in exact
    arithmetic, this holds for any number of resolved tokens. *)
Theorem create_document_embedding_permutation
  (self : Engine) (words words' : list string) :
  Permutation words words' ->
  let wv := model_wv self in
  let e := eval (_create_document_emedding words) self in
  let e' := eval (_create_document_emedding words') self in
  Permutation (resolved wv words) (resolved wv words')
  /\ (resolved wv words' = resolved wv words -> e' = e)
  /\ ((forall x y : num, nadd x y = nadd y x) ->
      List.length (resolved wv words) <= 2 -> e' = e)
  /\ ((forall x y : num, nadd x y = nadd y x) ->
      (forall x y z : num, nadd (nadd x y) z = nadd x (nadd y z)) -> e' = e).
Proof.
  intros Hp wv e e'.
  assert (He : e = create_document_embedding wv words) by reflexivity.
  assert (He' : e' = create_document_embedding wv words') by reflexivity.
  clearbody e e'. subst e e'.
  pose proof (resolved_permutation wv _ _ Hp) as Hr.
  split; [exact Hr |]. split; [| split].
  - intros Heq. rewrite !embedding_of_resolved. now rewrite Heq.
  - intros Hcomm Hlen. apply embedding_mean_eq; [exact Hr |].
    now apply mean_axis0_two.
  - intros Hcomm Hassoc. apply embedding_mean_eq; [exact Hr |].
    symmetry. now apply mean_axis0_permutation.
Qed.

End PermutationInvariance.

(** ** IEEE addition is commutative *)

Lemma b32_add_comm (x y : spec_float) : B32.add x y = B32.add y x.
Proof.
  unfold B32.add, SFadd.
  destruct x as [sx | sx | | sx mx ex], y as [sy | sy | | sy my ey];
    try reflexivity.
  - now destruct sx, sy.
  - now destruct sx, sy.
  - now rewrite (Z.min_comm ex ey), Z.add_comm.
Qed.

(** ** Dictionaries and slices *)

Section DictFacts.
Context {V : Type}.

Lemma dict_set_In (k : string) (v : V) (d : dict V) (k' : string) (v' : V) :
  In (k', v') (dict_set k v d) -> (k' = k /\ v' = v) \/ In (k', v') d.
Proof.
  induction d as [| [k0 v0] r IH]; cbn.
  - intros [[= <- <-] | []]. now left.
  - destruct (String.eqb k k0) eqn:E; cbn.
    + apply String.eqb_eq in E. subst k0.
      intros [[= <- <-] | H]; [now left | right; now right].
    + intros [H | H]; [right; now left |].
      destruct (IH H) as [? | ?]; [now left | right; now right].
Qed.

Lemma dict_get_set_eq (k : string) (v : V) (d : dict V) :
  dict_get k (dict_set k v d) = Some v.
Proof.
  induction d as [| [k0 v0] r IH]; cbn.
  - now rewrite String.eqb_refl.
  - destruct (String.eqb k k0) eqn:E; cbn; now rewrite E.
Qed.

Lemma dict_get_set_ne (k k' : string) (v : V) (d : dict V) :
  k' <> k -> dict_get k' (dict_set k v d) = dict_get k' d.
Proof.
  intros Hne. induction d as [| [k0 v0] r IH]; cbn.
  - apply String.eqb_neq in Hne. now rewrite Hne.
  - destruct (String.eqb k k0) eqn:E; cbn.
    + apply String.eqb_eq in E. subst k0.
      apply String.eqb_neq in Hne. now rewrite Hne.
    + now rewrite IH.
Qed.

Lemma dict_keys_set (k : string) (v : V) (d : dict V) :
  dict_keys (dict_set k v d)
  = if existsb (String.eqb k) (dict_keys d) then dict_keys d else dict_keys d ++ [k].
Proof.
  induction d as [| [k0 v0] r IH]; cbn; [reflexivity |].
  destruct (String.eqb k k0) eqn:E; cbn; [reflexivity |].
  unfold dict_keys in IH. rewrite IH.
  now destruct (existsb (String.eqb k) (map fst r)).
Qed.

Lemma dict_get_In_NoDup (k : string) (v : V) (d : dict V) :
  NoDup (dict_keys d) -> In (k, v) d -> dict_get k d = Some v.
Proof.
  induction d as [| [k0 v0] r IH]; cbn; intros Hnd Hin; [contradiction |].
  inversion Hnd as [| ? ? Hnot Hnd']; subst.
  destruct Hin as [[= -> ->] | Hin].
  - now rewrite String.eqb_refl.
  - destruct (String.eqb k k0) eqn:E.
    + apply String.eqb_eq in E. subst k0. exfalso. apply Hnot.
      change k with (fst (k, v)). now apply in_map.
    + now apply IH.
Qed.

End DictFacts.

Lemma firstn_incl {T : Type} (n : nat) (l : list T) (x : T) :
  In x (firstn n l) -> In x l.
Proof.
  intros H. rewrite <- (firstn_skipn n l). apply in_or_app. now left.
Qed.

Lemma py_slice_to_incl {T : Type} (k : Z) (l : list T) (x : T) :
  In x (py_slice_to k l) -> In x l.
Proof.
  unfold py_slice_to. destruct (0 <=? k)%Z; apply firstn_incl.
Qed.

Lemma py_slice_to_length {T : Type} (k : Z) (l : list T) :
  (0 <= k)%Z -> (Z.of_nat (List.length (py_slice_to k l)) <= k)%Z.
Proof.
  intros Hk. unfold py_slice_to.
  destruct (0 <=? k)%Z eqn:E; [| apply Z.leb_gt in E; lia].
  pose proof (firstn_le_length (Z.to_nat k) l). lia.
Qed.

Lemma py_slice_to_nonneg {T : Type} (k : Z) (l : list T) :
  (0 <= k)%Z -> py_slice_to k l = firstn (Z.to_nat k) l.
Proof.
  intros Hk. unfold py_slice_to.
  destruct (0 <=? k)%Z eqn:E; [reflexivity | apply Z.leb_gt in E; lia].
Qed.

(** ** Ranker *)

Section RankerFacts.
Context {A : Arith} {MA : Metric A}.

Lemma results_loop_run (l : list (string * num)) (self : Engine) :
  results_loop l self = (map (attach self) l, self).
Proof.
  induction l as [| [f sc] r IH]; cbn; [reflexivity |].
  unfold bind, gets. rewrite IH. reflexivity.
Qed.

Lemma compute_similarities_run (query_embedding : vec) (self : Engine) :
  _compute_similarities query_embedding self
  = (if neqb (np_linalg_norm query_embedding) nzero then []
     else similarity_loop
            (vdiv query_embedding (np_linalg_norm query_embedding))
            (doc_embeddings self),
     self).
Proof.
  unfold _compute_similarities.
  destruct (neqb (np_linalg_norm query_embedding) nzero); reflexivity.
Qed.

Lemma rank_run (query_embedding : vec) (top_k : Z) (self : Engine) :
  rank query_embedding top_k self
  = (map (attach self)
         (match fst (_compute_similarities query_embedding self) with
          | [] => []
          | sims => py_slice_to top_k (sorted_desc sims)
          end),
     self).
Proof.
  unfold rank, bind. rewrite compute_similarities_run. cbn [fst].
  destruct (if neqb (np_linalg_norm query_embedding) nzero then [] else _)
    as [| s sims]; [reflexivity |].
  apply results_loop_run.
Qed.

Lemma insert_desc_In (x y : string * num) (l : list (string * num)) :
  In y (insert_desc x l) -> y = x \/ In y l.
Proof.
  induction l as [| z l IH]; cbn.
  - intros [<- | []]. now left.
  - destruct (nltb (snd x) (snd z)); cbn.
    + intros [<- | H]; [right; now left |].
      destruct (IH H); [now left | right; now right].
    + intros [<- | H]; [now left | now right].
Qed.

Lemma sorted_desc_In (y : string * num) (l : list (string * num)) :
  In y (sorted_desc l) -> In y l.
Proof.
  unfold sorted_desc. induction l as [| x l IH]; cbn; [trivial |].
  intros H. apply insert_desc_In in H as [-> | H]; [now left | right; now apply IH].
Qed.

Lemma similarity_loop_In (q : vec) (items : dict vec) (acc : dict num)
  (f : string) (sc : num) :
  In (f, sc)
     (fold_left
        (fun similarities item =>
           let '(filename, doc_embedding) := item in
           let doc_norm := np_linalg_norm doc_embedding in
           if nltb nzero doc_norm then
             dict_set filename
               (np_dot q (vdiv doc_embedding doc_norm)) similarities
           else similarities)
        items acc) ->
  In (f, sc) acc
  \/ exists emb, In (f, emb) items /\ nltb nzero (np_linalg_norm emb) = true.
Proof.
  revert acc; induction items as [| [g e] r IH]; intros acc; cbn; [now left |].
  intros H. apply IH in H as [H | (emb & Hin & Hpos)].
  - destruct (nltb nzero (np_linalg_norm e)) eqn:E; [| now left].
    apply dict_set_In in H as [[-> _] | H]; [| now left].
    right. exists e. split; [now left | assumption].
  - right. exists emb. split; [now right | assumption].
Qed.

Lemma search_nonempty_query (query : string) (top_k : Z) (self : Engine) :
  let q := PyStr.strip (PyStr.lower query) in
  String.eqb q "" = false ->
  search query top_k self
  = rank (create_document_embedding (model_wv self) (_clean_text q)) top_k self.
Proof.
  intros q Hq. unfold search. fold q. rewrite Hq. reflexivity.
Qed.

Lemma rank_bounded_nonzero
  (self : Engine) (query_embedding : vec) (top_k : Z) :
  (0 <= top_k)%Z ->
  NoDup (dict_keys (doc_embeddings self)) ->
  bounded_nonzero self top_k (eval (rank query_embedding top_k) self).
Proof.
  intros Hk Hnd. unfold eval. rewrite rank_run. cbn [fst].
  rewrite compute_similarities_run. cbn [fst].
  set (sims := if neqb (np_linalg_norm query_embedding) nzero then [] else _).
  split.
  - rewrite length_map. destruct sims; [cbn; lia | now apply py_slice_to_length].
  - intros f sc md Hin.
    apply in_map_iff in Hin as ([f' sc'] & Heq & Hin).
    unfold attach in Heq. cbn in Heq. injection Heq as -> -> _.
    assert (Hs : In (f, sc) sims).
    { destruct sims as [| s0 sims0]; [contradiction |].
      apply sorted_desc_In. eapply py_slice_to_incl. exact Hin. }
    subst sims.
    destruct (neqb (np_linalg_norm query_embedding) nzero); [contradiction |].
    unfold similarity_loop in Hs.
    apply similarity_loop_In in Hs as [[] | (emb & Hemb & Hpos)].
    exists emb. split; [now apply dict_get_In_NoDup |].
    split; [assumption | now apply nltb_zero_neqb].
Qed.

(** C4: for [top_k >= 0] and every query embedding, the ranking returns
    at most [top_k] results and every returned document has a stored
    embedding of positive, hence non-zero, norm; so does [search] whenever
    it takes the ranking path (a non-empty normalized query). *)
Theorem rank_at_most_top_k_nonzero (self : Engine) (top_k : Z) :
  (0 <= top_k)%Z ->
  NoDup (dict_keys (doc_embeddings self)) ->
  (forall query_embedding,
     bounded_nonzero self top_k (eval (rank query_embedding top_k) self))
  /\ (forall query,
        String.eqb (PyStr.strip (PyStr.lower query)) "" = false ->
        bounded_nonzero self top_k (eval (search query top_k) self)).
Proof.
  intros Hk Hnd. split.
  - intros e. now apply rank_bounded_nonzero.
  - intros query Hq. unfold eval.
    rewrite (search_nonempty_query query top_k self Hq).
    now apply rank_bounded_nonzero.
Qed.

End RankerFacts.

(** ** Fallback matcher *)

Section FallbackFacts.
Context {A : Arith} {MA : Metric A}.

Lemma fallback_matchb_spec (query : string) (metadata : Metadata) :
  fallback_matchb query metadata = true <-> fallback_match query metadata.
Proof.
  unfold fallback_matchb, fallback_match. rewrite existsb_exists.
  split; intros (w & Hw & H); exists w; (split; [exact Hw |]).
  - now apply orb_true_iff in H.
  - now apply orb_true_iff.
Qed.

Lemma lower_char_idem (c : ascii) :
  PyStr.lower_char (PyStr.lower_char c) = PyStr.lower_char c.
Proof. destruct c as [[] [] [] [] [] [] [] []]; reflexivity. Qed.

Lemma lower_idem (s : string) : PyStr.lower (PyStr.lower s) = PyStr.lower s.
Proof.
  induction s as [| c r IH]; cbn; [reflexivity |].
  now rewrite lower_char_idem, IH.
Qed.

Lemma existsb_member (p : string -> bool) (w : string) (l : list string) :
  existsb (String.eqb w) l = true -> p w = true -> existsb p l = true.
Proof.
  intros Hin Hp. apply existsb_exists in Hin as (x & Hx & E).
  apply String.eqb_eq in E. subst x. apply existsb_exists. now exists w.
Qed.

Lemma existsb_py_set (p : string -> bool) (l : list string) :
  existsb p (py_set l) = existsb p l.
Proof.
  induction l as [| w r IH]; cbn; [reflexivity |].
  destruct (existsb (String.eqb w) r) eqn:E; cbn; rewrite IH; [| reflexivity].
  destruct (p w) eqn:Hp; [| reflexivity].
  cbn. now apply existsb_member with (w := w).
Qed.

Lemma fallback_loop_from (query : string) (items : dict Metadata) (acc : list Result) :
  fold_left
    (fun matching_blogs item =>
       let '(blog_file, metadata) := item in
       let title := PyStr.lower (dict_get_default "title" "" metadata) in
       let content := PyStr.lower (dict_get_default "content_preview" "" metadata) in
       if existsb
            (fun word =>
               PyStr.contains word (PyStr.lower title)
               || PyStr.contains word (PyStr.lower content))
            (py_set (_clean_text query))
       then matching_blogs ++ [(blog_file, nhalf, metadata)]
       else matching_blogs)
    items acc
  = acc ++ map placeholder (filter (fun item => fallback_matchb query (snd item)) items).
Proof.
  revert acc; induction items as [| [f md] r IH]; intros acc; cbn.
  - now rewrite app_nil_r.
  - rewrite IH, existsb_py_set, !lower_idem.
    unfold fallback_matchb at 2.
    destruct (existsb _ (_clean_text query)); cbn; [| reflexivity].
    now rewrite <- app_assoc.
Qed.

Lemma fallback_search_run (query : string) (top_k : Z) (self : Engine) :
  _fallback_search query top_k self
  = (py_slice_to top_k
       (map placeholder
            (filter (fun item => fallback_matchb query (snd item))
                    (blog_metadata self))),
     self).
Proof.
  unfold _fallback_search, bind, gets, ret, fallback_loop.
  now rewrite fallback_loop_from.
Qed.

(** C6 (amended): for [top_k >= 0] the fallback search returns the
    first [top_k] of the documents, in the iteration order of the index,
    for which some tokenized query word is a substring of the lower-cased
    title or of the lower-cased preview, each with the score 0.5. *)
Theorem fallback_search_matches
  (self : Engine) (query : string) (top_k : Z) :
  (0 <= top_k)%Z ->
  let results := eval (_fallback_search query top_k) self in
  results
  = firstn (Z.to_nat top_k)
      (map placeholder
           (filter (fun item => fallback_matchb query (snd item))
                   (blog_metadata self)))
  /\ (forall metadata,
        fallback_matchb query metadata = true <-> fallback_match query metadata)
  /\ (Z.of_nat (List.length results) <= top_k)%Z
  /\ (forall filename score metadata,
        In (filename, score, metadata) results ->
        score = nhalf
        /\ In (filename, metadata) (blog_metadata self)
        /\ fallback_match query metadata).
Proof.
  intros Hk results. unfold results, eval. rewrite fallback_search_run. cbn [fst].
  split; [now apply py_slice_to_nonneg |].
  split; [intros md; apply fallback_matchb_spec |].
  split; [now apply py_slice_to_length |].
  intros f sc md Hin. apply py_slice_to_incl in Hin.
  apply in_map_iff in Hin as ([f' md'] & Heq & Hin).
  unfold placeholder in Heq. cbn in Heq. injection Heq as -> <- ->.
  apply filter_In in Hin as [Hin Hm]. cbn in Hm.
  split; [reflexivity |]. split; [assumption | now apply fallback_matchb_spec].
Qed.

End FallbackFacts.

(** ** Search facade and query-time operations *)

Section FacadeFacts.
Context {A : Arith} {MA : Metric A}.

(** With a non-empty normalized query whose embedding has norm zero,
    [search] returns the empty list. *)
Lemma search_zero_norm (query : string) (top_k : Z) (self : Engine) :
  let q := PyStr.strip (PyStr.lower query) in
  String.eqb q "" = false ->
  neqb (np_linalg_norm (create_document_embedding (model_wv self) (_clean_text q)))
       nzero = true ->
  eval (search query top_k) self = [].
Proof.
  intros q Hq Hz. unfold eval.
  rewrite (search_nonempty_query query top_k self Hq).
  rewrite rank_run, compute_similarities_run. cbn [fst].
  fold q. now rewrite Hz.
Qed.

(** Query-time operations do not write to the engine. *)

Lemma read_only_ret {R : Type} (r : R) : read_only (ret r).
Proof. intros self. reflexivity. Qed.

Lemma read_only_gets {R : Type} (f : Engine -> R) : read_only (gets f).
Proof. intros self. reflexivity. Qed.

Lemma read_only_bind {R S : Type} (m : M R) (k : R -> M S) :
  read_only m -> (forall r, read_only (k r)) -> read_only (bind m k).
Proof.
  intros Hm Hk self. unfold exec, bind.
  specialize (Hm self). unfold exec in Hm.
  destruct (m self) as [r self'] eqn:E. cbn in Hm. subst self'.
  apply Hk.
Qed.

Create HintDb frame.
#[local] Hint Resolve read_only_ret read_only_gets read_only_bind : frame.

Lemma read_only_create_document_emedding (words : list string) :
  read_only (_create_document_emedding words).
Proof. unfold _create_document_emedding. auto with frame. Qed.

Lemma read_only_compute_similarities (query_embedding : vec) :
  read_only (_compute_similarities query_embedding).
Proof.
  unfold _compute_similarities.
  destruct (neqb (np_linalg_norm query_embedding) nzero); auto with frame.
Qed.

Lemma read_only_results_loop (l : list (string * num)) :
  read_only (results_loop l).
Proof.
  induction l as [| [f sc] r IH]; cbn [results_loop]; auto with frame.
Qed.

Lemma read_only_rank (query_embedding : vec) (top_k : Z) :
  read_only (rank query_embedding top_k).
Proof.
  unfold rank. apply read_only_bind; [apply read_only_compute_similarities |].
  intros [| s sims]; [auto with frame | apply read_only_results_loop].
Qed.

Lemma read_only_fallback_search (query : string) (top_k : Z) :
  read_only (_fallback_search query top_k).
Proof. unfold _fallback_search. auto with frame. Qed.

Lemma read_only_search (query : string) (top_k : Z) :
  read_only (search query top_k).
Proof.
  unfold search.
  destruct (String.eqb (PyStr.strip (PyStr.lower query)) "").
  - apply read_only_fallback_search.
  - apply read_only_bind; [apply read_only_create_document_emedding |].
    intros e. apply read_only_rank.
Qed.

(** C10: [search] (on its ranker and fallback paths), [_fallback_search],
    [get_stats] and [get_vocabulary_sample] return the engine they were
    given: the metadata mapping, the embedding mapping and the embedding
    table are the same before and after the call. *)
Theorem query_operations_read_only
  (self : Engine) (query : string) (top_k : Z) (n : Z) :
  exec (search query top_k) self = self
  /\ exec (_fallback_search query top_k) self = self
  /\ exec get_stats self = self
  /\ exec (get_vocabulary_sample n) self = self
  /\ forall query_embedding, exec (rank query_embedding top_k) self = self.
Proof.
  split; [apply read_only_search |].
  split; [apply read_only_fallback_search |].
  split; [reflexivity |]. split; [reflexivity |].
  intros e. apply read_only_rank.
Qed.

End FacadeFacts.

(** ** Ingestion: the header of a file *)

Section HeaderFacts.

Lemma delimiter_not_field (line : string) :
  PyStr.startswith "===" line = true ->
  PyStr.startswith "Title: " line = false
  /\ PyStr.startswith "Author: " line = false
  /\ PyStr.startswith "Category: " line = false
  /\ PyStr.startswith "URL: " line = false.
Proof.
  destruct line as [| c r]; [discriminate |].
  destruct c as [[] [] [] [] [] [] [] []]; cbn; try discriminate.
  intros _. repeat split.
Qed.

(** Scanning the lines before the first ["==="] line and that line. *)
Lemma header_loop_delimiter
  (pre : list string) (d : string) (post : list string) (i : nat) (metadata : Metadata) :
  Forall (fun line => PyStr.startswith "===" line = false) pre ->
  PyStr.startswith "===" d = true ->
  header_loop (pre ++ d :: post) i metadata
  = (fst (header_loop pre i metadata), i + List.length pre + 1).
Proof.
  intros Hpre Hd. revert i metadata.
  induction Hpre as [| line pre Hline _ IH]; intros i metadata.
  - cbn [app header_loop List.length].
    destruct (delimiter_not_field d Hd) as (H1 & H2 & H3 & H4).
    rewrite H1, H2, H3, H4, Hd. cbn. f_equal. lia.
  - cbn [app header_loop List.length]. rewrite Hline.
    repeat match goal with
           | |- context [if ?b then _ else _] => destruct b
           end;
      rewrite IH; f_equal; lia.
Qed.

Lemma skipn_header (pre : list string) (d : string) (post : list string) :
  skipn (0 + List.length pre + 1) (pre ++ d :: post) = post.
Proof.
  replace (0 + List.length pre + 1) with (List.length (pre ++ [d]))
    by (rewrite length_app; cbn; lia).
  replace (pre ++ d :: post) with ((pre ++ [d]) ++ post)
    by (now rewrite <- app_assoc).
  rewrite skipn_app, skipn_all, Nat.sub_diag. reflexivity.
Qed.

(** C3 (amended): when the lines of a file are [pre], a first line [d]
    starting with ["==="], and [post], the header fields are those read
    from [pre] alone, the body is [post] joined by line feeds, and the
    preview and the text that is embedded are computed from that body. *)
Theorem parse_blog_delimiter
  (content : string) (pre : list string) (d : string) (post : list string) :
  PyStr.split "010"%char content = pre ++ d :: post ->
  Forall (fun line => PyStr.startswith "===" line = false) pre ->
  PyStr.startswith "===" d = true ->
  let body := PyStr.join (String "010"%char EmptyString) post in
  let fields := fst (header_loop pre 0 []) in
  parse_blog content = (dict_set "content_preview" (preview_of body) fields, body)
  /\ all_text (fst (parse_blog content)) (snd (parse_blog content))
     = (dict_get_default "title" "" fields ++ " " ++ body)%string.
Proof.
  intros Hsplit Hpre Hd body fields.
  assert (Hp : parse_blog content
               = (dict_set "content_preview" (preview_of body) fields, body)).
  { unfold parse_blog. rewrite Hsplit.
    rewrite (header_loop_delimiter pre d post 0 [] Hpre Hd).
    rewrite skipn_header. reflexivity. }
  split; [exact Hp |].
  rewrite Hp. cbn [fst snd]. unfold all_text, dict_get_default.
  rewrite dict_get_set_ne by discriminate. reflexivity.
Qed.

End HeaderFacts.

(** ** Ingestion: paths *)

Section PathFacts.

Lemma string_app_assoc (s t u : string) :
  ((s ++ t) ++ u)%string = (s ++ t ++ u)%string.
Proof. induction s as [| c r IH]; cbn; [reflexivity | now rewrite IH]. Qed.

Lemma rev_string_onto_app (s acc : string) :
  PyStr.rev_string_onto s acc = (PyStr.rev_string s ++ acc)%string.
Proof.
  unfold PyStr.rev_string. revert acc. induction s as [| c r IH]; intros acc; cbn.
  - reflexivity.
  - rewrite IH, (IH (String c EmptyString)), string_app_assoc. reflexivity.
Qed.

Lemma rev_string_onto_twice (s a b : string) :
  PyStr.rev_string_onto (PyStr.rev_string_onto s a) b
  = PyStr.rev_string_onto a (s ++ b)%string.
Proof.
  revert a b. induction s as [| c r IH]; intros a b; cbn; [reflexivity |].
  now rewrite IH.
Qed.

Lemma append_empty_r (s : string) : (s ++ "")%string = s.
Proof. induction s as [| c r IH]; cbn; [reflexivity | now rewrite IH]. Qed.

Lemma rev_string_involutive (s : string) :
  PyStr.rev_string (PyStr.rev_string s) = s.
Proof.
  unfold PyStr.rev_string. rewrite rev_string_onto_twice. cbn.
  apply append_empty_r.
Qed.

Lemma basename_from_no_slash (name cur : string) :
  no_slash name = true ->
  basename_from cur name = PyStr.rev_string (PyStr.rev_string_onto name cur).
Proof.
  unfold no_slash. revert cur. induction name as [| c r IH]; intros cur H; cbn in *.
  - reflexivity.
  - apply andb_true_iff in H as [Hc Hr]. apply negb_true_iff in Hc.
    rewrite Hc. now apply IH.
Qed.

Lemma basename_no_slash (name : string) :
  no_slash name = true -> basename name = name.
Proof.
  intros H. unfold basename. rewrite basename_from_no_slash by assumption.
  apply rev_string_involutive.
Qed.

Lemma basename_from_slash (a name cur : string) :
  basename_from cur (a ++ "/" ++ name)%string = basename name.
Proof.
  revert cur. induction a as [| c r IH]; intros cur; cbn.
  - reflexivity.
  - destruct (Ascii.eqb c "/"); apply IH.
Qed.

Lemma endswith_slash (a : string) :
  PyStr.endswith "/" a = true -> exists a', a = (a' ++ "/")%string.
Proof.
  unfold PyStr.endswith. intros H.
  destruct (PyStr.rev_string a) as [| c t] eqn:E; [discriminate |].
  cbn [PyStr.startswith PyStr.rev_string PyStr.rev_string_onto] in H.
  rewrite andb_true_r in H. apply Ascii.eqb_eq in H. subst c.
  exists (PyStr.rev_string t).
  rewrite <- (rev_string_involutive a), E.
  unfold PyStr.rev_string at 1. cbn. apply rev_string_onto_app.
Qed.

Lemma no_slash_not_absolute (name : string) :
  no_slash name = true -> PyStr.startswith "/" name = false.
Proof.
  unfold no_slash.
  destruct name as [| c r]; cbn [PyStr.all_chars PyStr.startswith]; [reflexivity |].
  intros H. apply andb_true_iff in H as [Hc _]. apply negb_true_iff in Hc.
  rewrite Ascii.eqb_sym, Hc. reflexivity.
Qed.

(** The key of a directory entry is the entry itself. *)
Lemma basename_path_join (dir name : string) :
  no_slash name = true -> basename (path_join dir name) = name.
Proof.
  intros H. unfold path_join. rewrite (no_slash_not_absolute name H).
  destruct (String.eqb dir "") eqn:Ed; cbn [orb].
  - apply String.eqb_eq in Ed. subst dir. cbn. now apply basename_no_slash.
  - destruct (PyStr.endswith "/" dir) eqn:Es.
    + apply endswith_slash in Es as (a' & ->).
      rewrite string_app_assoc. unfold basename at 1.
      rewrite basename_from_slash. now apply basename_no_slash.
    + unfold basename at 1. rewrite basename_from_slash.
      now apply basename_no_slash.
Qed.

End PathFacts.

(** ** Ingestion: the two mappings *)

Section IndexFacts.
Context {A : Arith}.

Lemma store_metadata_run (filepath content : string) (self : Engine) :
  store_metadata filepath content self
  = (parse_blog content, after_metadata_insert filepath content self).
Proof.
  unfold store_metadata, after_metadata_insert.
  destruct (parse_blog content) as [metadata blog_conent]. reflexivity.
Qed.

Lemma index_single_blog_run (fs : FileSystem) (filepath : string) (self : Engine) :
  _index_single_blog fs filepath self
  = (tt, match read_text fs filepath with
         | None => self
         | Some content => after_embedding_insert filepath content self
         end).
Proof.
  unfold _index_single_blog.
  destruct (read_text fs filepath) as [content |]; [| reflexivity].
  unfold bind. rewrite store_metadata_run. reflexivity.
Qed.

Lemma index_single_blog_points_run
  (fs : FileSystem) (filepath : string) (self : Engine) :
  index_single_blog_points fs filepath self
  = match read_text fs filepath with
    | None => [self]
    | Some content =>
        [self; after_metadata_insert filepath content self;
         after_embedding_insert filepath content self]
    end.
Proof.
  unfold index_single_blog_points.
  destruct (read_text fs filepath) as [content |]; [| reflexivity].
  rewrite store_metadata_run. reflexivity.
Qed.

(** The last program point is the engine the call returns. *)
Lemma index_single_blog_last (fs : FileSystem) (filepath : string) (self : Engine) :
  last (index_single_blog_points fs filepath self) self
  = exec (_index_single_blog fs filepath) self.
Proof.
  unfold exec. rewrite index_single_blog_points_run, index_single_blog_run.
  destruct (read_text fs filepath); reflexivity.
Qed.

Lemma dict_get_None_keys {V : Type} (k : string) (d : dict V) :
  dict_get k d = None <-> ~ In k (dict_keys d).
Proof.
  induction d as [| [k0 v0] r IH]; cbn; [tauto |].
  destruct (String.eqb k k0) eqn:E.
  - apply String.eqb_eq in E. subst k0. split; [discriminate | intros H; exfalso; tauto].
  - apply String.eqb_neq in E. rewrite IH. split; [intros H [H' | H']; congruence || tauto | tauto].
Qed.

Lemma keys_agree_same_key_sets (self : Engine) :
  keys_agree self -> same_key_sets self.
Proof.
  intros H k. rewrite !dict_get_None_keys. unfold keys_agree in H. now rewrite H.
Qed.

Lemma keys_agree_step (filepath content : string) (self : Engine) :
  keys_agree self -> keys_agree (after_embedding_insert filepath content self).
Proof.
  unfold keys_agree, after_embedding_insert, after_metadata_insert,
    set_doc_embeddings, set_blog_metadata.
  cbn [blog_metadata doc_embeddings model_wv].
  intros H. rewrite !dict_keys_set, H. reflexivity.
Qed.

Lemma index_files_keys_agree
  (fs : FileSystem) (dir : string) (filenames : list string) (self : Engine) :
  keys_agree self -> keys_agree (exec (index_files fs dir filenames) self).
Proof.
  revert self. induction filenames as [| f r IH]; intros self H; [exact H |].
  unfold exec. cbn [index_files]. unfold bind.
  destruct (PyStr.endswith ".txt" f).
  - rewrite index_single_blog_run. apply IH.
    destruct (read_text fs (path_join dir f)); [now apply keys_agree_step | exact H].
  - apply IH. exact H.
Qed.

Lemma index_blogs_run (fs : FileSystem) (self : Engine) :
  exec (_index_blogs fs) self
  = if path_exists fs (blog_directory self)
    then exec (index_files fs (blog_directory self)
                           (listdir fs (blog_directory self))) self
    else self.
Proof.
  unfold exec, _index_blogs, bind, gets.
  destruct (path_exists fs (blog_directory self)); reflexivity.
Qed.

(** C2 (amended): a call of [_index_single_blog] that starts with the
    same keys in the two mappings ends with the same keys in the two
    mappings: a file that cannot be read leaves the engine as it was, a
    file that is read gets its key in both; hence the two mappings have the
    same keys after [_index_blogs] and in the engine built by [__init__]. *)
Theorem index_keys_agree (fs : FileSystem) (filepath : string) (self : Engine) :
  keys_agree self ->
  let self' := exec (_index_single_blog fs filepath) self in
  keys_agree self' /\ same_key_sets self'
  /\ (read_text fs filepath = None -> self' = self)
  /\ (forall content, read_text fs filepath = Some content ->
        dict_get (basename filepath) (blog_metadata self')
        = Some (fst (parse_blog content))
        /\ dict_get (basename filepath) (doc_embeddings self')
           = Some (embedding_of (model_wv self) content))
  /\ keys_agree (exec (_index_blogs fs) self)
  /\ forall wv dir, same_key_sets (__init__ wv dir fs).
Proof.
  intros H self'. unfold self', exec. rewrite index_single_blog_run. cbn [snd].
  assert (Hstep : keys_agree
                    match read_text fs filepath with
                    | Some content => after_embedding_insert filepath content self
                    | None => self
                    end).
  { destruct (read_text fs filepath); [now apply keys_agree_step | exact H]. }
  split; [exact Hstep |].
  split; [now apply keys_agree_same_key_sets |].
  split; [intros E; now rewrite E |].
  split.
  { intros content E. rewrite E.
    unfold after_embedding_insert, after_metadata_insert,
      set_doc_embeddings, set_blog_metadata.
    cbn [blog_metadata doc_embeddings model_wv].
    now rewrite !dict_get_set_eq. }
  assert (Hb : forall s, keys_agree s -> keys_agree (exec (_index_blogs fs) s)).
  { intros s Hs. rewrite index_blogs_run.
    destruct (path_exists fs (blog_directory s)); [| exact Hs].
    now apply index_files_keys_agree. }
  split; [now apply Hb |].
  intros wv dir. apply keys_agree_same_key_sets. unfold __init__. apply Hb. reflexivity.
Qed.

End IndexFacts.

(** ** Ingestion: a file that fails does not stop the others *)

Section BuildFacts.
Context {A : Arith}.
Variable fs : FileSystem.
Variable dir : string.
Variable wv : KeyedVectors.
Variable filename content : string.
Hypothesis filename_no_slash : no_slash filename = true.
Hypothesis filename_read : read_text fs (path_join dir filename) = Some content.

Lemma step_model_wv (filepath : string) (self : Engine) :
  model_wv (exec (_index_single_blog fs filepath) self) = model_wv self.
Proof.
  unfold exec. rewrite index_single_blog_run. cbn [snd].
  destruct (read_text fs filepath); reflexivity.
Qed.

Lemma step_establishes (self : Engine) :
  model_wv self = wv ->
  indexed wv filename content (exec (_index_single_blog fs (path_join dir filename)) self).
Proof.
  intros Hwv. unfold exec. rewrite index_single_blog_run, filename_read. cbn [snd].
  unfold indexed, after_embedding_insert, after_metadata_insert,
    set_doc_embeddings, set_blog_metadata.
  cbn [blog_metadata doc_embeddings model_wv].
  rewrite (basename_path_join dir filename filename_no_slash), Hwv.
  now rewrite !dict_get_set_eq.
Qed.

Lemma step_preserves (name : string) (self : Engine) :
  no_slash name = true -> model_wv self = wv -> indexed wv filename content self ->
  indexed wv filename content (exec (_index_single_blog fs (path_join dir name)) self).
Proof.
  intros Hns Hwv Hin.
  destruct (String.eqb name filename) eqn:E.
  - apply String.eqb_eq in E. subst name. now apply step_establishes.
  - apply String.eqb_neq in E.
    unfold exec. rewrite index_single_blog_run. cbn [snd].
    destruct (read_text fs (path_join dir name)) as [c |]; [| exact Hin].
    unfold indexed, after_embedding_insert, after_metadata_insert,
      set_doc_embeddings, set_blog_metadata.
    cbn [blog_metadata doc_embeddings model_wv].
    rewrite (basename_path_join dir name Hns).
    rewrite !dict_get_set_ne by congruence. exact Hin.
Qed.

Lemma index_files_cons (name : string) (rest : list string) (self : Engine) :
  exec (index_files fs dir (name :: rest)) self
  = exec (index_files fs dir rest)
         (if PyStr.endswith ".txt" name
          then exec (_index_single_blog fs (path_join dir name)) self
          else self).
Proof.
  unfold exec. cbn [index_files]. unfold bind.
  destruct (PyStr.endswith ".txt" name); [| reflexivity].
  now destruct (_index_single_blog fs (path_join dir name) self).
Qed.

Lemma index_files_preserves (names : list string) (self : Engine) :
  Forall (fun name => no_slash name = true) names ->
  model_wv self = wv -> indexed wv filename content self ->
  indexed wv filename content (exec (index_files fs dir names) self).
Proof.
  intros Hns. revert self. induction Hns as [| name rest Hn _ IH]; intros self Hwv Hin.
  - exact Hin.
  - rewrite index_files_cons. destruct (PyStr.endswith ".txt" name).
    + apply IH; [now rewrite step_model_wv | now apply step_preserves].
    + now apply IH.
Qed.

Lemma index_files_establishes (names : list string) (self : Engine) :
  Forall (fun name => no_slash name = true) names ->
  In filename names -> PyStr.endswith ".txt" filename = true ->
  model_wv self = wv ->
  indexed wv filename content (exec (index_files fs dir names) self).
Proof.
  intros Hns Hin Htxt. revert self.
  induction Hns as [| name rest Hn Hrest IH]; intros self Hwv; [contradiction |].
  rewrite index_files_cons. destruct Hin as [-> | Hin].
  - rewrite Htxt. apply index_files_preserves; try assumption.
    + now rewrite step_model_wv.
    + now apply step_establishes.
  - destruct (PyStr.endswith ".txt" name).
    + apply IH; [assumption | now rewrite step_model_wv].
    + now apply IH.
Qed.

End BuildFacts.

(** C8: a file that cannot be read leaves the engine as it was and the
    loop goes on: every [.txt] entry of the listing that can be read is in
    both mappings after [_index_blogs], with the metadata and the embedding
    computed from its content, whatever happens with the other entries. *)
Theorem index_blogs_skips_failures
  {A : Arith} (fs : FileSystem) (self : Engine) (filename content : string) :
  let dir := blog_directory self in
  path_exists fs dir = true ->
  Forall (fun name => no_slash name = true) (listdir fs dir) ->
  In filename (listdir fs dir) ->
  PyStr.endswith ".txt" filename = true ->
  read_text fs (path_join dir filename) = Some content ->
  let self' := exec (_index_blogs fs) self in
  dict_get filename (blog_metadata self') = Some (fst (parse_blog content))
  /\ dict_get filename (doc_embeddings self')
     = Some (embedding_of (model_wv self) content)
  /\ forall filepath s,
       read_text fs filepath = None ->
       exec (_index_single_blog fs filepath) s = s.
Proof.
  intros dir Hex Hns Hin Htxt Hread self'.
  assert (Hi : indexed (model_wv self) filename content self').
  { unfold self'. rewrite index_blogs_run. fold dir. rewrite Hex.
    apply (index_files_establishes fs dir (model_wv self) filename content);
      try assumption; try reflexivity.
    rewrite Forall_forall in Hns. now apply Hns. }
  destruct Hi as [Hm He]. split; [exact Hm |]. split; [exact He |].
  intros filepath s E. unfold exec. rewrite index_single_blog_run. now rewrite E.
Qed.

(** ** Ingestion: the keys of the mappings are distinct *)

Section KeyFacts.
Context {A : Arith}.

Lemma dict_set_NoDup {V : Type} (k : string) (v : V) (d : dict V) :
  NoDup (dict_keys d) -> NoDup (dict_keys (dict_set k v d)).
Proof.
  intros H. rewrite dict_keys_set.
  destruct (existsb (String.eqb k) (dict_keys d)) eqn:E; [exact H |].
  apply NoDup_app; [exact H | repeat constructor; intros [] |].
  intros a Ha [<- | []].
  assert (Hex : existsb (String.eqb k) (dict_keys d) = true)
    by (apply existsb_exists; exists k; split; [exact Ha | apply String.eqb_refl]).
  congruence.
Qed.

Lemma index_single_blog_keys_distinct
  (fs : FileSystem) (filepath : string) (self : Engine) :
  keys_distinct self -> keys_distinct (exec (_index_single_blog fs filepath) self).
Proof.
  intros [Hm He]. unfold exec. rewrite index_single_blog_run. cbn [snd].
  destruct (read_text fs filepath) as [content |]; [| now split].
  unfold keys_distinct, after_embedding_insert, after_metadata_insert,
    set_doc_embeddings, set_blog_metadata.
  cbn [blog_metadata doc_embeddings model_wv].
  split; now apply dict_set_NoDup.
Qed.

Lemma index_files_keys_distinct
  (fs : FileSystem) (dir : string) (names : list string) (self : Engine) :
  keys_distinct self -> keys_distinct (exec (index_files fs dir names) self).
Proof.
  revert self. induction names as [| name rest IH]; intros self H; [exact H |].
  rewrite index_files_cons. apply IH.
  destruct (PyStr.endswith ".txt" name); [| exact H].
  now apply index_single_blog_keys_distinct.
Qed.

(** The engine built by [__init__] has distinct keys in both mappings. *)
Lemma init_keys_distinct (wv : KeyedVectors) (dir : string) (fs : FileSystem) :
  keys_distinct (__init__ wv dir fs).
Proof.
  unfold __init__. rewrite index_blogs_run. cbn [blog_directory].
  assert (H0 : keys_distinct
                 {| model_wv := wv; blog_directory := dir; word_to_blogs := [];
                    blog_metadata := []; doc_embeddings := [] |})
    by (split; constructor).
  destruct (path_exists fs dir); [| exact H0].
  now apply index_files_keys_distinct.
Qed.

End KeyFacts.

(** ** Exact arithmetic *)

Lemma Qplus_comm_eq (x y : Q) : Qplus x y = Qplus y x.
Proof.
  destruct x as [a b], y as [c d]. unfold Qplus. cbn. f_equal; [ring | apply Pos.mul_comm].
Qed.

Lemma Qplus_assoc_eq (x y z : Q) : Qplus (Qplus x y) z = Qplus x (Qplus y z).
Proof.
  destruct x as [a b], y as [c d], z as [e f]. unfold Qplus. cbn.
  f_equal; [| symmetry; apply Pos.mul_assoc].
  rewrite !Pos2Z.inj_mul. ring.
Qed.

(** ** The properties at concrete inputs *)

Section Instances.
Import Example32.

(** C1 at the query ["zzz"]: the normalized query is not empty, no token
    of it is in the table, the query embedding has norm zero, and [search]
    returns the empty list although [_fallback_search] finds the two
    documents whose titles contain the word. *)
Theorem search_zero_norm_returns_nothing :
  String.eqb (PyStr.strip (PyStr.lower "zzz")) "" = false
  /\ neqb (np_linalg_norm (eval (_get_query_embeddings "zzz") engine)) nzero = true
  /\ eval (search "zzz" 5) engine = []
  /\ map (fun r => fst (fst r)) (eval (_fallback_search "zzz" 5) engine)
     = ["a.txt"; "c.txt"].
Proof. repeat split; vm_compute; reflexivity. Qed.

(** C2, as stated, at the file [blogs/a.txt] and the empty engine: after
    the metadata of the file is inserted (line 79) and before its embedding
    is (line 87), the file is in the metadata mapping only. *)
Lemma index_points_counterexample :
  ~ (forall (fs : FileSystem) (filepath : string) (self : Engine),
       keys_agree self ->
       Forall same_key_sets (index_single_blog_points fs filepath self)).
Proof.
  intros H.
  specialize (H fs "blogs/a.txt" empty_engine eq_refl).
  rewrite index_single_blog_points_run in H.
  change (read_text fs "blogs/a.txt") with (Some file_a) in H.
  inversion H as [| s0 l0 _ H1]; subst.
  inversion H1 as [| s1 l1 Hmid _]; subst.
  destruct (Hmid "a.txt") as [_ Hback].
  specialize (Hback eq_refl). vm_compute in Hback. discriminate Hback.
Qed.

Lemma index_keys_agree_witness :
  keys_agree empty_engine
  /\ keys_agree (exec (_index_single_blog fs "blogs/a.txt") empty_engine).
Proof.
  assert (H : keys_agree empty_engine) by reflexivity.
  split; [exact H |].
  exact (proj1 (index_keys_agree fs "blogs/a.txt" empty_engine H)).
Defined.

(** C3, as stated, at a file whose second line is ["=="]: that line
    starts with ['='] but does not end the header, so the later line
    ["Title: B"] is read as the title and the body is the whole file. *)
Lemma header_delimiter_counterexample :
  ~ (forall content pre d post,
       PyStr.split "010"%char content = pre ++ d :: post ->
       Forall (fun line => PyStr.startswith "=" line = false) pre ->
       PyStr.startswith "=" d = true ->
       snd (parse_blog content) = PyStr.join nl post
       /\ dict_get "title" (fst (parse_blog content))
          = dict_get "title" (fst (header_loop pre 0 []))).
Proof.
  intros H.
  specialize (H ("Title: A" ++ nl ++ "==" ++ nl ++ "Title: B" ++ nl ++ "body")%string
                ["Title: A"] "==" ["Title: B"; "body"]).
  destruct H as [Hbody _]; [reflexivity | repeat constructor | reflexivity |].
  vm_compute in Hbody. discriminate Hbody.
Qed.

Lemma parse_blog_delimiter_witness :
  PyStr.split "010"%char file_a
  = ["Title: Zzz Post"; "Author: Me"] ++ "=====" :: [""; "hello world"]
  /\ parse_blog file_a
     = ([("title", "Zzz Post"); ("author", "Me");
         ("content_preview", ("" ++ nl ++ "hello world")%string)],
        ("" ++ nl ++ "hello world")%string).
Proof.
  assert (Hs : PyStr.split "010"%char file_a
               = ["Title: Zzz Post"; "Author: Me"] ++ "=====" :: [""; "hello world"])
    by reflexivity.
  split; [exact Hs |].
  refine (proj1 (parse_blog_delimiter file_a _ _ _ Hs _ _));
    [repeat constructor | reflexivity].
Defined.

Lemma rank_at_most_top_k_nonzero_witness :
  (0 <= 1)%Z
  /\ (Z.of_nat (List.length
        (eval (rank (eval (_get_query_embeddings "food hello") engine) 1) engine))
      <= 1)%Z.
Proof.
  assert (Hk : (0 <= 1)%Z) by lia.
  assert (Hnd : NoDup (dict_keys (doc_embeddings engine)))
    by exact (proj2 (init_keys_distinct wv "blogs" fs)).
  split; [exact Hk |].
  exact (proj1 (proj1 (rank_at_most_top_k_nonzero engine 1 Hk Hnd)
                      (eval (_get_query_embeddings "food hello") engine))).
Defined.

Lemma create_document_embedding_mean_witness :
  table_ok (model_wv engine)
  /\ List.length (eval (_create_document_emedding ["hello"; "zzz"; "food"]) engine) = 2.
Proof.
  assert (H : table_ok (model_wv engine)) by (repeat constructor).
  split; [exact H |].
  exact (proj1 (proj2 (create_document_embedding_mean engine ["hello"; "zzz"; "food"] H))).
Defined.

(** C6, as stated, at [top_k = -1]: the slice [matching_blogs[:-1]]
    drops the last of the two matches and returns one entry, which is more
    than [top_k]. *)
Lemma fallback_negative_top_k_counterexample :
  ~ (forall (self : Engine) (query : string) (top_k : Z),
       (Z.of_nat (List.length (eval (_fallback_search query top_k) self)) <= top_k)%Z).
Proof.
  intros H. specialize (H engine "zzz" (-1)%Z).
  vm_compute in H. apply H. reflexivity.
Qed.

Lemma fallback_search_matches_witness :
  (0 <= 1)%Z
  /\ eval (_fallback_search "ZZZ cooking" 1) engine
     = firstn 1
         (map placeholder
              (filter (fun item => fallback_matchb "ZZZ cooking" (snd item))
                      (blog_metadata engine))).
Proof.
  assert (Hk : (0 <= 1)%Z) by lia.
  split; [exact Hk |].
  exact (proj1 (fallback_search_matches engine "ZZZ cooking" 1 Hk)).
Defined.

Lemma index_blogs_skips_failures_witness :
  read_text fs "blogs/b.txt" = None
  /\ dict_get "c.txt" (blog_metadata (exec (_index_blogs fs) empty_engine))
     = Some (fst (parse_blog file_c)).
Proof.
  split; [reflexivity |].
  refine (proj1 (index_blogs_skips_failures fs empty_engine "c.txt" file_c _ _ _ _ _)).
  - reflexivity.
  - repeat constructor.
  - cbn. tauto.
  - reflexivity.
  - reflexivity.
Defined.

(** C9, as stated, in binary32: 0.75 + 1e-8 rounds to 0.75, so the
    first components of aaa, bbb, ccc add up to 1e-8 whereas those of ccc,
    aaa, bbb add up to 0, whether the rows are added from the left or from
    the right; the two embeddings differ. *)
Lemma clean_text_tokens_witness :
  (forall c, ascii_space c = true -> ascii_word c = false)
  /\ (forall text, forallb ascii_space text = true ->
                   forallb ascii_space (ascii_lower text) = true)
  /\ Unicode._clean_text ascii_word ascii_digit ascii_lower
       (code_points "The Quick_Fox, v2: an ox")
     = [code_points "the"; code_points "quick_fox"]
  /\ Forall (fun t =>
               3 <= List.length t <= 50
               /\ Unicode.maximal_run ascii_word ascii_digit t
                    (ascii_lower (code_points "The Quick_Fox, v2: an ox"))
               /\ Forall (fun c => ascii_word c = true /\ ascii_digit c = false
                                   /\ ascii_space c = false) t
               /\ Unicode.startswith_underscore t = false)
            (Unicode._clean_text ascii_word ascii_digit ascii_lower
               (code_points "The Quick_Fox, v2: an ox")).
Proof.
  split; [exact ascii_space_not_word |].
  split; [exact ascii_lower_space |].
  split; [vm_compute; reflexivity |].
  exact (proj1 (clean_text_tokens ascii_word ascii_digit ascii_space ascii_lower
                  ascii_space_not_word ascii_lower_space
                  (code_points "The Quick_Fox, v2: an ox"))).
Defined.

Lemma embedding_permutation_counterexample :
  ~ (forall (self : Engine) (words words' : list string),
       Permutation words words' ->
       eval (_create_document_emedding words') self
       = eval (_create_document_emedding words) self).
Proof.
  intros H.
  specialize (H engine3 ["aaa"; "bbb"; "ccc"] ["ccc"; "aaa"; "bbb"]).
  assert (Hp : Permutation ["aaa"; "bbb"; "ccc"] ["ccc"; "aaa"; "bbb"])
    by (apply Permutation_sym, (Permutation_cons_append ["aaa"; "bbb"] "ccc")).
  specialize (H Hp). vm_compute in H. discriminate H.
Qed.

Lemma create_document_embedding_permutation_witness :
  Permutation ["aaa"; "zzz"; "bbb"] ["bbb"; "aaa"; "zzz"]
  /\ List.length (resolved wv3 ["aaa"; "zzz"; "bbb"]) <= 2
  /\ eval (_create_document_emedding ["bbb"; "aaa"; "zzz"]) engine3
     = eval (_create_document_emedding ["aaa"; "zzz"; "bbb"]) engine3
  /\ eval (_create_document_emedding ["ccc"; "aaa"; "bbb"]) ExampleQ.engine
     = eval (_create_document_emedding ["aaa"; "bbb"; "ccc"]) ExampleQ.engine.
Proof.
  assert (Hp : Permutation ["aaa"; "zzz"; "bbb"] ["bbb"; "aaa"; "zzz"])
    by (apply Permutation_sym, (Permutation_cons_append ["aaa"; "zzz"] "bbb")).
  assert (Hl : List.length (resolved wv3 ["aaa"; "zzz"; "bbb"]) <= 2)
    by (cbn; lia).
  assert (Hq : Permutation ["aaa"; "bbb"; "ccc"] ["ccc"; "aaa"; "bbb"])
    by (apply Permutation_sym, (Permutation_cons_append ["aaa"; "bbb"] "ccc")).
  split; [exact Hp |]. split; [exact Hl |]. split.
  - exact (proj1 (proj2 (proj2
             (create_document_embedding_permutation engine3 _ _ Hp)))
             b32_add_comm Hl).
  - exact (proj2 (proj2 (proj2
             (create_document_embedding_permutation (A := exact_arith)
                ExampleQ.engine _ _ Hq)))
             Qplus_comm_eq Qplus_assoc_eq).
Defined.

End Instances.

(** * Further properties of the engine *)

(** ** Queries without tokens, engines without documents *)

Section EdgeFacts.
Context {A : Arith} {MA : Metric A}.

Lemma py_slice_to_nil {T : Type} (k : Z) : py_slice_to k (@nil T) = [].
Proof. unfold py_slice_to. destruct (0 <=? k)%Z; apply firstn_nil. Qed.

Lemma filter_none {T : Type} (f : T -> bool) (l : list T) :
  (forall x, In x l -> f x = false) -> filter f l = [].
Proof.
  induction l as [| x l IH]; cbn; intros H; [reflexivity |].
  rewrite (H x (or_introl eq_refl)). apply IH. intros y Hy. apply H. now right.
Qed.

Lemma lstrip_empty_iff (s : string) :
  PyStr.lstrip s = "" <-> PyStr.all_chars PyStr.is_space s = true.
Proof.
  induction s as [| c r IH]; cbn; [tauto |].
  destruct (PyStr.is_space c); cbn; [exact IH |].
  split; discriminate.
Qed.

Lemma rev_string_onto_empty (s acc : string) :
  PyStr.rev_string_onto s acc = "" -> s = "" /\ acc = "".
Proof.
  revert acc. induction s as [| c r IH]; intros acc H; cbn in H; [now split |].
  apply IH in H as [_ H]. discriminate H.
Qed.

Lemma all_chars_rev_onto_inv (p : ascii -> bool) (s acc : string) :
  PyStr.all_chars p (PyStr.rev_string_onto s acc) = true ->
  PyStr.all_chars p s = true.
Proof.
  revert acc. induction s as [| c r IH]; intros acc H; cbn in *; [reflexivity |].
  rewrite (IH _ H), andb_true_r.
  assert (Hacc : forall t a, PyStr.all_chars p (PyStr.rev_string_onto t a) = true ->
                             PyStr.all_chars p a = true).
  { induction t as [| d t IHt]; intros a Ha; cbn in Ha; [exact Ha |].
    apply IHt in Ha. cbn in Ha. now apply andb_true_iff in Ha as [_ Ha]. }
  apply Hacc in H. cbn in H. now apply andb_true_iff in H as [H _].
Qed.

(** A string strips to the empty string exactly when it is white space. *)
Lemma strip_empty_iff (s : string) :
  PyStr.strip s = "" <-> PyStr.all_chars PyStr.is_space s = true.
Proof.
  unfold PyStr.strip, PyStr.rstrip, PyStr.rev_string. split.
  - intros H. apply rev_string_onto_empty in H as [H _].
    apply lstrip_empty_iff in H. apply all_chars_rev_onto_inv in H.
    destruct (PyStr.lstrip s) as [| c r] eqn:E; [now apply lstrip_empty_iff |].
    exfalso. cbn in H. apply andb_true_iff in H as [Hc _].
    clear - E Hc. induction s as [| d s IH]; cbn in E; [discriminate |].
    destruct (PyStr.is_space d) eqn:Hd; [now apply IH |].
    injection E as -> _. congruence.
  - intros H. apply lstrip_empty_iff in H. rewrite H. reflexivity.
Qed.

Lemma is_space_lower_char (c : ascii) :
  PyStr.is_space (PyStr.lower_char c) = PyStr.is_space c.
Proof. destruct c as [[] [] [] [] [] [] [] []]; reflexivity. Qed.

Lemma all_space_lower (s : string) :
  PyStr.all_chars PyStr.is_space (PyStr.lower s)
  = PyStr.all_chars PyStr.is_space s.
Proof.
  induction s as [| c r IH]; cbn; [reflexivity |].
  now rewrite is_space_lower_char, IH.
Qed.

(** The query is blank exactly when its normalized form is empty. *)
Lemma normalized_empty_iff (query : string) :
  PyStr.strip (PyStr.lower query) = "" <-> PyStr.strip query = "".
Proof. now rewrite !strip_empty_iff, all_space_lower. Qed.

Lemma fallback_no_tokens (query : string) (top_k : Z) (self : Engine) :
  _clean_text query = [] -> eval (_fallback_search query top_k) self = [].
Proof.
  intros H. unfold eval. rewrite fallback_search_run. cbn [fst].
  rewrite filter_none; [apply py_slice_to_nil |].
  intros item _. unfold fallback_matchb. now rewrite H.
Qed.

(** A query without a token of 3 to 50 characters matches nothing in the
    fallback search, and a blank query (empty, or white space only) makes
    [search] return the empty list, for every engine and every [top_k]. *)
Theorem search_blank_query (self : Engine) (query : string) (top_k : Z) :
  (_clean_text query = [] -> eval (_fallback_search query top_k) self = [])
  /\ (PyStr.all_chars PyStr.is_space query = true ->
      eval (search query top_k) self = []).
Proof.
  split; [apply fallback_no_tokens |].
  intros Hb. apply strip_empty_iff, normalized_empty_iff in Hb.
  unfold eval, search. rewrite Hb. cbn [String.eqb].
  now apply fallback_no_tokens.
Qed.

Lemma rank_no_documents (query_embedding : vec) (top_k : Z) (self : Engine) :
  doc_embeddings self = [] -> eval (rank query_embedding top_k) self = [].
Proof.
  intros H. unfold eval. rewrite rank_run, compute_similarities_run. cbn [fst].
  rewrite H. now destruct (neqb (np_linalg_norm query_embedding) nzero).
Qed.

Lemma search_no_documents (query : string) (top_k : Z) (self : Engine) :
  blog_metadata self = [] -> doc_embeddings self = [] ->
  eval (search query top_k) self = [].
Proof.
  intros Hm He. unfold eval.
  destruct (String.eqb (PyStr.strip (PyStr.lower query)) "") eqn:Eq.
  - unfold search. rewrite Eq. rewrite fallback_search_run. cbn [fst].
    rewrite Hm. apply py_slice_to_nil.
  - rewrite (search_nonempty_query query top_k self Eq).
    now apply rank_no_documents.
Qed.

(** When the blog directory does not exist, [__init__] builds an engine
    with two empty mappings, and every search on it returns the empty
    list. *)
Theorem init_missing_directory
  (wv : KeyedVectors) (dir : string) (fs : FileSystem) :
  path_exists fs dir = false ->
  blog_metadata (__init__ wv dir fs) = []
  /\ doc_embeddings (__init__ wv dir fs) = []
  /\ forall query top_k, eval (search query top_k) (__init__ wv dir fs) = [].
Proof.
  intros H.
  assert (E : __init__ wv dir fs
              = {| model_wv := wv; blog_directory := dir; word_to_blogs := [];
                   blog_metadata := []; doc_embeddings := [] |}).
  { unfold __init__. rewrite index_blogs_run. cbn [blog_directory]. now rewrite H. }
  rewrite E. split; [reflexivity |]. split; [reflexivity |].
  intros query top_k. now apply search_no_documents.
Qed.

End EdgeFacts.

Lemma init_missing_directory_witness :
  path_exists Example32.fs "nowhere" = false
  /\ eval (search "hello" 5) (__init__ Example32.wv "nowhere" Example32.fs) = [].
Proof.
  assert (H : path_exists Example32.fs "nowhere" = false) by reflexivity.
  split; [exact H |].
  exact (proj2 (proj2 (init_missing_directory Example32.wv "nowhere" Example32.fs H))
               "hello" 5%Z).
Defined.

Lemma search_blank_query_witness :
  PyStr.all_chars PyStr.is_space "  " = true
  /\ eval (search "  " 5) Example32.engine = [].
Proof.
  split; [reflexivity |].
  apply (proj2 (search_blank_query Example32.engine "  " 5)). reflexivity.
Defined.

(** ** What the built index holds *)

Section IndexContentFacts.
Context {A : Arith}.

Lemma index_files_model_wv
  (fs : FileSystem) (dir : string) (names : list string) (self : Engine) :
  model_wv (exec (index_files fs dir names) self) = model_wv self.
Proof.
  revert self. induction names as [| name rest IH]; intros self; [reflexivity |].
  rewrite index_files_cons, IH.
  destruct (PyStr.endswith ".txt" name); [apply step_model_wv | reflexivity].
Qed.

Lemma init_model_wv (wv : KeyedVectors) (dir : string) (fs : FileSystem) :
  model_wv (__init__ wv dir fs) = wv.
Proof.
  unfold __init__. rewrite index_blogs_run. cbn [blog_directory].
  destruct (path_exists fs dir); [| reflexivity].
  now rewrite index_files_model_wv.
Qed.

Lemma init_keys_agree (wv : KeyedVectors) (dir : string) (fs : FileSystem) :
  keys_agree (__init__ wv dir fs).
Proof.
  unfold __init__. rewrite index_blogs_run. cbn [blog_directory].
  destruct (path_exists fs dir); [| reflexivity].
  now apply index_files_keys_agree.
Qed.

Lemma index_files_entries
  (fs : FileSystem) (dir : string) (names : list string) (wv : KeyedVectors)
  (rest : list string) (self : Engine) :
  incl rest names -> model_wv self = wv ->
  entries_from fs dir names wv self ->
  entries_from fs dir names wv (exec (index_files fs dir rest) self).
Proof.
  revert self. induction rest as [| name rest IH]; intros self Hincl Hwv Hinv;
    [exact Hinv |].
  rewrite index_files_cons.
  assert (Hrest : incl rest names) by (intros x Hx; apply Hincl; now right).
  destruct (PyStr.endswith ".txt" name) eqn:Htxt; [| now apply IH].
  apply IH; [assumption | now rewrite step_model_wv |].
  unfold exec. rewrite index_single_blog_run. cbn [snd].
  destruct (read_text fs (path_join dir name)) as [content |] eqn:Hread;
    [| exact Hinv].
  assert (Hsrc : entry_source fs dir names (basename (path_join dir name)) content).
  { exists name. repeat split; try assumption. apply Hincl. now left. }
  destruct Hinv as [Hm He].
  unfold after_embedding_insert, after_metadata_insert,
    set_doc_embeddings, set_blog_metadata.
  split; cbn [blog_metadata doc_embeddings model_wv]; intros k v Hin;
    apply dict_set_In in Hin as [[-> ->] | Hin].
  - now exists content.
  - now apply Hm.
  - exists content. now rewrite Hwv.
  - now apply He.
Qed.

Lemma init_entries (wv : KeyedVectors) (dir : string) (fs : FileSystem) :
  entries_from fs dir (listdir fs dir) wv (__init__ wv dir fs).
Proof.
  assert (H0 : entries_from fs dir (listdir fs dir) wv
                 {| model_wv := wv; blog_directory := dir; word_to_blogs := [];
                    blog_metadata := []; doc_embeddings := [] |})
    by (split; intros k v []).
  unfold __init__. rewrite index_blogs_run. cbn [blog_directory].
  destruct (path_exists fs dir); [| exact H0].
  apply index_files_entries; [apply incl_refl | reflexivity | exact H0].
Qed.

(** Every entry of the index that [__init__] builds comes from a file of
    the listing whose name ends in [.txt] and that could be read: its key is
    the base name of that file, its metadata and its embedding are those
    computed from the content of a file with that key.  Other files of the
    directory never enter the index. *)
Theorem init_entries_from_listing
  (wv : KeyedVectors) (dir : string) (fs : FileSystem) :
  let self := __init__ wv dir fs in
  (forall k md, In (k, md) (blog_metadata self) ->
     exists filename content,
       In filename (listdir fs dir)
       /\ PyStr.endswith ".txt" filename = true
       /\ read_text fs (path_join dir filename) = Some content
       /\ k = basename (path_join dir filename)
       /\ md = fst (parse_blog content))
  /\ (forall k emb, In (k, emb) (doc_embeddings self) ->
        exists filename content,
          In filename (listdir fs dir)
          /\ PyStr.endswith ".txt" filename = true
          /\ read_text fs (path_join dir filename) = Some content
          /\ k = basename (path_join dir filename)
          /\ emb = embedding_of wv content).
Proof.
  destruct (init_entries wv dir fs) as [Hm He].
  split; intros k v Hin.
  - destruct (Hm k v Hin) as (content & (filename & H1 & H2 & H3 & H4) & H5).
    now exists filename, content.
  - destruct (He k v Hin) as (content & (filename & H1 & H2 & H3 & H4) & H5).
    now exists filename, content.
Qed.

Lemma string_length_append (s t : string) :
  String.length (s ++ t)%string = String.length s + String.length t.
Proof. induction s as [| c r IH]; cbn; [reflexivity | now rewrite IH]. Qed.

Lemma take_length (n : nat) (s : string) : String.length (PyStr.take n s) <= n.
Proof.
  revert s. induction n as [| n IH]; intros [| c r]; cbn; try lia.
  specialize (IH r). lia.
Qed.

Lemma preview_of_length (blog_conent : string) :
  String.length (preview_of blog_conent) <= 303.
Proof.
  unfold preview_of. destruct (300 <? String.length blog_conent) eqn:E.
  - rewrite string_length_append. pose proof (take_length 300 blog_conent).
    cbn [String.length]. lia.
  - apply Nat.ltb_ge in E. lia.
Qed.

Lemma parse_blog_preview (content : string) :
  dict_get "content_preview" (fst (parse_blog content))
  = Some (preview_of (snd (parse_blog content))).
Proof.
  unfold parse_blog.
  destruct (header_loop (PyStr.split "010" content) 0 []) as [metadata content_start].
  cbn [fst snd]. apply dict_get_set_eq.
Qed.

(** Every document of the index that [__init__] builds has a content
    preview, of at most 303 characters (300 of the body and the marker). *)
Theorem init_previews_bounded
  (wv : KeyedVectors) (dir : string) (fs : FileSystem) (k : string) (md : Metadata) :
  In (k, md) (blog_metadata (__init__ wv dir fs)) ->
  exists preview,
    dict_get "content_preview" md = Some preview
    /\ String.length preview <= 303.
Proof.
  intros Hin. destruct (init_entries wv dir fs) as [Hm _].
  destruct (Hm k md Hin) as (content & _ & ->).
  exists (preview_of (snd (parse_blog content))).
  split; [apply parse_blog_preview | apply preview_of_length].
Qed.

Lemma dict_set_length {V : Type} (k : string) (v : V) (d : dict V) :
  List.length (dict_set k v d) <= S (List.length d).
Proof.
  induction d as [| [k0 v0] r IH]; cbn; [lia |].
  destruct (String.eqb k k0); cbn; lia.
Qed.

Lemma index_files_size
  (fs : FileSystem) (dir : string) (names : list string) (self : Engine) :
  List.length (doc_embeddings (exec (index_files fs dir names) self))
  <= List.length (doc_embeddings self)
     + List.length (filter (PyStr.endswith ".txt") names).
Proof.
  revert self. induction names as [| name rest IH]; intros self; [cbn; lia |].
  rewrite index_files_cons. cbn [filter].
  destruct (PyStr.endswith ".txt" name).
  - etransitivity; [apply IH |]. cbn [List.length].
    unfold exec. rewrite index_single_blog_run. cbn [snd].
    destruct (read_text fs (path_join dir name)); [| lia].
    unfold after_embedding_insert, set_doc_embeddings. cbn [doc_embeddings].
    pose proof (dict_set_length (basename (path_join dir name))
                  (embedding_of (model_wv self) s)
                  (doc_embeddings (after_metadata_insert (path_join dir name) s self))).
    unfold after_metadata_insert, set_blog_metadata in *. cbn [doc_embeddings] in *.
    lia.
  - apply IH.
Qed.

(** In the engine that [__init__] builds the two mappings have the same
    number of entries, at most the number of [.txt] names of the listing,
    and [get_stats] reports that number together with the size and the
    dimension of the embedding table. *)
Theorem init_sizes (wv : KeyedVectors) (dir : string) (fs : FileSystem) :
  let self := __init__ wv dir fs in
  List.length (blog_metadata self) = List.length (doc_embeddings self)
  /\ List.length (doc_embeddings self)
     <= List.length (filter (PyStr.endswith ".txt") (listdir fs dir))
  /\ eval get_stats self
     = (List.length (blog_metadata self),
        List.length (key_to_index wv), vector_size wv).
Proof.
  intros self.
  assert (Hlen : List.length (blog_metadata self) = List.length (doc_embeddings self)).
  { pose proof (init_keys_agree wv dir fs) as H. unfold keys_agree, dict_keys in H.
    fold self in H. apply (f_equal (@List.length string)) in H.
    now rewrite !length_map in H. }
  split; [exact Hlen |]. split.
  - unfold self, __init__. rewrite index_blogs_run. cbn [blog_directory].
    destruct (path_exists fs dir); [| cbn; lia].
    etransitivity; [apply index_files_size |]. cbn. lia.
  - unfold eval, get_stats, bind, gets, ret. cbn [fst].
    rewrite Hlen. unfold self. now rewrite init_model_wv.
Qed.

End IndexContentFacts.

(** ** What the ranking returns *)

Section RankingOrderFacts.
Context {A : Arith} {MA : Metric A}.

Lemma dict_keys_In {V : Type} (k : string) (d : dict V) :
  In k (dict_keys d) -> exists v, dict_get k d = Some v.
Proof.
  intros H. destruct (dict_get k d) as [v |] eqn:E; [now exists v |].
  apply dict_get_None_keys in E. contradiction.
Qed.

Lemma dict_get_default_Some {V : Type} (k : string) (default v : V) (d : dict V) :
  dict_get k d = Some v -> dict_get_default k default d = v.
Proof. intros H. unfold dict_get_default. now rewrite H. Qed.

Lemma rank_results_In
  (self : Engine) (query_embedding : vec) (top_k : Z)
  (f : string) (sc : num) (md : Metadata) :
  In (f, sc, md) (eval (rank query_embedding top_k) self) ->
  md = dict_get_default f [] (blog_metadata self)
  /\ exists emb, In (f, emb) (doc_embeddings self)
                 /\ nltb nzero (np_linalg_norm emb) = true.
Proof.
  unfold eval. rewrite rank_run, compute_similarities_run. cbn [fst].
  set (sims := if neqb (np_linalg_norm query_embedding) nzero then [] else _).
  intros Hin. apply in_map_iff in Hin as ([f' sc'] & Heq & Hin).
  unfold attach in Heq. cbn in Heq. injection Heq as -> -> <-.
  split; [reflexivity |].
  assert (Hs : In (f, sc) sims).
  { destruct sims as [| s0 sims0]; [contradiction |].
    apply sorted_desc_In. eapply py_slice_to_incl. exact Hin. }
  subst sims.
  destruct (neqb (np_linalg_norm query_embedding) nzero); [contradiction |].
  unfold similarity_loop in Hs.
  now apply similarity_loop_In in Hs as [[] | H].
Qed.

Lemma search_results_stored
  (self : Engine) (query : string) (top_k : Z)
  (f : string) (sc : num) (md : Metadata) :
  keys_agree self -> keys_distinct self ->
  In (f, sc, md) (eval (search query top_k) self) ->
  dict_get f (blog_metadata self) = Some md
  /\ exists emb, dict_get f (doc_embeddings self) = Some emb.
Proof.
  intros Hag [Hdm Hde] Hin. unfold eval in Hin.
  destruct (String.eqb (PyStr.strip (PyStr.lower query)) "") eqn:Eq.
  - unfold search in Hin. rewrite Eq, fallback_search_run in Hin. cbn [fst] in Hin.
    apply py_slice_to_incl in Hin.
    apply in_map_iff in Hin as ([f' md'] & Heq & Hin).
    unfold placeholder in Heq. cbn in Heq. injection Heq as -> _ ->.
    apply filter_In in Hin as [Hin _].
    split; [now apply dict_get_In_NoDup |].
    apply dict_keys_In. unfold keys_agree in Hag. rewrite <- Hag.
    change f with (fst (f, md)). now apply in_map.
  - rewrite (search_nonempty_query query top_k self Eq) in Hin.
    apply rank_results_In in Hin as [-> (emb & Hemb & _)].
    assert (Hk : In f (dict_keys (doc_embeddings self)))
      by exact (in_map fst (doc_embeddings self) (f, emb) Hemb).
    split.
    + unfold keys_agree in Hag. rewrite <- Hag in Hk.
      apply dict_keys_In in Hk as [v Hv].
      transitivity (Some v); [exact Hv |].
      f_equal. symmetry. now apply dict_get_default_Some.
    + now apply dict_keys_In.
Qed.

(** Every result of a search on the engine that [__init__] builds carries
    the metadata stored for its file (the default [{}] of the lookup is
    never used), and its file has a stored embedding. *)
Theorem search_results_carry_metadata
  (wv : KeyedVectors) (dir : string) (fs : FileSystem)
  (query : string) (top_k : Z) (f : string) (sc : num) (md : Metadata) :
  let self := __init__ wv dir fs in
  In (f, sc, md) (eval (search query top_k) self) ->
  dict_get f (blog_metadata self) = Some md
  /\ exists emb, dict_get f (doc_embeddings self) = Some emb.
Proof.
  intros self. apply search_results_stored;
    [apply init_keys_agree | apply init_keys_distinct].
Qed.

Lemma insert_desc_perm (x : string * num) (l : list (string * num)) :
  Permutation (insert_desc x l) (x :: l).
Proof.
  induction l as [| y l IH]; cbn; [reflexivity |].
  destruct (nltb (snd x) (snd y)); [| reflexivity].
  rewrite IH. apply perm_swap.
Qed.

Lemma sorted_desc_perm (l : list (string * num)) : Permutation (sorted_desc l) l.
Proof.
  unfold sorted_desc. induction l as [| x l IH]; cbn; [reflexivity |].
  rewrite insert_desc_perm. now apply perm_skip.
Qed.

Lemma existsb_eqb_false (k : string) (l : list string) :
  ~ In k l -> existsb (String.eqb k) l = false.
Proof.
  intros H. destruct (existsb (String.eqb k) l) eqn:E; [| reflexivity].
  apply existsb_exists in E as (x & Hx & Hxk). apply String.eqb_eq in Hxk.
  subst x. contradiction.
Qed.

Lemma fold_dict_set_keys
  (step : dict num -> string * vec -> dict num)
  (pos : vec -> bool) (score : vec -> num) :
  (forall acc g e,
     step acc (g, e) = if pos e then dict_set g (score e) acc else acc) ->
  forall (items : dict vec) (acc : dict num),
    NoDup (dict_keys acc ++ dict_keys items) ->
    dict_keys (fold_left step items acc)
    = dict_keys acc ++ dict_keys (filter (fun item => pos (snd item)) items).
Proof.
  intros Hstep. induction items as [| [g e] r IH]; intros acc Hnd.
  - cbn. now rewrite app_nil_r.
  - change (fold_left step ((g, e) :: r) acc)
      with (fold_left step r (step acc (g, e))).
    change (filter (fun item => pos (snd item)) ((g, e) :: r))
      with (if pos e then (g, e) :: filter (fun item => pos (snd item)) r
            else filter (fun item => pos (snd item)) r).
    change (dict_keys ((g, e) :: r)) with (g :: dict_keys r) in Hnd.
    assert (Hg : ~ In g (dict_keys acc)).
    { apply NoDup_remove_2 in Hnd. intros Hin. apply Hnd, in_or_app. now left. }
    rewrite Hstep. destruct (pos e).
    + rewrite IH; rewrite dict_keys_set, (existsb_eqb_false g _ Hg), <- app_assoc.
      * reflexivity.
      * exact Hnd.
    + apply IH. now apply NoDup_remove_1 in Hnd.
Qed.

Lemma similarity_loop_keys (q : vec) (items : dict vec) :
  NoDup (dict_keys items) ->
  dict_keys (similarity_loop q items)
  = dict_keys (filter (fun item => nltb nzero (np_linalg_norm (snd item))) items).
Proof.
  intros Hnd. unfold similarity_loop.
  exact (fold_dict_set_keys _
           (fun e => nltb nzero (np_linalg_norm e))
           (fun e => np_dot q (vdiv e (np_linalg_norm e)))
           (fun _ _ _ => eq_refl) items [] Hnd).
Qed.

(** With a query embedding of non-zero norm and [top_k] at least the
    number of documents, the ranking returns every document whose embedding
    has a positive norm exactly once, and no other: the file names of the
    results are a permutation of the names of these documents. *)
Theorem rank_returns_all_scored
  (self : Engine) (query_embedding : vec) (top_k : Z) :
  NoDup (dict_keys (doc_embeddings self)) ->
  neqb (np_linalg_norm query_embedding) nzero = false ->
  (Z.of_nat (List.length (doc_embeddings self)) <= top_k)%Z ->
  Permutation
    (map (fun r => fst (fst r)) (eval (rank query_embedding top_k) self))
    (dict_keys (filter (fun item => nltb nzero (np_linalg_norm (snd item)))
                       (doc_embeddings self))).
Proof.
  intros Hnd Hq Hk. unfold eval.
  rewrite rank_run, compute_similarities_run. cbn [fst]. rewrite Hq.
  set (sims := similarity_loop _ (doc_embeddings self)).
  assert (Hkeys : dict_keys sims
                  = dict_keys (filter (fun item => nltb nzero (np_linalg_norm (snd item)))
                                      (doc_embeddings self))).
  { unfold sims. now apply similarity_loop_keys. }
  rewrite <- Hkeys, map_map.
  change (fun x : string * num => fst (fst (attach self x))) with (@fst string num).
  destruct sims as [| s0 sims0] eqn:Es; [reflexivity |].
  rewrite <- Es in *.
  assert (Hlen : List.length sims <= List.length (doc_embeddings self)).
  { rewrite <- (length_map fst sims). fold (dict_keys sims). rewrite Hkeys.
    unfold dict_keys. rewrite length_map. apply filter_length_le. }
  rewrite py_slice_to_nonneg by lia.
  rewrite firstn_all2.
  - apply Permutation_map, sorted_desc_perm.
  - rewrite (Permutation_length (sorted_desc_perm sims)). lia.
Qed.

Lemma insert_desc_sorted (x : string * num) (l : list (string * num)) :
  (forall y, In y l -> nltb (snd x) (snd y) = true -> nltb (snd y) (snd x) = false) ->
  (forall y z, In y l -> In z l ->
     nltb (snd x) (snd y) = false -> nltb (snd y) (snd z) = false ->
     nltb (snd x) (snd z) = false) ->
  StronglySorted (fun a b => nltb (snd a) (snd b) = false) l ->
  StronglySorted (fun a b => nltb (snd a) (snd b) = false) (insert_desc x l).
Proof.
  intros Hasym Htrans Hs. induction Hs as [| y l Hs IH Hy]; cbn.
  - repeat constructor.
  - destruct (nltb (snd x) (snd y)) eqn:E.
    + constructor.
      * apply IH.
        -- intros z Hz. apply Hasym. now right.
        -- intros z w Hz Hw. apply Htrans; now right.
      * apply Forall_forall. intros z Hz.
        apply insert_desc_In in Hz as [-> | Hz].
        -- apply Hasym; [now left | exact E].
        -- rewrite Forall_forall in Hy. now apply Hy.
    + constructor; [now constructor |].
      constructor; [exact E |].
      apply Forall_forall. intros z Hz. rewrite Forall_forall in Hy.
      apply (Htrans y z); [now left | now right | exact E | now apply Hy].
Qed.

Lemma sorted_desc_sorted (l : list (string * num)) :
  (forall x y, In x l -> In y l ->
     nltb (snd x) (snd y) = true -> nltb (snd y) (snd x) = false) ->
  (forall x y z, In x l -> In y l -> In z l ->
     nltb (snd x) (snd y) = false -> nltb (snd y) (snd z) = false ->
     nltb (snd x) (snd z) = false) ->
  StronglySorted (fun a b => nltb (snd a) (snd b) = false) (sorted_desc l).
Proof.
  unfold sorted_desc. induction l as [| x l IH]; intros Hasym Htrans; cbn.
  - constructor.
  - apply insert_desc_sorted.
    + intros y Hy. apply sorted_desc_In in Hy. apply Hasym; [now left | now right].
    + intros y z Hy Hz. apply sorted_desc_In in Hy, Hz.
      apply Htrans; [now left | now right | now right].
    + apply IH.
      * intros a b Ha Hb. apply Hasym; now right.
      * intros a b c Ha Hb Hc. apply Htrans; now right.
Qed.

Lemma StronglySorted_firstn {T : Type} (R : T -> T -> Prop) (n : nat) (l : list T) :
  StronglySorted R l -> StronglySorted R (firstn n l).
Proof.
  intros Hs. revert n. induction Hs as [| x l Hs IH Hx]; intros [| n]; cbn;
    try constructor.
  - apply IH.
  - apply Forall_forall. intros y Hy. apply firstn_incl in Hy.
    rewrite Forall_forall in Hx. now apply Hx.
Qed.

Lemma StronglySorted_map {T U : Type} (R : U -> U -> Prop) (g : T -> U) (l : list T) :
  StronglySorted (fun a b => R (g a) (g b)) l -> StronglySorted R (map g l).
Proof.
  induction 1 as [| x l Hs IH Hx]; cbn; constructor; [assumption |].
  apply Forall_forall. intros y Hy. apply in_map_iff in Hy as (z & <- & Hz).
  rewrite Forall_forall in Hx. now apply Hx.
Qed.

(** When the similarity scores are ordered by [<] as numbers are (no
    score is both less and greater than another, and "not less than" is
    transitive, which rules out NaN), the results of the ranking are in
    order of decreasing score: no result is followed by one with a greater
    score. *)
Theorem rank_sorted_by_score
  (self : Engine) (query_embedding : vec) (top_k : Z) :
  let sims := eval (_compute_similarities query_embedding) self in
  (forall x y, In x sims -> In y sims ->
     nltb (snd x) (snd y) = true -> nltb (snd y) (snd x) = false) ->
  (forall x y z, In x sims -> In y sims -> In z sims ->
     nltb (snd x) (snd y) = false -> nltb (snd y) (snd z) = false ->
     nltb (snd x) (snd z) = false) ->
  StronglySorted
    (fun r1 r2 => nltb (snd (fst r1)) (snd (fst r2)) = false)
    (eval (rank query_embedding top_k) self).
Proof.
  intros sims. unfold eval in sims. intros Hasym Htrans.
  unfold eval. rewrite rank_run. cbn [fst]. fold sims.
  apply StronglySorted_map.
  change (fun a b : string * num =>
            nltb (snd (fst (attach self a))) (snd (fst (attach self b))) = false)
    with (fun a b : string * num => nltb (snd a) (snd b) = false).
  destruct sims as [| s0 sims0] eqn:Es; [constructor |].
  rewrite <- Es in *.
  unfold py_slice_to. destruct (0 <=? top_k)%Z;
    apply StronglySorted_firstn; now apply sorted_desc_sorted.
Qed.

Lemma sorted_desc_ties (l : list (string * num)) :
  (forall x y, In x l -> In y l -> nltb (snd x) (snd y) = false) ->
  sorted_desc l = l.
Proof.
  unfold sorted_desc. induction l as [| x l IH]; intros H; cbn; [reflexivity |].
  rewrite IH by (intros a b Ha Hb; apply H; now right).
  destruct l as [| y l]; cbn; [reflexivity |].
  rewrite (H x y); [reflexivity | now left | right; now left].
Qed.

(** Ties keep the order of the index: when no similarity score is less
    than another, the ranking returns the scored documents in the order in
    which [doc_embeddings] holds them, cut at [top_k]. *)
Theorem rank_ties_keep_index_order
  (self : Engine) (query_embedding : vec) (top_k : Z) :
  let sims := eval (_compute_similarities query_embedding) self in
  (forall x y, In x sims -> In y sims -> nltb (snd x) (snd y) = false) ->
  eval (rank query_embedding top_k) self
  = map (attach self) (py_slice_to top_k sims).
Proof.
  intros sims. unfold eval in sims. intros H.
  unfold eval. rewrite rank_run. cbn [fst]. fold sims.
  destruct sims as [| s0 sims0] eqn:Es; [now rewrite py_slice_to_nil |].
  rewrite <- Es in *. now rewrite sorted_desc_ties.
Qed.

End RankingOrderFacts.

(** ** Files without a delimiter line *)

Section NoDelimiterFacts.

Lemma split_from_nonempty (sep : ascii) (cur s : string) :
  PyStr.split_from sep cur s <> [].
Proof.
  revert cur. induction s as [| c r IH]; intros cur; cbn; [discriminate |].
  destruct (Ascii.eqb c sep); [discriminate | apply IH].
Qed.

Lemma join_cons (sep x : string) (l : list string) :
  l <> [] -> PyStr.join sep (x :: l) = (x ++ sep ++ PyStr.join sep l)%string.
Proof. destruct l; [congruence | reflexivity]. Qed.

(** Joining the pieces of a split with the separator gives the string
    back. *)
Lemma join_split_from (sep : ascii) (cur s : string) :
  PyStr.join (String sep EmptyString) (PyStr.split_from sep cur s)
  = (PyStr.rev_string cur ++ s)%string.
Proof.
  revert cur. induction s as [| c r IH]; intros cur; cbn [PyStr.split_from].
  - cbn. now rewrite append_empty_r.
  - destruct (Ascii.eqb c sep) eqn:E.
    + apply Ascii.eqb_eq in E. subst c.
      rewrite join_cons by apply split_from_nonempty.
      rewrite IH. reflexivity.
    + rewrite IH. unfold PyStr.rev_string. cbn [PyStr.rev_string_onto].
      rewrite (rev_string_onto_app cur (String c EmptyString)).
      now rewrite string_app_assoc.
Qed.

Lemma join_split (sep : ascii) (s : string) :
  PyStr.join (String sep EmptyString) (PyStr.split sep s) = s.
Proof. unfold PyStr.split. now rewrite join_split_from. Qed.

Lemma header_loop_no_delimiter (lines : list string) (i : nat) (metadata : Metadata) :
  Forall (fun line => PyStr.startswith "===" line = false) lines ->
  snd (header_loop lines i metadata) = 0.
Proof.
  intros H. revert i metadata.
  induction H as [| line lines Hline _ IH]; intros i metadata; [reflexivity |].
  cbn [header_loop]. rewrite Hline.
  repeat match goal with
         | |- context [if ?b then _ else _] => destruct b
         end; apply IH.
Qed.

(** A file in which no line starts with ["==="] has no header for the
    body to start after: [content_start] stays 0, the body is the whole
    file, header lines included, and the preview is taken from it. *)
Theorem parse_blog_no_delimiter (content : string) :
  Forall (fun line => PyStr.startswith "===" line = false)
         (PyStr.split "010"%char content) ->
  snd (parse_blog content) = content
  /\ dict_get "content_preview" (fst (parse_blog content))
     = Some (preview_of content).
Proof.
  intros H.
  assert (Hb : snd (parse_blog content) = content).
  { unfold parse_blog.
    pose proof (header_loop_no_delimiter _ 0 [] H) as H0.
    destruct (header_loop (PyStr.split "010" content) 0 []) as [metadata content_start].
    cbn [snd] in *. subst content_start. cbn [skipn]. apply join_split. }
  split; [exact Hb |]. now rewrite parse_blog_preview, Hb.
Qed.

Lemma parse_blog_no_delimiter_witness :
  Forall (fun line => PyStr.startswith "===" line = false)
         (PyStr.split "010"%char ("Title: A" ++ Example32.nl ++ "body"))
  /\ snd (parse_blog ("Title: A" ++ Example32.nl ++ "body"))
     = ("Title: A" ++ Example32.nl ++ "body")%string.
Proof.
  assert (H : Forall (fun line => PyStr.startswith "===" line = false)
                     (PyStr.split "010"%char ("Title: A" ++ Example32.nl ++ "body")))
    by (repeat constructor).
  split; [exact H |].
  exact (proj1 (parse_blog_no_delimiter _ H)).
Defined.

End NoDelimiterFacts.

(** ** Case and surrounding white space of a query *)

Section NormalizationFacts.

Lemma rev_string_onto_append (s t acc : string) :
  PyStr.rev_string_onto (s ++ t)%string acc
  = PyStr.rev_string_onto t (PyStr.rev_string_onto s acc).
Proof. revert acc. induction s as [| c r IH]; intros acc; cbn; [reflexivity | apply IH]. Qed.

Lemma rev_string_append (s t : string) :
  PyStr.rev_string (s ++ t)%string = (PyStr.rev_string t ++ PyStr.rev_string s)%string.
Proof.
  unfold PyStr.rev_string at 1. rewrite rev_string_onto_append.
  apply rev_string_onto_app.
Qed.

Lemma lstrip_idem (s : string) : PyStr.lstrip (PyStr.lstrip s) = PyStr.lstrip s.
Proof.
  induction s as [| c r IH]; cbn; [reflexivity |].
  destruct (PyStr.is_space c) eqn:E; [exact IH |]. cbn. now rewrite E.
Qed.

Lemma lstrip_app_space (u w : string) :
  PyStr.lstrip u = "" -> PyStr.lstrip (u ++ w) = PyStr.lstrip w.
Proof.
  induction u as [| c r IH]; cbn; [reflexivity |].
  destruct (PyStr.is_space c); [exact IH | discriminate].
Qed.

Lemma lstrip_app_nonspace (u w : string) :
  PyStr.lstrip u <> "" -> PyStr.lstrip (u ++ w) = (PyStr.lstrip u ++ w)%string.
Proof.
  induction u as [| c r IH]; cbn; [congruence |].
  destruct (PyStr.is_space c); [exact IH | reflexivity].
Qed.

Lemma rev_string_eq_empty (s : string) : PyStr.rev_string s = "" -> s = "".
Proof. intros H. now apply rev_string_onto_empty in H. Qed.

(** [rstrip] read from the left. *)
Lemma rstrip_cons (a : ascii) (m : string) :
  PyStr.rstrip (String a m)
  = match PyStr.rstrip m with
    | EmptyString => if PyStr.is_space a then EmptyString else String a EmptyString
    | r => String a r
    end.
Proof.
  unfold PyStr.rstrip.
  change (String a m) with (String a EmptyString ++ m)%string.
  rewrite rev_string_append.
  change (PyStr.rev_string (String a EmptyString)) with (String a EmptyString).
  destruct (PyStr.lstrip (PyStr.rev_string m)) as [| c t] eqn:E.
  - rewrite lstrip_app_space by exact E. cbn.
    now destruct (PyStr.is_space a).
  - rewrite lstrip_app_nonspace by (rewrite E; discriminate).
    rewrite E, rev_string_append.
    change (PyStr.rev_string (String a EmptyString)) with (String a EmptyString).
    cbn [append].
    destruct (PyStr.rev_string (String c t)) eqn:Er; [| reflexivity].
    apply rev_string_eq_empty in Er. discriminate Er.
Qed.

Lemma lstrip_rstrip (s : string) :
  PyStr.lstrip (PyStr.rstrip s) = PyStr.rstrip (PyStr.lstrip s).
Proof.
  induction s as [| a m IH]; [reflexivity |].
  cbn [PyStr.lstrip]. destruct (PyStr.is_space a) eqn:E.
  - rewrite <- IH, rstrip_cons, E.
    destruct (PyStr.rstrip m); cbn [PyStr.lstrip]; [reflexivity | now rewrite E].
  - rewrite rstrip_cons, E.
    destruct (PyStr.rstrip m); cbn [PyStr.lstrip]; now rewrite E.
Qed.

Lemma rstrip_idem (s : string) : PyStr.rstrip (PyStr.rstrip s) = PyStr.rstrip s.
Proof.
  unfold PyStr.rstrip. now rewrite rev_string_involutive, lstrip_idem.
Qed.

Lemma strip_idem (s : string) : PyStr.strip (PyStr.strip s) = PyStr.strip s.
Proof.
  unfold PyStr.strip. now rewrite lstrip_rstrip, lstrip_idem, rstrip_idem.
Qed.

Lemma lower_lstrip (s : string) :
  PyStr.lower (PyStr.lstrip s) = PyStr.lstrip (PyStr.lower s).
Proof.
  induction s as [| c r IH]; cbn; [reflexivity |].
  rewrite is_space_lower_char. now destruct (PyStr.is_space c).
Qed.

Lemma lower_rstrip (s : string) :
  PyStr.lower (PyStr.rstrip s) = PyStr.rstrip (PyStr.lower s).
Proof.
  induction s as [| a m IH]; [reflexivity |].
  cbn [PyStr.lower]. rewrite !rstrip_cons, <- IH, is_space_lower_char.
  destruct (PyStr.rstrip m); cbn [PyStr.lower];
    [now destruct (PyStr.is_space a) | reflexivity].
Qed.

Lemma lower_strip (s : string) :
  PyStr.lower (PyStr.strip s) = PyStr.strip (PyStr.lower s).
Proof. unfold PyStr.strip. now rewrite lower_rstrip, lower_lstrip. Qed.

End NormalizationFacts.

Section QueryNormalizationFacts.
Context {A : Arith} {MA : Metric A}.

(** [search] does not see the case of the letters of a query nor the
    white space around it: lower-casing or stripping the query beforehand
    changes nothing, for every engine and every [top_k]. *)
Theorem search_ignores_case_and_margins
  (self : Engine) (query : string) (top_k : Z) :
  search (PyStr.lower query) top_k self = search query top_k self
  /\ search (PyStr.strip query) top_k self = search query top_k self.
Proof.
  unfold search. split.
  - now rewrite lower_idem.
  - now rewrite lower_strip, strip_idem.
Qed.

End QueryNormalizationFacts.

(** * Properties of the scraper *)

(** ** File names *)

Section FilenameFacts.
Import Scraper.

Lemma all_chars_append (p : ascii -> bool) (s t : string) :
  PyStr.all_chars p (s ++ t)%string = PyStr.all_chars p s && PyStr.all_chars p t.
Proof.
  induction s as [| c r IH]; cbn; [reflexivity |].
  now rewrite IH, andb_assoc.
Qed.

Lemma all_chars_weaken (p q : ascii -> bool) (s : string) :
  (forall c, p c = true -> q c = true) ->
  PyStr.all_chars p s = true -> PyStr.all_chars q s = true.
Proof.
  intros Hpq. induction s as [| c r IH]; cbn; [reflexivity |].
  intros H. apply andb_true_iff in H as [Hc Hr].
  now rewrite (Hpq c Hc), IH.
Qed.

Lemma all_chars_take (p : ascii -> bool) (n : nat) (s : string) :
  PyStr.all_chars p s = true -> PyStr.all_chars p (PyStr.take n s) = true.
Proof.
  revert s. induction n as [| n IH]; intros [| c r]; cbn; try reflexivity.
  intros H. apply andb_true_iff in H as [Hc Hr]. now rewrite Hc, IH.
Qed.

Lemma all_chars_lstrip (p : ascii -> bool) (s : string) :
  PyStr.all_chars p s = true -> PyStr.all_chars p (PyStr.lstrip s) = true.
Proof.
  induction s as [| c r IH]; cbn; [reflexivity |].
  intros H. destruct (PyStr.is_space c); [| exact H].
  apply andb_true_iff in H as [_ Hr]. now apply IH.
Qed.

Lemma all_chars_rev (p : ascii -> bool) (s : string) :
  PyStr.all_chars p s = true -> PyStr.all_chars p (PyStr.rev_string s) = true.
Proof. intros H. now apply all_chars_rev_onto. Qed.

Lemma all_chars_strip (p : ascii -> bool) (s : string) :
  PyStr.all_chars p s = true -> PyStr.all_chars p (PyStr.strip s) = true.
Proof.
  intros H. unfold PyStr.strip, PyStr.rstrip.
  now apply all_chars_rev, all_chars_lstrip, all_chars_rev, all_chars_lstrip.
Qed.

Lemma all_chars_join (p : ascii -> bool) (sep : string) (l : list string) :
  PyStr.all_chars p sep = true ->
  Forall (fun t => PyStr.all_chars p t = true) l ->
  PyStr.all_chars p (PyStr.join sep l) = true.
Proof.
  intros Hsep H. induction H as [| x l Hx Hl IH]; [reflexivity |].
  destruct l as [| y l]; [exact Hx |].
  change (PyStr.join sep (x :: y :: l))
    with (x ++ sep ++ PyStr.join sep (y :: l))%string.
  now rewrite !all_chars_append, Hx, Hsep, IH.
Qed.

Lemma split_whitespace_chars (p : ascii -> bool) (s cur : string) :
  PyStr.all_chars p s = true -> PyStr.all_chars p cur = true ->
  Forall (fun t => PyStr.all_chars p t = true) (split_whitespace_from cur s).
Proof.
  revert cur. induction s as [| c r IH]; intros cur Hs Hcur; cbn in *.
  - now apply flush_chars.
  - apply andb_true_iff in Hs as [Hc Hr]. destruct (PyStr.is_space c).
    + apply Forall_app. split; [now apply flush_chars | now apply IH].
    + apply IH; [assumption |]. cbn. now rewrite Hc, Hcur.
Qed.

Lemma replace_invalid_valid (s : string) :
  PyStr.all_chars (fun c => negb (is_invalid_char c)) (replace_invalid s) = true.
Proof.
  induction s as [| c r IH]; cbn [replace_invalid PyStr.all_chars]; [reflexivity |].
  rewrite IH, andb_true_r. destruct (is_invalid_char c) eqn:E; [reflexivity |].
  now rewrite E.
Qed.

Lemma rev_string_onto_length (s acc : string) :
  String.length (PyStr.rev_string_onto s acc) = String.length s + String.length acc.
Proof.
  revert acc. induction s as [| c r IH]; intros acc; cbn; [reflexivity |].
  rewrite IH. cbn. lia.
Qed.

Lemma lstrip_length (s : string) : String.length (PyStr.lstrip s) <= String.length s.
Proof.
  induction s as [| c r IH]; cbn; [lia |].
  destruct (PyStr.is_space c); cbn; lia.
Qed.

Lemma strip_length (s : string) : String.length (PyStr.strip s) <= String.length s.
Proof.
  unfold PyStr.strip, PyStr.rstrip, PyStr.rev_string.
  rewrite rev_string_onto_length. cbn.
  pose proof (lstrip_length (PyStr.rev_string_onto (PyStr.lstrip s) "")) as H1.
  rewrite rev_string_onto_length in H1. cbn in H1.
  pose proof (lstrip_length s). lia.
Qed.

Lemma startswith_append (p z : string) : PyStr.startswith p (p ++ z)%string = true.
Proof.
  induction p as [| c r IH]; cbn [append PyStr.startswith]; [reflexivity |].
  now rewrite Ascii.eqb_refl, IH.
Qed.

Lemma endswith_append (x p : string) : PyStr.endswith p (x ++ p)%string = true.
Proof.
  unfold PyStr.endswith. rewrite rev_string_append. apply startswith_append.
Qed.

(** [clean_filename] returns a name of at most 100 characters without
    white space at either end and without any of the characters that line
    33 replaces, the slash among them; so the file [name.txt] that
    [save_blog_content] makes of it is a [.txt] entry that the engine
    indexes under exactly that name. *)
Theorem clean_filename_valid (title dir : string) :
  let name := clean_filename title in
  String.length name <= 100
  /\ PyStr.strip name = name
  /\ PyStr.all_chars (fun c => negb (is_invalid_char c)) name = true
  /\ PyStr.endswith ".txt" (name ++ ".txt") = true
  /\ basename (path_join dir (name ++ ".txt")) = (name ++ ".txt")%string.
Proof.
  intros name.
  assert (Hvalid : PyStr.all_chars (fun c => negb (is_invalid_char c)) name = true).
  { unfold name, clean_filename.
    apply all_chars_strip, all_chars_take, all_chars_join; [reflexivity |].
    apply split_whitespace_chars; [apply replace_invalid_valid | reflexivity]. }
  split.
  { unfold name, clean_filename.
    etransitivity; [apply strip_length | apply take_length]. }
  split; [apply strip_idem |].
  split; [exact Hvalid |].
  split; [apply endswith_append |].
  apply basename_path_join. unfold no_slash.
  rewrite all_chars_append. apply andb_true_iff. split; [| reflexivity].
  revert Hvalid. apply all_chars_weaken.
  intros c. destruct c as [[] [] [] [] [] [] [] []]; vm_compute; congruence.
Qed.

End FilenameFacts.

(** ** From the file that the scraper writes to the engine *)

Section WrittenFileFacts.
Import Scraper.

Lemma split_from_line (sep : ascii) (a b cur : string) :
  PyStr.all_chars (fun c => negb (Ascii.eqb c sep)) a = true ->
  PyStr.split_from sep cur (a ++ String sep b)
  = (PyStr.rev_string cur ++ a)%string :: PyStr.split sep b.
Proof.
  revert cur. induction a as [| c r IH]; intros cur H; cbn [append PyStr.split_from].
  - rewrite Ascii.eqb_refl, append_empty_r. reflexivity.
  - cbn in H. apply andb_true_iff in H as [Hc Hr]. apply negb_true_iff in Hc.
    rewrite Hc, IH by exact Hr. f_equal.
    unfold PyStr.rev_string. cbn [PyStr.rev_string_onto].
    rewrite (rev_string_onto_app cur (String c EmptyString)).
    now rewrite string_app_assoc.
Qed.

Lemma split_line (a b : string) :
  no_newline a = true ->
  PyStr.split "010"%char (a ++ String "010"%char b)
  = a :: PyStr.split "010"%char b.
Proof. intros H. unfold PyStr.split at 1. now rewrite split_from_line. Qed.

Lemma no_newline_append (s t : string) :
  no_newline s = true -> no_newline t = true -> no_newline (s ++ t) = true.
Proof.
  unfold no_newline. intros Hs Ht. now rewrite all_chars_append, Hs, Ht.
Qed.

Lemma replace_from_skip (old new x t : string) :
  PyStr.replace_from old new (String.length x) (x ++ t)%string
  = PyStr.replace_from old new 0 t.
Proof. induction x as [| c r IH]; cbn; [reflexivity | exact IH]. Qed.

(** Replacing a label in a string that starts with it. *)
Lemma replace_label (c : ascii) (old new t : string) :
  PyStr.replace (String c old) new (String c old ++ t)%string
  = (new ++ PyStr.replace (String c old) new t)%string.
Proof.
  unfold PyStr.replace. cbn [append PyStr.replace_from].
  change (PyStr.startswith (String c old) (String c (old ++ t)))
    with (PyStr.startswith (String c old) (String c old ++ t)).
  rewrite startswith_append.
  replace (String.length (String c old) - 1) with (String.length old)
    by (cbn [String.length]; lia).
  now rewrite replace_from_skip.
Qed.

Lemma replace_absent (old new t : string) :
  PyStr.contains old t = false -> PyStr.replace old new t = t.
Proof.
  unfold PyStr.replace. induction t as [| c r IH]; cbn; [reflexivity |].
  intros H. apply orb_false_iff in H as [Hs Hr].
  change (match old with
          | EmptyString => true
          | String a p' => (a =? c)%char && PyStr.startswith p' r
          end) with (PyStr.startswith old (String c r)) in *.
  rewrite Hs. now rewrite IH.
Qed.

Lemma split_written (blog_data : BlogData) (content : string) :
  no_newline (title blog_data) = true ->
  no_newline (author blog_data) = true ->
  no_newline (date blog_data) = true ->
  no_newline (category blog_data) = true ->
  no_newline (url blog_data) = true ->
  PyStr.split "010"%char (blog_file_text blog_data content)
  = [("Title: " ++ title blog_data)%string;
     ("Author: " ++ author blog_data)%string;
     ("Date: " ++ date blog_data)%string;
     ("Category: " ++ category blog_data)%string;
     ("URL: " ++ url blog_data)%string]
    ++ repeat_char "="%char 50 :: "" :: PyStr.split "010"%char content.
Proof.
  intros Ht Ha Hd Hc Hu. unfold blog_file_text.
  repeat match goal with
         | |- context [(?l ++ ?v ++ String "010"%char EmptyString ++ ?rest)%string] =>
             change (l ++ v ++ String "010"%char EmptyString ++ rest)%string
               with (l ++ v ++ String "010"%char rest)%string
         end.
  assert (Ht' : no_newline ("Title: " ++ title blog_data) = true)
    by (apply no_newline_append; [reflexivity | exact Ht]).
  assert (Ha' : no_newline ("Author: " ++ author blog_data) = true)
    by (apply no_newline_append; [reflexivity | exact Ha]).
  assert (Hd' : no_newline ("Date: " ++ date blog_data) = true)
    by (apply no_newline_append; [reflexivity | exact Hd]).
  assert (Hc' : no_newline ("Category: " ++ category blog_data) = true)
    by (apply no_newline_append; [reflexivity | exact Hc]).
  assert (Hu' : no_newline ("URL: " ++ url blog_data) = true)
    by (apply no_newline_append; [reflexivity | exact Hu]).
  rewrite <- (string_app_assoc "Title: " (title blog_data)).
  rewrite (split_line _ _ Ht').
  rewrite <- (string_app_assoc "Author: " (author blog_data)).
  rewrite (split_line _ _ Ha').
  rewrite <- (string_app_assoc "Date: " (date blog_data)).
  rewrite (split_line _ _ Hd').
  rewrite <- (string_app_assoc "Category: " (category blog_data)).
  rewrite (split_line _ _ Hc').
  rewrite <- (string_app_assoc "URL: " (url blog_data)).
  rewrite (split_line _ _ Hu').
  change (repeat_char "=" 50 ++ String "010" EmptyString
          ++ String "010" content)%string
    with (repeat_char "=" 50 ++ String "010" ("" ++ String "010" content))%string.
  rewrite (split_line (repeat_char "=" 50) _ eq_refl).
  rewrite (split_line "" content eq_refl).
  reflexivity.
Qed.

Lemma parse_blog_file_text (blog_data : BlogData) (content : string) :
  no_newline (title blog_data) = true ->
  no_newline (author blog_data) = true ->
  no_newline (date blog_data) = true ->
  no_newline (category blog_data) = true ->
  no_newline (url blog_data) = true ->
  let body := (String "010"%char EmptyString ++ content)%string in
  parse_blog (blog_file_text blog_data content)
  = ([("title", field_value "Title: " (title blog_data));
      ("author", field_value "Author: " (author blog_data));
      ("category", field_value "Category: " (category blog_data));
      ("url", field_value "URL: " (url blog_data));
      ("content_preview", preview_of body)],
     body).
Proof.
  intros Ht Ha Hd Hc Hu body.
  unfold parse_blog.
  rewrite (split_written blog_data content Ht Ha Hd Hc Hu).
  rewrite (header_loop_delimiter _ (repeat_char "=" 50)
             ("" :: PyStr.split "010" content) 0 []);
    [| repeat constructor | reflexivity].
  rewrite skipn_header.
  rewrite join_cons by apply split_from_nonempty.
  rewrite join_split.
  cbn [header_loop fst].
  rewrite !startswith_append.
  change (PyStr.startswith "Title: " ("Author: " ++ author blog_data)) with false.
  change (PyStr.startswith "Title: " ("Date: " ++ date blog_data)) with false.
  change (PyStr.startswith "Author: " ("Date: " ++ date blog_data)) with false.
  change (PyStr.startswith "Category: " ("Date: " ++ date blog_data)) with false.
  change (PyStr.startswith "URL: " ("Date: " ++ date blog_data)) with false.
  change (PyStr.startswith "===" ("Date: " ++ date blog_data)) with false.
  change (PyStr.startswith "Title: " ("Category: " ++ category blog_data)) with false.
  change (PyStr.startswith "Author: " ("Category: " ++ category blog_data)) with false.
  change (PyStr.startswith "Title: " ("URL: " ++ url blog_data)) with false.
  change (PyStr.startswith "Author: " ("URL: " ++ url blog_data)) with false.
  change (PyStr.startswith "Category: " ("URL: " ++ url blog_data)) with false.
  cbv iota.
  rewrite !replace_label. reflexivity.
Qed.

Lemma universal_newlines_append (a b : string) :
  no_return a = true ->
  universal_newlines (a ++ b) = (a ++ universal_newlines b)%string.
Proof.
  induction a as [| c r IH]; intros H; [reflexivity |].
  cbn in H. apply andb_true_iff in H as [Hc Hr]. apply negb_true_iff in Hc.
  cbn [append universal_newlines]. rewrite Hc. now rewrite (IH Hr).
Qed.

Lemma one_line_parts (s : string) :
  one_line s = true -> no_newline s = true /\ no_return s = true.
Proof.
  unfold one_line. intros H. apply andb_true_iff in H as [H Hr].
  apply andb_true_iff in H as [_ Hn]. now split.
Qed.

(** Reading the written file changes its content only. *)
Lemma blog_file_text_read (blog_data : BlogData) (content : string) :
  no_return (title blog_data) = true ->
  no_return (author blog_data) = true ->
  no_return (date blog_data) = true ->
  no_return (category blog_data) = true ->
  no_return (url blog_data) = true ->
  universal_newlines (blog_file_text blog_data content)
  = blog_file_text blog_data (universal_newlines content).
Proof.
  intros Ht Ha Hd Hc Hu. unfold blog_file_text.
  assert (Hr : no_return (repeat_char "=" 50) = true) by (vm_compute; reflexivity).
  repeat
    (etransitivity;
     [apply universal_newlines_append;
      first [exact Ht | exact Ha | exact Hd | exact Hc | exact Hu | exact Hr
            | reflexivity]
     | apply (f_equal (append _))]).
  reflexivity.
Qed.

(** The engine reads back what the scraper wrote.  The file holds the
    text of [save_blog_content] and the engine reads it in text mode.  When
    the fields of the post are ASCII text without a line feed or a
    carriage return, parsing what is read gives the title, the author, the
    category and the URL, each stripped and without occurrences of its own
    label (so a stripped value that does not contain its label comes back
    unchanged), no date, and as body the content, its line ends read as
    line feeds, after an empty first line. *)
Theorem parse_written_file (blog_data : BlogData) (content : string) :
  one_line (title blog_data) = true ->
  one_line (author blog_data) = true ->
  one_line (date blog_data) = true ->
  one_line (category blog_data) = true ->
  one_line (url blog_data) = true ->
  let read := universal_newlines (blog_file_text blog_data content) in
  let body := (String "010"%char EmptyString ++ universal_newlines content)%string in
  parse_blog read
  = ([("title", field_value "Title: " (title blog_data));
      ("author", field_value "Author: " (author blog_data));
      ("category", field_value "Category: " (category blog_data));
      ("url", field_value "URL: " (url blog_data));
      ("content_preview", preview_of body)],
     body)
  /\ forall label value,
       PyStr.contains label value = false ->
       field_value label value = PyStr.strip value.
Proof.
  intros Ht Ha Hd Hc Hu read body.
  apply one_line_parts in Ht as [Ht Ht'], Ha as [Ha Ha'], Hd as [Hd Hd'],
                          Hc as [Hc Hc'], Hu as [Hu Hu'].
  split; [| intros label value H; unfold field_value; now rewrite replace_absent].
  unfold read. rewrite (blog_file_text_read blog_data content Ht' Ha' Hd' Hc' Hu').
  exact (parse_blog_file_text blog_data (universal_newlines content) Ht Ha Hd Hc Hu).
Qed.

End WrittenFileFacts.

(** ** Fetching a page *)

Section RetryFacts.
Import Scraper.
Context {Response : Type}.

(** [get_page_content] makes at most three requests and returns the
    response of the first that succeeds; it sleeps 1 second after the first
    failure and 2 after the second, never after the third, and returns
    [None] exactly when the three requests fail. *)
Theorem get_page_content_attempts
  (session_get : string -> nat -> option Response) (url : string) :
  let response := fst (get_page_content session_get url) in
  let slept := snd (get_page_content session_get url) in
  (response = None <-> forall i, i < 3 -> session_get url i = None)
  /\ (forall r, response = Some r ->
        exists i, i < 3
                  /\ session_get url i = Some r
                  /\ (forall j, j < i -> session_get url j = None)
                  /\ slept = map (Nat.pow 2) (seq 0 i))
  /\ (response = None -> slept = [1; 2])
  /\ list_sum slept <= 3.
Proof.
  unfold get_page_content. cbn [seq retry_loop].
  destruct (session_get url 0) as [r0 |] eqn:E0;
    [| destruct (session_get url 1) as [r1 |] eqn:E1;
       [| destruct (session_get url 2) as [r2 |] eqn:E2]];
    cbn [fst snd Nat.ltb Nat.leb Nat.sub app Nat.pow Nat.mul Nat.add];
    (split; [| split; [| split]]).
  - split; [discriminate |]. intros H. rewrite (H 0) in E0 by lia. discriminate.
  - intros r [= <-]. exists 0. repeat split; try assumption; try lia.
  - discriminate.
  - cbn. lia.
  - split; [discriminate |]. intros H. rewrite (H 1) in E1 by lia. discriminate.
  - intros r [= <-]. exists 1. repeat split; try assumption; try lia.
    intros j Hj. assert (j = 0) by lia. now subst.
  - discriminate.
  - cbn. lia.
  - split; [discriminate |]. intros H. rewrite (H 2) in E2 by lia. discriminate.
  - intros r [= <-]. exists 2. repeat split; try assumption; try lia.
    intros j Hj. assert (j = 0 \/ j = 1) as [-> | ->] by lia; assumption.
  - discriminate.
  - cbn. lia.
  - split; [| reflexivity]. intros _ i Hi.
    assert (i = 0 \/ i = 1 \/ i = 2) as [-> | [-> | ->]] by lia; assumption.
  - discriminate.
  - reflexivity.
  - cbn. lia.
Qed.

End RetryFacts.

(** ** Duplicate links *)

Section UniqueLinksFacts.
Import Scraper.

Lemma unique_step_inv (done : list BlogData) (state : list string * list BlogData)
  (link : BlogData) :
  unique_inv done state -> unique_inv (done ++ [link]) (unique_step state link).
Proof.
  destruct state as [seen kept]. intros (Hseen & Hnd & Hkept & Hfirst).
  unfold unique_step.
  assert (Hext : forall before after l,
             done = before ++ l :: after ->
             done ++ [link] = before ++ l :: (after ++ [link])).
  { intros before after l ->. now rewrite <- app_assoc. }
  destruct (existsb (String.eqb (url link)) seen) eqn:E.
  - apply existsb_exists in E as (u & Hu & Hul). apply String.eqb_eq in Hul. subst u.
    apply Hseen in Hu.
    assert (Hsame : forall u, In u (map url (done ++ [link])) <-> In u (map url done)).
    { intros u. rewrite map_app, in_app_iff. cbn. split; [| tauto].
      intros [H | [<- | []]]; assumption. }
    repeat split.
    + intros H. apply Hsame. now apply Hseen.
    + intros H. apply Hseen. now apply Hsame.
    + exact Hnd.
    + intros H. apply Hsame. now apply Hkept.
    + intros H. apply Hkept. now apply Hsame.
    + intros l Hl. destruct (Hfirst l Hl) as (before & after & Hd & Hn).
      exists before, (after ++ [link]). split; [now apply Hext | exact Hn].
  - assert (Hnew : ~ In (url link) (map url done)).
    { intros H. apply Hseen in H.
      assert (existsb (String.eqb (url link)) seen = true)
        by (apply existsb_exists; exists (url link); split;
            [exact H | apply String.eqb_refl]).
      congruence. }
    repeat split.
    + intros [<- | H]; rewrite map_app, in_app_iff; [right; now left |].
      left. now apply Hseen.
    + rewrite map_app, in_app_iff. intros [H | [<- | []]]; [right | now left].
      now apply Hseen.
    + rewrite map_app. apply NoDup_app; [exact Hnd | repeat constructor; intros [] |].
      intros u Hu [<- | []]. apply Hnew. now apply Hkept.
    + rewrite !map_app, !in_app_iff. intros [H | H]; [left | now right].
      now apply Hkept.
    + rewrite !map_app, !in_app_iff. intros [H | H]; [left | now right].
      now apply Hkept.
    + intros l Hl. apply in_app_or in Hl as [Hl | [<- | []]].
      * destruct (Hfirst l Hl) as (before & after & Hd & Hn).
        exists before, (after ++ [link]). split; [now apply Hext | exact Hn].
      * exists done, []. split; [reflexivity | exact Hnew].
Qed.

Lemma unique_fold_inv (rest done : list BlogData) (state : list string * list BlogData) :
  unique_inv done state ->
  unique_inv (done ++ rest) (fold_left unique_step rest state).
Proof.
  revert done state. induction rest as [| link rest IH]; intros done state H; cbn.
  - now rewrite app_nil_r.
  - replace (done ++ link :: rest) with ((done ++ [link]) ++ rest)
      by (now rewrite <- app_assoc).
    apply IH. now apply unique_step_inv.
Qed.

(** The links kept by [scrape_blogs] have pairwise distinct URLs, cover
    every URL of the collected links, and each is the first collected link
    with its URL. *)
Theorem unique_links_first_occurrences (all_blog_links : list BlogData) :
  let kept := unique_links all_blog_links in
  NoDup (map url kept)
  /\ (forall u, In u (map url kept) <-> In u (map url all_blog_links))
  /\ (forall link, In link kept ->
        exists before after,
          all_blog_links = before ++ link :: after
          /\ ~ In (url link) (map url before)).
Proof.
  intros kept.
  assert (H : unique_inv ([] ++ all_blog_links)
                (fold_left unique_step all_blog_links ([], []))).
  { apply unique_fold_inv. cbn. repeat split; try tauto; try constructor. }
  unfold kept, unique_links. cbn [app] in H.
  destruct (fold_left unique_step all_blog_links ([], [])) as [seen k].
  destruct H as (_ & Hnd & Hk & Hf). cbn [snd]. repeat split; try assumption.
  - now apply Hk.
  - now apply Hk.
Qed.

End UniqueLinksFacts.

(** ** Saving a post *)

Section SaveFacts.
Import Scraper.

Lemma append_cancel_l (s t u : string) : (s ++ t = s ++ u)%string -> t = u.
Proof. induction s as [| c r IH]; cbn; [trivial |]. intros [= H]. now apply IH. Qed.

Lemma append_cancel_r (t u s : string) :
  (t ++ s = u ++ s)%string -> t = u.
Proof.
  revert u. induction t as [| c r IH]; intros [| d u] H; cbn in H.
  - reflexivity.
  - exfalso. apply (f_equal String.length) in H. cbn in H.
    rewrite string_length_append in H. lia.
  - exfalso. apply (f_equal String.length) in H. cbn in H.
    rewrite string_length_append in H. lia.
  - injection H as -> H. f_equal. now apply IH.
Qed.

Lemma str_of_nat_inj (i j : nat) : str_of_nat i = str_of_nat j -> i = j.
Proof.
  unfold str_of_nat. intros H.
  apply (f_equal NilEmpty.uint_of_string) in H. rewrite !NilEmpty.usu in H.
  injection H as H. now apply Unsigned.to_uint_inj.
Qed.

Lemma path_join_cancel (a name x y : string) :
  path_join a (name ++ "_" ++ x) = path_join a (name ++ "_" ++ y) ->
  x = y.
Proof.
  unfold path_join.
  assert (Hs : PyStr.startswith "/" (name ++ "_" ++ x)
               = PyStr.startswith "/" (name ++ "_" ++ y))
    by (destruct name; reflexivity).
  rewrite <- Hs.
  destruct (PyStr.startswith "/" (name ++ "_" ++ x));
    [| destruct (String.eqb a "" || PyStr.endswith "/" a)%bool];
    intros H; repeat apply append_cancel_l in H; exact H.
Qed.

Lemma candidate_path_inj (output_dir filename : string) (i j : nat) :
  candidate_path output_dir filename i = candidate_path output_dir filename j ->
  i = j.
Proof.
  unfold candidate_path. destruct (splitext filename) as [name ext].
  intros H. apply path_join_cancel, append_cancel_r in H.
  now apply str_of_nat_inj.
Qed.

Lemma free_path_step
  (fuel : nat) (files : Files) (output_dir filename filepath : string) (counter : nat) :
  free_path (S fuel) files output_dir filename filepath counter
  = if file_exists files filepath
    then free_path fuel files output_dir filename
           (candidate_path output_dir filename counter) (S counter)
    else Some filepath.
Proof.
  cbn [free_path]. unfold candidate_path.
  now destruct (splitext filename) as [name ext].
Qed.

Lemma free_path_free
  (fuel : nat) (files : Files) (output_dir filename filepath : string) (counter : nat)
  (path : string) :
  free_path fuel files output_dir filename filepath counter = Some path ->
  file_exists files path = false.
Proof.
  revert filepath counter. induction fuel as [| fuel IH]; intros filepath counter;
    [discriminate |].
  rewrite free_path_step. destruct (file_exists files filepath) eqn:E.
  - apply IH.
  - now intros [= <-].
Qed.

Lemma free_path_found
  (files : Files) (output_dir filename : string) (m counter : nat) :
  (exists i, i < m
             /\ file_exists files (candidate_path output_dir filename (counter + i))
                = false) ->
  exists path,
    free_path m files output_dir filename
      (candidate_path output_dir filename counter) (S counter) = Some path.
Proof.
  revert counter. induction m as [| m IH]; intros counter (i & Hi & Hfree); [lia |].
  rewrite free_path_step.
  destruct (file_exists files (candidate_path output_dir filename counter)) eqn:E;
    [| now eexists].
  apply IH. destruct i as [| i].
  - rewrite Nat.add_0_r in Hfree. congruence.
  - exists i. split; [lia |]. now rewrite Nat.add_succ_comm.
Qed.

Lemma all_or_one (P : nat -> bool) (m : nat) :
  (forall i, i < m -> P i = true) \/ (exists i, i < m /\ P i = false).
Proof.
  induction m as [| m [IH | (i & Hi & Hf)]].
  - left. intros i Hi. lia.
  - destruct (P m) eqn:E.
    + left. intros i Hi. destruct (Nat.eq_dec i m) as [-> | Hne]; [exact E |].
      apply IH. lia.
    + right. exists m. split; [lia | exact E].
  - right. exists i. split; [lia | exact Hf].
Qed.

Lemma file_exists_key (files : Files) (path : string) :
  file_exists files path = true -> In path (dict_keys files).
Proof.
  unfold file_exists. destruct (dict_get path files) as [v |] eqn:E; [| discriminate].
  intros _. apply dict_get_In in E.
  exact (in_map fst files (path, v) E).
Qed.

(** Among more candidates than there are files, one is free. *)
Lemma candidate_free
  (files : Files) (output_dir filename : string) (counter m : nat) :
  List.length files < m ->
  exists i, i < m
            /\ file_exists files (candidate_path output_dir filename (counter + i))
               = false.
Proof.
  intros Hm.
  destruct (all_or_one
              (fun i => file_exists files
                          (candidate_path output_dir filename (counter + i))) m)
    as [Hall | Hone]; [| exact Hone].
  exfalso.
  assert (Hnd : NoDup (map (fun i => candidate_path output_dir filename (counter + i))
                           (seq 0 m))).
  { apply Finite.Injective_map_NoDup; [| apply seq_NoDup].
    intros i j H. apply candidate_path_inj in H. lia. }
  assert (Hincl : incl (map (fun i => candidate_path output_dir filename (counter + i))
                            (seq 0 m))
                       (dict_keys files)).
  { intros p Hp. apply in_map_iff in Hp as (i & <- & Hi).
    apply in_seq in Hi. apply file_exists_key, Hall. lia. }
  pose proof (NoDup_incl_length Hnd Hincl) as Hlen.
  unfold dict_keys in Hlen. rewrite !length_map, length_seq in Hlen. lia.
Qed.

Lemma free_path_terminates
  (fuel : nat) (files : Files) (output_dir filename filepath : string) :
  List.length files + 2 <= fuel ->
  exists path,
    free_path fuel files output_dir filename filepath 1 = Some path.
Proof.
  intros Hfuel. destruct fuel as [| fuel]; [lia |].
  rewrite free_path_step. destruct (file_exists files filepath); [| now eexists].
  apply free_path_found. apply candidate_free. lia.
Qed.

(** With fuel for two more tests than there are files, the loop of
    [save_blog_content] ends and the call returns.  Content that is empty
    or has fewer than 100 characters once stripped is refused; a call that
    is refused, or whose file cannot be opened, leaves the files as they
    were; a successful call writes the text of the post to a path that did
    not exist and changes no other file. *)
Theorem save_blog_content_safe
  (fuel : nat) (can_open : string -> bool) (output_dir : string)
  (blog_data : BlogData) (content : string) (files : Files) :
  List.length files + 2 <= fuel ->
  exists ok files',
    save_blog_content fuel can_open output_dir blog_data content files
    = Some (ok, files')
    /\ (content = "" \/ String.length (PyStr.strip content) < 100 -> ok = false)
    /\ (ok = false -> files' = files)
    /\ (ok = true ->
        exists path,
          file_exists files path = false
          /\ dict_get path files' = Some (blog_file_text blog_data content)
          /\ forall p, p <> path -> dict_get p files' = dict_get p files).
Proof.
  intros Hfuel. unfold save_blog_content.
  destruct (String.eqb content "") eqn:Ec; cbn [orb].
  { exists false, files. repeat split; try reflexivity. discriminate. }
  apply String.eqb_neq in Ec.
  destruct (String.length (PyStr.strip content) <? 100) eqn:El.
  { exists false, files. repeat split; try reflexivity. discriminate. }
  apply Nat.ltb_ge in El.
  destruct (free_path_terminates fuel files output_dir
              (clean_filename (title blog_data) ++ ".txt")
              (path_join output_dir (clean_filename (title blog_data) ++ ".txt"))
              Hfuel) as [path Hpath].
  rewrite Hpath. pose proof (free_path_free _ _ _ _ _ _ _ Hpath) as Hfree.
  destruct (can_open path).
  - exists true, (dict_set path (blog_file_text blog_data content) files).
    split; [reflexivity |]. split; [intros [H | H]; [contradiction | lia] |].
    split; [discriminate |]. intros _. exists path.
    split; [exact Hfree |]. split; [apply dict_get_set_eq |].
    intros p Hp. now apply dict_get_set_ne.
  - exists false, files. repeat split; try reflexivity. discriminate.
Qed.

End SaveFacts.

(** * Properties of the web application *)

Section RouteFacts.
Context {A : Arith} {MA : Metric A}.
Import App.

Lemma rank_length (self : Engine) (query_embedding : vec) (top_k : Z) :
  (0 <= top_k)%Z ->
  (Z.of_nat (List.length (eval (rank query_embedding top_k) self)) <= top_k)%Z.
Proof.
  intros Hk. unfold eval. rewrite rank_run. cbn [fst]. rewrite length_map.
  destruct (fst (_compute_similarities query_embedding self));
    [cbn; lia | now apply py_slice_to_length].
Qed.

(** [/search] answers 500 without an engine and 400 for a blank query;
    every other query is answered from the ranking alone, the fallback
    search being out of reach of the route: the response lists the ranked
    results, formatted, with their number, which is at most [top_k] when
    [top_k] is not negative. *)
Theorem search_blogs_ranks_only
  (engine : Engine) (query : string) (top_k : option Z) :
  let data := {| data_query := Some query; data_top_k := top_k |} in
  let k := match top_k with Some k => k | None => 5%Z end in
  let ranked :=
    eval (rank (create_document_embedding (model_wv engine)
                  (_clean_text (PyStr.strip (PyStr.lower query)))) k) engine in
  search_blogs None (Some data) = SearchError 500 "Search engine not initialized"
  /\ (PyStr.all_chars PyStr.is_space query = true ->
      search_blogs (Some engine) (Some data) = SearchError 400 "Empty query")
  /\ (PyStr.all_chars PyStr.is_space query = false ->
      search_blogs (Some engine) (Some data)
      = SearchOk query (map format_result ranked) (List.length ranked)
      /\ ((0 <= k)%Z -> (Z.of_nat (List.length ranked) <= k)%Z)).
Proof.
  intros data k ranked. split; [reflexivity |]. split.
  - intros Hb. apply (proj2 (strip_empty_iff query)) in Hb.
    unfold search_blogs. cbn [data_query data]. now rewrite Hb.
  - intros Hb.
    assert (Hq : String.eqb (PyStr.strip query) "" = false).
    { apply String.eqb_neq. intros H.
      apply (proj1 (strip_empty_iff query)) in H. congruence. }
    assert (Hn : String.eqb (PyStr.strip (PyStr.lower query)) "" = false).
    { apply String.eqb_neq. intros H.
      apply (proj1 (normalized_empty_iff query)) in H.
      apply (proj1 (strip_empty_iff query)) in H. congruence. }
    split; [| apply rank_length].
    unfold search_blogs. cbn [data_query data_top_k data]. rewrite Hq.
    fold k. unfold eval at 1 2.
    rewrite (search_nonempty_query query k engine Hn).
    now rewrite length_map.
Qed.

Lemma simple_tokenize_word (s cur : string) :
  PyStr.all_chars is_word_char s = true ->
  simple_tokenize_from cur s = flush (PyStr.rev_string_onto s cur).
Proof.
  revert cur. induction s as [| c r IH]; intros cur H; cbn in *; [reflexivity |].
  apply andb_true_iff in H as [Hc Hr]. rewrite Hc. now apply IH.
Qed.

Lemma alpha_lower_word_char (c : ascii) :
  PyStr.is_alpha c = true ->
  is_word_char (PyStr.lower_char c) = true
  /\ Ascii.eqb "_"%char (PyStr.lower_char c) = false.
Proof. destruct c as [[] [] [] [] [] [] [] []]; vm_compute; intuition congruence. Qed.

Lemma lower_length (s : string) : String.length (PyStr.lower s) = String.length s.
Proof. induction s as [| c r IH]; cbn; [reflexivity | now rewrite IH]. Qed.

Lemma clean_text_alpha_word (word : string) :
  PyStr.all_chars PyStr.is_alpha word = true ->
  3 <= String.length word <= 50 ->
  _clean_text word = [PyStr.lower word].
Proof.
  intros Ha Hlen. unfold _clean_text, simple_preprocess, tokenize_lower.
  assert (Hw : PyStr.all_chars is_word_char (PyStr.lower word) = true).
  { clear Hlen. induction word as [| c r IH]; cbn in *; [reflexivity |].
    apply andb_true_iff in Ha as [Hc Hr].
    now rewrite (proj1 (alpha_lower_word_char c Hc)), IH. }
  rewrite simple_tokenize_word by exact Hw.
  fold (PyStr.rev_string (PyStr.lower word)).
  destruct word as [| c r]; [cbn in Hlen; lia |].
  destruct (PyStr.rev_string (PyStr.lower (String c r))) as [| d t] eqn:Er.
  { apply rev_string_eq_empty in Er. discriminate Er. }
  cbn [flush]. rewrite <- Er, rev_string_involutive. cbn [filter].
  rewrite lower_length.
  destruct Hlen as [H3 H50]. apply Nat.leb_le in H3, H50. rewrite H3, H50.
  cbn in Ha. apply andb_true_iff in Ha as [Hc _].
  cbn [PyStr.lower PyStr.startswith].
  now rewrite (proj2 (alpha_lower_word_char c Hc)).
Qed.

(** [/suggest] proposes at most 20 words; each is a word of the
    vocabulary of at least five characters that [str.isalpha] accepts; an
    ASCII word among them is made of letters only and, when it has at most
    50 of them, the tokenizer reads it as the single token that is its
    lower-casing.  [str_isalpha] is any table that is [isalpha] on ASCII
    words. *)
Theorem get_suggestions_words (str_isalpha : string -> bool) (engine : Engine) :
  (forall word, is_ascii word = true -> str_isalpha word = isalpha word) ->
  let suggestions := fst (get_suggestions str_isalpha (Some engine)) in
  List.length suggestions <= 20
  /\ snd (get_suggestions str_isalpha (Some engine))
     = List.length (key_to_index (model_wv engine))
  /\ forall word,
       In word suggestions ->
       In word (dict_keys (key_to_index (model_wv engine)))
       /\ 5 <= String.length word
       /\ str_isalpha word = true
       /\ (is_ascii word = true ->
           PyStr.all_chars PyStr.is_alpha word = true
           /\ (String.length word <= 50 -> _clean_text word = [PyStr.lower word])).
Proof.
  intros Htable suggestions. unfold suggestions, get_suggestions. cbn [fst snd].
  split.
  { pose proof (py_slice_to_length 20
                  (filter (fun word => (4 <? String.length word) && str_isalpha word)
                          (dict_keys (key_to_index (model_wv engine))))).
    lia. }
  split; [unfold dict_keys; apply length_map |].
  intros word Hin. apply py_slice_to_incl, filter_In in Hin as [Hin Hf].
  apply andb_true_iff in Hf as [Hlen Ha]. apply Nat.ltb_lt in Hlen.
  repeat split; try assumption.
  - rewrite (Htable word H) in Ha. unfold isalpha in Ha.
    now apply andb_true_iff in Ha as [_ Ha].
  - intros H50. rewrite (Htable word H) in Ha. unfold isalpha in Ha.
    apply andb_true_iff in Ha as [_ Ha].
    apply clean_text_alpha_word; [assumption | lia].
Qed.

End RouteFacts.

Section StatsFacts.
Context {A : Arith} {MA : Metric A}.
Import App.

(** For the engine that [__init__] builds, [/stats] reports the same
    number as [blog_count] and as [indexed_words], the size of the
    embedding table as [vocabulary_size], the first names of the index, at
    most 10, as [sample_blogs] and at most 20 vocabulary words as
    [sample_vocabulary]. *)
Theorem app_stats_consistent
  (wv : KeyedVectors) (dir : string) (fs : FileSystem) :
  exists stats,
    App.get_stats (Some (__init__ wv dir fs)) = Some stats
    /\ blog_count stats = indexed_words stats
    /\ vocabulary_size stats = List.length (key_to_index wv)
    /\ sample_blogs stats
       = firstn 10 (dict_keys (blog_metadata (__init__ wv dir fs)))
    /\ List.length (sample_blogs stats) <= 10
    /\ sample_vocabulary stats = firstn 20 (dict_keys (key_to_index wv))
    /\ List.length (sample_vocabulary stats) <= 20.
Proof.
  eexists. split; [reflexivity |].
  cbn [blog_count indexed_words vocabulary_size sample_blogs sample_vocabulary].
  rewrite init_model_wv.
  split.
  { pose proof (init_keys_agree wv dir fs) as H. unfold keys_agree, dict_keys in H.
    apply (f_equal (@List.length string)) in H. now rewrite !length_map in H. }
  split; [reflexivity |].
  split; [reflexivity |].
  split; [apply firstn_le_length |].
  assert (Hv : eval (get_vocabulary_sample 20) (__init__ wv dir fs)
               = firstn 20 (dict_keys (key_to_index wv))).
  { unfold eval, get_vocabulary_sample, bind, gets, ret. cbn [fst].
    now rewrite init_model_wv. }
  rewrite Hv. change (py_slice_to 20 ?l) with (firstn 20 l).
  rewrite firstn_firstn. cbn [Nat.min].
  split; [reflexivity | apply firstn_le_length].
Qed.

End StatsFacts.


(** * The further properties at concrete inputs *)

Section FurtherInstances.
Import Example32 ExamplePost.

Lemma init_previews_bounded_witness :
  In ("a.txt", fst (parse_blog file_a)) (blog_metadata (__init__ wv "blogs" fs))
  /\ exists preview,
       dict_get "content_preview" (fst (parse_blog file_a)) = Some preview
       /\ String.length preview <= 303.
Proof.
  assert (H : In ("a.txt", fst (parse_blog file_a))
                 (blog_metadata (__init__ wv "blogs" fs)))
    by (vm_compute; left; reflexivity).
  split; [exact H |].
  exact (init_previews_bounded wv "blogs" fs "a.txt" _ H).
Defined.

Lemma search_results_carry_metadata_witness :
  In ("c.txt", B32.of_Z 1, fst (parse_blog file_c))
     (eval (search "Food" 5) (__init__ wv "blogs" fs))
  /\ dict_get "c.txt" (blog_metadata (__init__ wv "blogs" fs))
     = Some (fst (parse_blog file_c)).
Proof.
  assert (H : In ("c.txt", B32.of_Z 1, fst (parse_blog file_c))
                 (eval (search "Food" 5) (__init__ wv "blogs" fs)))
    by (vm_compute; left; reflexivity).
  split; [exact H |].
  exact (proj1 (search_results_carry_metadata wv "blogs" fs "Food" 5
                  "c.txt" (B32.of_Z 1) _ H)).
Defined.

Lemma rank_returns_all_scored_witness :
  (Z.of_nat (List.length (doc_embeddings engine)) <= 5)%Z
  /\ Permutation
       (map (fun r => fst (fst r))
            (eval (rank (eval (_get_query_embeddings "food") engine) 5) engine))
       (dict_keys (filter (fun item => nltb nzero (np_linalg_norm (snd item)))
                          (doc_embeddings engine))).
Proof.
  assert (Hk : (Z.of_nat (List.length (doc_embeddings engine)) <= 5)%Z)
    by (vm_compute; discriminate).
  assert (Hq : neqb (np_linalg_norm (eval (_get_query_embeddings "food") engine))
                    nzero = false)
    by (vm_compute; reflexivity).
  split; [exact Hk |].
  exact (rank_returns_all_scored engine (eval (_get_query_embeddings "food") engine) 5
           (proj2 (init_keys_distinct wv "blogs" fs)) Hq Hk).
Defined.

Lemma rank_sorted_by_score_witness :
  StronglySorted
    (fun r1 r2 : Result => nltb (snd (fst r1)) (snd (fst r2)) = false)
    (eval (rank (eval (_get_query_embeddings "food") engine) 5) engine).
Proof.
  apply rank_sorted_by_score.
  - intros x y Hx Hy. vm_compute in Hx, Hy.
    destruct Hx as [<- | [<- | []]], Hy as [<- | [<- | []]];
      vm_compute; congruence.
  - intros x y z Hx Hy Hz. vm_compute in Hx, Hy, Hz.
    destruct Hx as [<- | [<- | []]], Hy as [<- | [<- | []]],
             Hz as [<- | [<- | []]];
      vm_compute; congruence.
Defined.

Lemma rank_ties_keep_index_order_witness :
  eval (rank (eval (_get_query_embeddings "food hello") engine) 5) engine
  = map (attach engine)
        (py_slice_to 5
           (eval (_compute_similarities
                    (eval (_get_query_embeddings "food hello") engine)) engine)).
Proof.
  apply rank_ties_keep_index_order.
  intros x y Hx Hy. vm_compute in Hx, Hy.
  destruct Hx as [<- | [<- | []]], Hy as [<- | [<- | []]]; vm_compute; reflexivity.
Defined.

Lemma parse_written_file_witness :
  one_line (Scraper.title post) = true
  /\ Scraper.save_blog_content 1 (fun _ => true) "out" post two_lines []
     = Some (true, [("out/T.txt", Scraper.blog_file_text post two_lines)])
  /\ universal_newlines two_lines
     = (Scraper.repeat_char "a" 60 ++ nl ++ Scraper.repeat_char "b" 60)%string
  /\ parse_blog (universal_newlines (Scraper.blog_file_text post two_lines))
     = ([("title", field_value "Title: " (Scraper.title post));
         ("author", field_value "Author: " (Scraper.author post));
         ("category", field_value "Category: " (Scraper.category post));
         ("url", field_value "URL: " (Scraper.url post));
         ("content_preview", preview_of (nl ++ universal_newlines two_lines))],
        (nl ++ universal_newlines two_lines)%string).
Proof.
  assert (Ht : one_line (Scraper.title post) = true) by (vm_compute; reflexivity).
  assert (Ha : one_line (Scraper.author post) = true) by (vm_compute; reflexivity).
  assert (Hd : one_line (Scraper.date post) = true) by (vm_compute; reflexivity).
  assert (Hc : one_line (Scraper.category post) = true) by (vm_compute; reflexivity).
  assert (Hu : one_line (Scraper.url post) = true) by (vm_compute; reflexivity).
  split; [exact Ht |].
  split; [vm_compute; reflexivity |].
  split; [vm_compute; reflexivity |].
  exact (proj1 (parse_written_file post two_lines Ht Ha Hd Hc Hu)).
Defined.

Lemma save_blog_content_safe_witness :
  List.length [("out/T.txt", "old")] + 2 <= 3
  /\ exists ok files',
       Scraper.save_blog_content 3 (fun _ => true) "out" post
         (Scraper.repeat_char "a" 120) [("out/T.txt", "old")]
       = Some (ok, files')
       /\ (Scraper.repeat_char "a" 120 = ""
           \/ String.length (PyStr.strip (Scraper.repeat_char "a" 120)) < 100 ->
           ok = false)
       /\ (ok = false -> files' = [("out/T.txt", "old")])
       /\ (ok = true ->
           exists path,
             Scraper.file_exists [("out/T.txt", "old")] path = false
             /\ dict_get path files'
                = Some (Scraper.blog_file_text post (Scraper.repeat_char "a" 120))
             /\ forall p, p <> path ->
                  dict_get p files' = dict_get p [("out/T.txt", "old")]).
Proof.
  assert (H : List.length [("out/T.txt", "old")] + 2 <= 3) by (cbn; lia).
  split; [exact H |].
  exact (save_blog_content_safe 3 (fun _ => true) "out" post
           (Scraper.repeat_char "a" 120) [("out/T.txt", "old")] H).
Defined.

Lemma get_suggestions_words_witness :
  (forall word, is_ascii word = true -> App.isalpha word = App.isalpha word)
  /\ fst (App.get_suggestions App.isalpha (Some engine)) = ["hello"]
  /\ is_ascii "hello" = true
  /\ _clean_text "hello" = [PyStr.lower "hello"].
Proof.
  assert (Ht : forall word, is_ascii word = true -> App.isalpha word = App.isalpha word)
    by reflexivity.
  assert (Hs : fst (App.get_suggestions App.isalpha (Some engine)) = ["hello"])
    by (vm_compute; reflexivity).
  assert (Hin : In "hello" (fst (App.get_suggestions App.isalpha (Some engine))))
    by (rewrite Hs; left; reflexivity).
  assert (Ha : is_ascii "hello" = true) by reflexivity.
  assert (Hl : String.length "hello" <= 50) by (cbn; lia).
  split; [exact Ht |]. split; [exact Hs |]. split; [exact Ha |].
  exact (proj2 (proj2 (proj2 (proj2
           (proj2 (proj2 (get_suggestions_words App.isalpha engine Ht))
              "hello" Hin))) Ha) Hl).
Defined.

End FurtherInstances.
